(** * meshtastic-bot: modal sessions, paging and the release/comparison caches

    A shallow embedding of the Discord interaction handlers of the bot
    ([discord/handlers/modal_handler.go], [internal/discord/handlers/*.go])
    together with the properties stated about them.

    Go strings are byte sequences, and so are Rocq's [string]s: [len(s)] is
    [String.length s] and [s[:n]] is [substring 0 n s]. *)

From Stdlib Require Import ZArith Lia ZifyNat Bool Ascii String.
From stdpp Require Import gmap strings list fin_maps pretty.

Local Open Scope string_scope.
#[local] Set Warnings "-clear-no-such-hyp".

(** ** The parts of Go's [strings] package the handlers call *)

Module strings.

(** [strings.Split(s, sep)] for a separator of one byte (the handlers only
    split on ["_"]).  The result is never empty: [Split("", "_")] is [[""]]. *)
Fixpoint Split (s : string) (sep : ascii) : list string :=
  match s with
  | EmptyString => [EmptyString]
  | String c rest =>
      if Ascii.eqb c sep then EmptyString :: Split rest sep
      else match Split rest sep with
           | [] => [String c EmptyString]
           | hd :: tl => String c hd :: tl
           end
  end.

(** [strings.Join(elems, sep)]. *)
Fixpoint Join (elems : list string) (sep : string) : string :=
  match elems with
  | [] => ""
  | [a] => a
  | a :: rest => a +:+ sep +:+ Join rest sep
  end.

(** [strings.HasPrefix(s, prefix)]. *)
Definition HasPrefix (s pre : string) : bool := String.prefix pre s.

(** [strings.TrimPrefix(s, prefix)]: [s[len(prefix):]] when [s] starts with
    [prefix], [s] otherwise. *)
Definition TrimPrefix (s pre : string) : string :=
  if HasPrefix s pre
  then substring (String.length pre) (String.length s - String.length pre) s
  else s.

(** [strings.Contains(s, substr)]. *)
Fixpoint Contains (s substr : string) : bool :=
  String.prefix substr s ||
  match s with
  | EmptyString => false
  | String _ rest => Contains rest substr
  end.

Definition isASCII (s : string) : bool :=
  forallb (fun c => (Ascii.nat_of_ascii c <? 128)%nat) (list_ascii_of_string s).

Definition lowerByte (c : ascii) : ascii :=
  let n := Ascii.nat_of_ascii c in
  if ((65 <=? n) && (n <=? 90))%nat then Ascii.ascii_of_nat (n + 32) else c.

Fixpoint mapBytes (f : ascii -> ascii) (s : string) : string :=
  match s with
  | EmptyString => EmptyString
  | String c rest => String (f c) (mapBytes f rest)
  end.

(** [strings.ToLower(s)]: byte-wise on ASCII-only input; on any other input
    Go maps every rune through [unicode.ToLower], whose tables are not part
    of this repository and are taken as the parameter [unicodeLower]. *)
Definition ToLower (unicodeLower : string -> string) (s : string) : string :=
  if isASCII s then mapBytes lowerByte s else unicodeLower s.

End strings.

(** ** Go's [time] package: instants and saturating durations *)

Module time.

Local Open Scope Z_scope.

(** An instant, in nanoseconds on the monotonic clock. *)
Definition Time := Z.
(** [time.Duration] is an [int64] count of nanoseconds. *)
Definition Duration := Z.

Definition minDuration : Duration := - 2 ^ 63.
Definition maxDuration : Duration := 2 ^ 63 - 1.
Definition Millisecond : Duration := 1000000.
Definition Minute : Duration := 60 * 1000 * Millisecond.
Definition Hour : Duration := 60 * Minute.

(** [t.Sub(u)]: the difference, clamped to the range of [Duration]. *)
Definition Sub (t u : Time) : Duration :=
  if t - u <? minDuration then minDuration
  else if maxDuration <? t - u then maxDuration
  else t - u.

End time.

(** ** [config.FieldConfig] *)

Module config.

Record FieldConfig := {
  CustomID : string;
  Label : string;
  Style : string;
  Placeholder : string;
  Required : bool;
  MinLength : Z;
  MaxLength : Z
}.

End config.

(** ** The [discordgo] values the handlers read and build *)

Module discordgo.

Inductive TextInputStyle := TextInputShort | TextInputParagraph.
Inductive ButtonStyle := PrimaryButton.

Record TextInput := {
  CustomID : string;
  Label : string;
  Style : TextInputStyle;
  Placeholder : string;
  Value : string;
  Required : bool
}.

Record Button := {
  ButtonLabel : string;
  ButtonStyle_ : ButtonStyle;
  ButtonCustomID : string
}.

(** [MessageComponent] is an interface.  A type assertion to
    [*discordgo.ActionsRow] or [*discordgo.TextInput] succeeds on the pointer
    types only (what a decoded submission holds); the responses the handlers
    build hold the value types. *)
#[local] Unset Elimination Schemes.
Inductive MessageComponent :=
| ActionsRowPtr (Components : list MessageComponent)
| TextInputPtr (t : TextInput)
| ActionsRowVal (Components : list MessageComponent)
| TextInputVal (t : TextInput)
| ButtonVal (b : Button)
| OtherComponent.
#[local] Set Elimination Schemes.

Record ApplicationCommandOptionChoice := {
  ChoiceName : string;
  ChoiceValue : string
}.

Inductive InteractionResponseType :=
| InteractionResponseChannelMessageWithSource
| InteractionResponseModal
| InteractionApplicationCommandAutocompleteResult.

Inductive MessageFlags := MessageFlagsNone | MessageFlagsEphemeral.

Record InteractionResponseData := {
  Content : string;
  Flags : MessageFlags;
  RespComponents : list MessageComponent;
  RespCustomID : string;
  Title : string;
  Choices : list ApplicationCommandOptionChoice
}.

Record InteractionResponse := {
  Type_ : InteractionResponseType;
  Data : InteractionResponseData
}.

Record User := { ID : string; Username : string }.

(** The value of a command option; [StringValue] panics on anything that
    is not a string option. *)
Inductive OptionValue := OptString (s : string) | OptOther.

Record ApplicationCommandInteractionDataOption := {
  OptName : string;
  OptValue : OptionValue;
  Focused : bool
}.

(** The payload of an interaction, by interaction type. *)
Inductive InteractionData :=
| ModalSubmitInteractionData (CustomID : string) (Components : list MessageComponent)
| MessageComponentInteractionData (CustomID : string)
| ApplicationCommandInteractionData (Name : string)
    (Options : list ApplicationCommandInteractionDataOption).

(** [i.Member] is nil for an interaction outside a guild; [i.Member.User]
    is then a nil dereference. *)
Record InteractionCreate := {
  ChannelID : string;
  Member : option User;
  IData : InteractionData
}.

End discordgo.

(** ** The go-github values behind the caches *)

Module gogithub.

Record RepositoryRelease := { TagName : option string }.

Definition GetTagName (r : RepositoryRelease) : string :=
  default "" (TagName r).

Record CommitAuthor := { Name : option string }.
Record Commit := { Message : option string; CAuthor : option CommitAuthor }.
Record RepositoryCommit := {
  SHA : option string;
  RCHTMLURL : option string;
  RCCommit : option Commit;
  RCAuthorLogin : option string
}.
Record CommitsComparison := {
  TotalCommits : option Z;
  Commits : list RepositoryCommit;
  HTMLURL : option string
}.

End gogithub.

(** ** [github.Client]: the upstream collaborator

    [github.Client] is an interface ([LiveGitHubClient] in production, a mock
    in the tests).  What a call returns is decided upstream; the methods
    therefore take, besides their Go arguments, the number of upstream calls
    made before this one. *)

Module github.

Definition error := string.

Record IssueResponse := { Number : Z; HTMLURL : string; ID : Z }.

Class Client := {
  GetReleases : nat -> string -> string -> Z ->
                error + list gogithub.RepositoryRelease;
  CompareCommits : nat -> string -> string -> string -> string ->
                   error + gogithub.CommitsComparison;
  CreateIssue : nat -> string -> string -> string -> string -> list string ->
                error + IssueResponse
}.

(** The calls made on the client, as the handlers issue them. *)
Inductive Call :=
| CallGetReleases (owner repo : string) (limit : Z)
| CallCompareCommits (owner repo base head : string)
| CallCreateIssue (owner repo title body : string) (labels : list string).

Definition nl : string := String (Ascii.ascii_of_nat 10) EmptyString.

(** [FormatIssueBody] formats the issue body with Discord user context. *)
Definition FormatIssueBody (username userID description : string) : string :=
  "**Reported by:** " +:+ username +:+ " (ID: " +:+ userID +:+ ")" +:+ nl +:+
  nl +:+ description +:+ nl +:+ nl +:+ "---" +:+ nl +:+
  "*This issue was automatically created from Discord*".

End github.

(** ** [internal/discord/handlers/interaction.go]: the shared state *)

(** [ModalState] tracks the state of multi-part modals. *)
Record ModalState := {
  Title : string;
  AllFields : list config.FieldConfig;
  SubmittedValues : gmap string string;
  Labels : list string;
  Command : string;
  ChannelID : string;
  Owner : string;
  Repo : string
}.

(** [CachedComparison] of [feature_handler.go]. *)
Record CachedComparison := {
  Message : string;
  Timestamp : time.Time
}.

(** The package-level variables of [handlers], the calls made on
    [GithubClient] and the responses handed to [s.InteractionRespond] (both
    most recent first), and the number of clock readings taken so far.
    [modalStates] holds pointers in Go: a handler that writes through
    [state.SubmittedValues] changes the stored session, which the model does
    by storing the updated [ModalState] back under its key. *)
Record World := {
  modalStates : gmap string ModalState;
  releaseCache : list gogithub.RepositoryRelease;
  lastCacheUpdate : time.Time;
  comparisonCache : gmap string CachedComparison;
  clockReads : nat;
  upstream : list github.Call;
  sent : list discordgo.InteractionResponse
}.

Definition set_modalStates (f : gmap string ModalState -> gmap string ModalState)
    (w : World) : World :=
  {| modalStates := f (modalStates w); releaseCache := releaseCache w;
     lastCacheUpdate := lastCacheUpdate w; comparisonCache := comparisonCache w;
     clockReads := clockReads w; upstream := upstream w; sent := sent w |}.

Definition set_releaseCache (rs : list gogithub.RepositoryRelease) (w : World) : World :=
  {| modalStates := modalStates w; releaseCache := rs;
     lastCacheUpdate := lastCacheUpdate w; comparisonCache := comparisonCache w;
     clockReads := clockReads w; upstream := upstream w; sent := sent w |}.

Definition set_lastCacheUpdate (t : time.Time) (w : World) : World :=
  {| modalStates := modalStates w; releaseCache := releaseCache w;
     lastCacheUpdate := t; comparisonCache := comparisonCache w;
     clockReads := clockReads w; upstream := upstream w; sent := sent w |}.

Definition set_comparisonCache
    (f : gmap string CachedComparison -> gmap string CachedComparison)
    (w : World) : World :=
  {| modalStates := modalStates w; releaseCache := releaseCache w;
     lastCacheUpdate := lastCacheUpdate w; comparisonCache := f (comparisonCache w);
     clockReads := clockReads w; upstream := upstream w; sent := sent w |}.

Definition set_clockReads (n : nat) (w : World) : World :=
  {| modalStates := modalStates w; releaseCache := releaseCache w;
     lastCacheUpdate := lastCacheUpdate w; comparisonCache := comparisonCache w;
     clockReads := n; upstream := upstream w; sent := sent w |}.

Definition set_upstream (cs : list github.Call) (w : World) : World :=
  {| modalStates := modalStates w; releaseCache := releaseCache w;
     lastCacheUpdate := lastCacheUpdate w; comparisonCache := comparisonCache w;
     clockReads := clockReads w; upstream := cs; sent := sent w |}.

Definition set_sent (rs : list discordgo.InteractionResponse) (w : World) : World :=
  {| modalStates := modalStates w; releaseCache := releaseCache w;
     lastCacheUpdate := lastCacheUpdate w; comparisonCache := comparisonCache w;
     clockReads := clockReads w; upstream := upstream w; sent := rs |}.

(** ** Handlers as state transformers that may panic *)

Inductive Outcome (A : Type) :=
| Done (a : A) (w : World)
| Panicked (reason : string).
Arguments Done {A} a w.
Arguments Panicked {A} reason.

Definition M (A : Type) : Type := World -> Outcome A.

Definition ret {A} (a : A) : M A := fun w => Done a w.

Definition bind {A B} (m : M A) (k : A -> M B) : M B :=
  fun w => match m w with
           | Done a w' => k a w'
           | Panicked r => Panicked r
           end.

Definition panic {A} (reason : string) : M A := fun _ => Panicked reason.
Definition gets {A} (f : World -> A) : M A := fun w => Done (f w) w.
Definition modify (f : World -> World) : M unit := fun w => Done tt (f w).

#[global] Instance M_ret : MRet M := @ret.
#[global] Instance M_bind : MBind M := fun A B k m => bind m k.

(** What lies outside the repository: the clock, the iteration order of a Go
    map, Unicode case tables, and the configured owner, repository and
    time-to-live values (package variables the handlers only read). *)
Class Env := {
  clock : nat -> time.Time;
  rangeOrder : gmap string string -> list (string * string);
  unicodeLower : string -> string;
  GithubOwner : string;
  GithubRepo : string;
  cacheDuration : time.Duration;
  comparisonCacheTTL : time.Duration
}.

(** ** [internal/discord/handlers/bug_handler.go] *)

(** [truncatePlaceholder] truncates placeholder text to 100 bytes. *)
Definition truncatePlaceholder (text : string) : string :=
  if (100 <? String.length text)%nat
  then substring 0 97 text +:+ "..."
  else text.

(** [a[lo:hi]] panics unless [lo <= hi <= cap(a)]; the handlers only slice
    with [hi <= len(a)], so the capacity is taken to be the length. *)
Definition slice {A} (a : list A) (lo hi : nat) : option (list A) :=
  if ((lo <=? hi) && (hi <=? length a))%nat
  then Some (take (hi - lo) (drop lo a))
  else None.

Section handlers.

Context `{!Env, !github.Client}.

(** *** Primitive effects *)

(** [time.Now()]: the next reading of the clock. *)
Definition Now : M time.Time := fun w =>
  Done (clock (clockReads w)) (set_clockReads (S (clockReads w)) w).

(** [time.Since(t)] is [time.Now().Sub(t)]. *)
Definition Since (t : time.Time) : M time.Duration :=
  now ← Now; mret (time.Sub now t).

(** [s.InteractionRespond(i.Interaction, resp)]; its error is only logged. *)
Definition InteractionRespond (resp : discordgo.InteractionResponse) : M unit :=
  modify (fun w => set_sent (resp :: sent w) w).

Definition GithubClient_GetReleases (owner repo : string) (limit : Z)
    : M (github.error + list gogithub.RepositoryRelease) := fun w =>
  Done (github.GetReleases (length (upstream w)) owner repo limit)
       (set_upstream (github.CallGetReleases owner repo limit :: upstream w) w).

Definition GithubClient_CompareCommits (owner repo base head : string)
    : M (github.error + gogithub.CommitsComparison) := fun w =>
  Done (github.CompareCommits (length (upstream w)) owner repo base head)
       (set_upstream (github.CallCompareCommits owner repo base head :: upstream w) w).

Definition GithubClient_CreateIssue (owner repo title body : string)
    (labels : list string) : M (github.error + github.IssueResponse) := fun w =>
  Done (github.CreateIssue (length (upstream w)) owner repo title body labels)
       (set_upstream (github.CallCreateIssue owner repo title body labels :: upstream w) w).

(** [i.ModalSubmitData()] and [i.MessageComponentData()] panic on an
    interaction of another type. *)
Definition ModalSubmitData (i : discordgo.InteractionCreate)
    : M (string * list discordgo.MessageComponent) :=
  match discordgo.IData i with
  | discordgo.ModalSubmitInteractionData cid comps => mret (cid, comps)
  | _ => panic "ModalSubmitData called on interaction of another type"
  end.

Definition MessageComponentData (i : discordgo.InteractionCreate) : M string :=
  match discordgo.IData i with
  | discordgo.MessageComponentInteractionData cid => mret cid
  | _ => panic "MessageComponentData called on interaction of another type"
  end.

Definition ApplicationCommandData (i : discordgo.InteractionCreate)
    : M (string * list discordgo.ApplicationCommandInteractionDataOption) :=
  match discordgo.IData i with
  | discordgo.ApplicationCommandInteractionData name opts => mret (name, opts)
  | _ => panic "ApplicationCommandData called on interaction of another type"
  end.

(** [i.Member.User]. *)
Definition MemberUser (i : discordgo.InteractionCreate) : M discordgo.User :=
  match discordgo.Member i with
  | Some u => mret u
  | None => panic "invalid memory address or nil pointer dereference"
  end.

Definition StringValue (o : discordgo.ApplicationCommandInteractionDataOption)
    : M string :=
  match discordgo.OptValue o with
  | discordgo.OptString v => mret v
  | discordgo.OptOther => panic "option is not a string"
  end.

(** *** Responses *)

Definition message (content : string)
    (components : list discordgo.MessageComponent) : discordgo.InteractionResponse :=
  {| discordgo.Type_ := discordgo.InteractionResponseChannelMessageWithSource;
     discordgo.Data :=
       {| discordgo.Content := content;
          discordgo.Flags := discordgo.MessageFlagsEphemeral;
          discordgo.RespComponents := components;
          discordgo.RespCustomID := "";
          discordgo.Title := "";
          discordgo.Choices := [] |} |}.

Definition sessionExpired : discordgo.InteractionResponse :=
  message "❌ Session expired. Please start over." [].

Definition createFailed : discordgo.InteractionResponse :=
  message "❌ Failed to create issue. Please try again later." [].

Definition continueButton (stateKey : string) : discordgo.MessageComponent :=
  discordgo.ActionsRowVal
    [discordgo.ButtonVal
       {| discordgo.ButtonLabel := "Continue";
          discordgo.ButtonStyle_ := discordgo.PrimaryButton;
          discordgo.ButtonCustomID := "continue_" +:+ stateKey |}].

(** *** [bug_handler.go]: [buildIssueBody], [extractModalFields] *)

(** [buildIssueBody] constructs the issue body from submitted values; the
    [range] over the map visits its entries in the order [rangeOrder]. *)
Definition buildIssueBody (submittedValues : gmap string string)
    (username userID : string) : string :=
  foldl (fun body '(label, value) =>
           body +:+ "### " +:+ label +:+ github.nl +:+ value +:+ github.nl +:+ github.nl)
        "" (rangeOrder submittedValues)
  +:+ github.nl +:+ "---" +:+ github.nl +:+
  "Submitted via Discord by: " +:+ username +:+ " (" +:+ userID +:+ ")".

(** [extractModalFields] extracts field values from modal components. *)
Definition extractModalFields (components : list discordgo.MessageComponent)
    : gmap string string :=
  foldl (fun fields component =>
           match component with
           | discordgo.ActionsRowPtr comps =>
               foldl (fun fields comp =>
                        match comp with
                        | discordgo.TextInputPtr textInput =>
                            <[discordgo.CustomID textInput := discordgo.Value textInput]> fields
                        | _ => fields
                        end) fields comps
           | _ => fields
           end) ∅ components.

(** *** [modal_handler.go] *)

(** [fmt.Sprintf("%s_%s_%s", command, channelID, userID)]. *)
Definition stateKeyOf (command channelID userID : string) : string :=
  command +:+ "_" +:+ channelID +:+ "_" +:+ userID.

(** The inner loop of both submit handlers: the label of the first field
    whose [CustomID] is the submitted one, the submitted [CustomID] itself
    when there is none. *)
Fixpoint fieldLabelFor (allFields : list config.FieldConfig) (customID : string)
    : string :=
  match allFields with
  | [] => customID
  | field :: rest =>
      if String.eqb (config.CustomID field) customID
      then config.Label field
      else fieldLabelFor rest customID
  end.

Definition with_SubmittedValues (state : ModalState) (vs : gmap string string)
    : ModalState :=
  {| Title := Title state; AllFields := AllFields state; SubmittedValues := vs;
     Labels := Labels state; Command := Command state;
     ChannelID := ChannelID state; Owner := Owner state; Repo := Repo state |}.

Definition mergeTextInput (state : ModalState) (comp : discordgo.MessageComponent)
    : ModalState :=
  match comp with
  | discordgo.TextInputPtr textInput =>
      let fieldLabel :=
        fieldLabelFor (AllFields state) (discordgo.CustomID textInput) in
      with_SubmittedValues state
        (<[fieldLabel := discordgo.Value textInput]> (SubmittedValues state))
  | _ => state
  end.

Definition mergeComponent (state : ModalState)
    (component : discordgo.MessageComponent) : ModalState :=
  match component with
  | discordgo.ActionsRowPtr comps => foldl mergeTextInput state comps
  | _ => state
  end.

(** "Extract and store the submitted values": the loop over
    [data.Components] of [handleModalSubmit] and [handleModalContinuation]. *)
Definition mergeSubmission (state : ModalState)
    (components : list discordgo.MessageComponent) : ModalState :=
  foldl mergeComponent state components.

Definition totalParts (state : ModalState) : nat :=
  (length (AllFields state) + 4) / 5.

Definition currentPart (currentIndex : nat) : nat := (currentIndex + 4) / 5.

Definition partComplete (currentPart totalParts : nat) : string :=
  "Part " +:+ pretty currentPart +:+ " of " +:+ pretty totalParts +:+
  " complete. Click 'Continue' to proceed.".

Definition issueCreated (issue : github.IssueResponse) : string :=
  "✅ Issue #" +:+ pretty (github.Number issue) +:+ " created successfully!" +:+
  github.nl +:+ github.HTMLURL issue.

(** The tail both submit handlers share once the values are stored: offer
    the next part, or create the issue and drop the session. *)
Definition afterMerge (i : discordgo.InteractionCreate) (stateKey : string)
    (state : ModalState) (confirmation : github.IssueResponse -> string) : M unit :=
  let currentIndex := size (SubmittedValues state) in
  if (currentIndex <? length (AllFields state))%nat then
    InteractionRespond
      (message (partComplete (currentPart currentIndex) (totalParts state))
               [continueButton stateKey])
  else
    user ← MemberUser i;
    let body := buildIssueBody (SubmittedValues state)
                  (discordgo.Username user) (discordgo.ID user) in
    r ← GithubClient_CreateIssue GithubOwner GithubRepo (Title state) body
          (Labels state);
    match r with
    | inl _ =>
        InteractionRespond createFailed;;
        modify (set_modalStates (delete stateKey))
    | inr issue =>
        InteractionRespond (message (confirmation issue) []);;
        modify (set_modalStates (delete stateKey))
    end.

(** [handleModalContinuation] processes multi-part modal submissions. *)
Definition handleModalContinuation (i : discordgo.InteractionCreate)
    (stateKey : string) : M unit :=
  found ← gets (fun w => modalStates w !! stateKey);
  match found with
  | None => InteractionRespond sessionExpired
  | Some state =>
      data ← ModalSubmitData i;
      let state := mergeSubmission state data.2 in
      modify (set_modalStates <[stateKey := state]>);;
      afterMerge i stateKey state
        (fun issue =>
           issueCreated issue +:+ github.nl +:+ github.nl +:+
           "**Note:** You can use Markdown formatting in your descriptions. " +:+
           "To add images or other attachments, please edit the issue directly on GitHub.")
  end.

(** The single-part path of [handleModalSubmit] (five fields or fewer). *)
Definition simpleModal (i : discordgo.InteractionCreate) (command : string)
    (components : list discordgo.MessageComponent) : M unit :=
  let fields := extractModalFields components in
  user ← MemberUser i;
  let labels :=
    (["from-discord"] ++
     (if String.eqb command "bug" then ["bug"]
      else if String.eqb command "feature" then ["enhancement"] else []))%list in
  let title := default "" (fields !! "bug_title") in
  let title := if String.eqb title "" then default "" (fields !! "feature_title")
               else title in
  let description := default "" (fields !! "bug_description") in
  let description :=
    if String.eqb description "" then default "" (fields !! "feature_description")
    else description in
  let body := github.FormatIssueBody (discordgo.Username user) (discordgo.ID user)
                description in
  r ← GithubClient_CreateIssue GithubOwner GithubRepo title body labels;
  match r with
  | inl _ => InteractionRespond createFailed
  | inr issue => InteractionRespond (message (issueCreated issue) [])
  end.

Definition handleModalSubmit (i : discordgo.InteractionCreate) : M unit :=
  data ← ModalSubmitData i;
  let parts := strings.Split data.1 "_" in
  if (length parts <? 2)%nat then mret tt
  else
    let parts1 := default "" (parts !! 1%nat) in
    if String.eqb parts1 "continue" && (3 <=? length parts)%nat then
      handleModalContinuation i (strings.Join (drop 2 parts) "_")
    else
      let command := parts1 in
      let channelID := discordgo.ChannelID i in
      user ← MemberUser i;
      let stateKey := stateKeyOf command channelID (discordgo.ID user) in
      found ← gets (fun w => modalStates w !! stateKey);
      match found with
      | Some state =>
          let state := mergeSubmission state data.2 in
          modify (set_modalStates <[stateKey := state]>);;
          afterMerge i stateKey state issueCreated
      | None => simpleModal i command data.2
      end.

(** The text input [handleButtonClick] builds for one field. *)
Definition fieldInput (field : config.FieldConfig) : discordgo.MessageComponent :=
  discordgo.ActionsRowVal
    [discordgo.TextInputVal
       {| discordgo.CustomID := config.CustomID field;
          discordgo.Label := config.Label field;
          discordgo.Style :=
            if String.eqb (config.Style field) "paragraph"
            then discordgo.TextInputParagraph else discordgo.TextInputShort;
          discordgo.Placeholder := truncatePlaceholder (config.Placeholder field);
          discordgo.Value := "";
          discordgo.Required := config.Required field |}].

(** "Show the next modal chunk": [allFields[currentIndex:endIndex]]. *)
Definition chunkAt (allFields : list config.FieldConfig) (currentIndex : nat)
    : option (list config.FieldConfig) :=
  let endIndex := (currentIndex + 5)%nat in
  let endIndex := if (length allFields <? endIndex)%nat
                  then length allFields else endIndex in
  slice allFields currentIndex endIndex.

Definition nextChunk (state : ModalState) : option (list config.FieldConfig) :=
  chunkAt (AllFields state) (size (SubmittedValues state)).

Definition modalResponse (customID title : string)
    (components : list discordgo.MessageComponent) : discordgo.InteractionResponse :=
  {| discordgo.Type_ := discordgo.InteractionResponseModal;
     discordgo.Data :=
       {| discordgo.Content := "";
          discordgo.Flags := discordgo.MessageFlagsNone;
          discordgo.RespComponents := components;
          discordgo.RespCustomID := customID;
          discordgo.Title := title;
          discordgo.Choices := [] |} |}.

Definition handleButtonClick (i : discordgo.InteractionCreate) : M unit :=
  customID ← MessageComponentData i;
  if strings.HasPrefix customID "continue_" then
    let stateKey := strings.TrimPrefix customID "continue_" in
    found ← gets (fun w => modalStates w !! stateKey);
    match found with
    | None => InteractionRespond sessionExpired
    | Some state =>
        match nextChunk state with
        | None => panic "slice bounds out of range"
        | Some chunk =>
            InteractionRespond
              (modalResponse ("modal_continue_" +:+ stateKey) (Title state)
                 (fieldInput <$> chunk))
        end
    end
  else mret tt.

End handlers.

(** ** [internal/discord/handlers/feature_handler.go]: changelog and caches *)

Section changelog.

Context `{!Env, !github.Client}.

(** [message[:idx]] for the first newline at [idx], [message] when there is
    none. *)
Fixpoint firstLine (message : string) : string :=
  match message with
  | EmptyString => EmptyString
  | String c rest =>
      if Ascii.eqb c (Ascii.ascii_of_nat 10) then EmptyString
      else String c (firstLine rest)
  end.

Definition commitLine (commit : gogithub.RepositoryCommit) : string :=
  let message :=
    firstLine (default "" (gogithub.RCCommit commit ≫= gogithub.Message)) in
  let author := default "" (gogithub.RCAuthorLogin commit) in
  let author :=
    if String.eqb author "" then
      match gogithub.RCCommit commit ≫= gogithub.CAuthor with
      | Some commitAuthor => default "" (gogithub.Name commitAuthor)
      | None => "Unknown"
      end
    else author in
  let sha := default "" (gogithub.SHA commit) in
  let sha := if (7 <? String.length sha)%nat then substring 0 7 sha else sha in
  "- [`" +:+ sha +:+ "`](<" +:+ default "" (gogithub.RCHTMLURL commit) +:+ ">) " +:+
  message +:+ " - *" +:+ author +:+ "*" +:+ github.nl.

Definition formatChangelogMessage (base head : string)
    (comparison : gogithub.CommitsComparison) : string :=
  let sb := "## Changes from " +:+ base +:+ " to " +:+ head +:+ github.nl in
  let sb := sb +:+ "Total commits: " +:+
            pretty (default 0%Z (gogithub.TotalCommits comparison)) +:+
            github.nl +:+ github.nl in
  let commits := gogithub.Commits comparison in
  let '(sb, commits) :=
    if (10 <? length commits)%nat
    then (sb +:+ "*Showing last 10 of " +:+ pretty (length commits) +:+
          " commits*" +:+ github.nl +:+ github.nl,
          drop (length commits - 10) commits)
    else (sb, commits) in
  let sb := foldl (fun sb commit => sb +:+ commitLine commit) sb commits in
  sb +:+ github.nl +:+ "[View Full Comparison](<" +:+
  default "" (gogithub.HTMLURL comparison) +:+ ">)".

(** [fmt.Sprintf("%s...%s", base, head)]. *)
Definition cacheKeyOf (base head : string) : string := base +:+ "..." +:+ head.

(** The freshness test of [getChangelogMessage], under either lock: the
    clock is read only when the key is present. *)
Definition comparisonFresh (cacheKey : string) : M (option string) :=
  found ← gets (fun w => comparisonCache w !! cacheKey);
  match found with
  | Some cached =>
      age ← Since (Timestamp cached);
      mret (if (age <? comparisonCacheTTL)%Z then Some (Message cached) else None)
  | None => mret None
  end.

(** [getChangelogMessage]: the keyed comparison cache.  The locks order
    concurrent callers and do nothing for one caller. *)
Definition getChangelogMessage (base head : string) : M (string * option github.error) :=
  let cacheKey := cacheKeyOf base head in
  hit ← comparisonFresh cacheKey;
  match hit with
  | Some cachedMessage => mret (cachedMessage, None)
  | None =>
      hit ← comparisonFresh cacheKey;
      match hit with
      | Some cachedMessage => mret (cachedMessage, None)
      | None =>
          r ← GithubClient_CompareCommits GithubOwner GithubRepo base head;
          match r with
          | inl err => mret ("", Some err)
          | inr comparison =>
              let message := formatChangelogMessage base head comparison in
              now ← Now;
              modify (set_comparisonCache
                        <[cacheKey := {| Message := message; Timestamp := now |}]>);;
              mret (message, None)
          end
      end
  end.

(** [time.Since(lastCacheUpdate) < cacheDuration && len(releaseCache) > 0]:
    the clock is read before the length is looked at. *)
Definition releaseCacheFresh : M bool :=
  last ← gets lastCacheUpdate;
  age ← Since last;
  cached ← gets releaseCache;
  mret ((age <? cacheDuration)%Z && (0 <? length cached)%nat).

(** [updateReleaseCache]: the single-slot release cache. *)
Definition updateReleaseCache : M (option github.error) :=
  fresh ← releaseCacheFresh;
  if fresh : bool then mret None
  else
    fresh ← releaseCacheFresh;
    if fresh : bool then mret None
    else
      r ← GithubClient_GetReleases GithubOwner GithubRepo 100;
      match r with
      | inl err => mret (Some err)
      | inr releases =>
          modify (set_releaseCache releases);;
          now ← Now;
          modify (set_lastCacheUpdate now);;
          mret None
      end.

(** The first focused option of an autocomplete request, lowered. *)
Fixpoint currentInputOf (options : list discordgo.ApplicationCommandInteractionDataOption)
    : M string :=
  match options with
  | [] => mret ""
  | opt :: rest =>
      if discordgo.Focused opt
      then v ← StringValue opt; mret (strings.ToLower unicodeLower v)
      else currentInputOf rest
  end.

Definition choiceOf (tagName : string) : discordgo.ApplicationCommandOptionChoice :=
  {| discordgo.ChoiceName := tagName; discordgo.ChoiceValue := tagName |}.

(** The loop over [releaseCache] of [handleChangelogAutocomplete], from the
    choices gathered so far. *)
Fixpoint collectChoices (currentInput : string)
    (releases : list gogithub.RepositoryRelease)
    (choices : list discordgo.ApplicationCommandOptionChoice)
    : list discordgo.ApplicationCommandOptionChoice :=
  match releases with
  | [] => choices
  | release :: rest =>
      let tagName := gogithub.GetTagName release in
      let choices :=
        if String.eqb currentInput "" ||
           strings.Contains (strings.ToLower unicodeLower tagName) currentInput
        then (choices ++ [choiceOf tagName])%list
        else choices in
      if (25 <=? length choices)%nat then choices
      else collectChoices currentInput rest choices
  end.

Definition autocompleteResult
    (choices : list discordgo.ApplicationCommandOptionChoice)
    : discordgo.InteractionResponse :=
  {| discordgo.Type_ := discordgo.InteractionApplicationCommandAutocompleteResult;
     discordgo.Data :=
       {| discordgo.Content := "";
          discordgo.Flags := discordgo.MessageFlagsNone;
          discordgo.RespComponents := [];
          discordgo.RespCustomID := "";
          discordgo.Title := "";
          discordgo.Choices := choices |} |}.

Definition handleChangelogAutocomplete (i : discordgo.InteractionCreate) : M unit :=
  updateReleaseCache;;
  data ← ApplicationCommandData i;
  currentInput ← currentInputOf data.2;
  releases ← gets releaseCache;
  InteractionRespond (autocompleteResult (collectChoices currentInput releases [])).

End changelog.

(** ** Goroutines racing through [updateReleaseCache]

    The host runs every interaction on a goroutine of its own.  A goroutine
    inside [updateReleaseCache] is at one of the program points below; a
    step of the system is one goroutine moving to its next point.
    [releaseCacheMutex] is a [sync.RWMutex]: [RLock] waits while the write
    lock is held, [Lock] waits while any lock is held.  (In Go a waiting
    [Lock] also holds back new readers; leaving that out only adds
    interleavings.)  The holders are recorded by goroutine number. *)

Module race.

Inductive PC :=
| AtRLock                               (* releaseCacheMutex.RLock() *)
| AtFirstCheck                          (* the test under the read lock *)
| AtRUnlock (fresh : bool)              (* releaseCacheMutex.RUnlock() *)
| AtLock                                (* releaseCacheMutex.Lock() *)
| AtSecondCheck                         (* the test under the write lock *)
| AtFetch                               (* GithubClient.GetReleases(...) *)
| AtStore (releases : list gogithub.RepositoryRelease)  (* releaseCache = releases *)
| AtStamp                               (* lastCacheUpdate = time.Now() *)
| AtUnlock (result : option github.error)   (* the deferred Unlock() *)
| Returned (result : option github.error).

Record System := {
  world : World;
  readers : gset nat;
  writer : option nat;
  goroutines : list PC
}.

Definition isReturned (pc : PC) : bool :=
  match pc with Returned _ => true | _ => false end.

(** Every goroutine has returned. *)
Definition finished (s : System) : bool := forallb isReturned (goroutines s).

(** [K] goroutines about to call [updateReleaseCache], no lock held. *)
Definition start (K : nat) (w : World) : System :=
  {| world := w; readers := ∅; writer := None; goroutines := replicate K AtRLock |}.

Section steps.

Context `{!Env, !github.Client}.

(** Goroutine [g] moves to [pc] and leaves the world and the locks as given. *)
Definition move (g : nat) (pc : PC) (w : World) (rs : gset nat) (wr : option nat)
    (s : System) : System :=
  {| world := w; readers := rs; writer := wr; goroutines := <[g := pc]> (goroutines s) |}.

(** One step of goroutine [g]; [None] when [g] is blocked, has returned, or
    does not exist. *)
Definition step (g : nat) (s : System) : option System :=
  match goroutines s !! g with
  | None => None
  | Some AtRLock =>
      match writer s with
      | None => Some (move g AtFirstCheck (world s) ({[g]} ∪ readers s) None s)
      | Some _ => None
      end
  | Some AtFirstCheck =>
      match releaseCacheFresh (world s) with
      | Done fresh w => Some (move g (AtRUnlock fresh) w (readers s) (writer s) s)
      | Panicked _ => None
      end
  | Some (AtRUnlock fresh) =>
      Some (move g (if fresh then Returned None else AtLock) (world s)
              (readers s ∖ {[g]}) (writer s) s)
  | Some AtLock =>
      match writer s with
      | None =>
          if decide (readers s = ∅)
          then Some (move g AtSecondCheck (world s) (readers s) (Some g) s)
          else None
      | Some _ => None
      end
  | Some AtSecondCheck =>
      match releaseCacheFresh (world s) with
      | Done fresh w =>
          Some (move g (if fresh then AtUnlock None else AtFetch) w
                  (readers s) (writer s) s)
      | Panicked _ => None
      end
  | Some AtFetch =>
      match GithubClient_GetReleases GithubOwner GithubRepo 100 (world s) with
      | Done (inl err) w => Some (move g (AtUnlock (Some err)) w (readers s) (writer s) s)
      | Done (inr releases) w =>
          Some (move g (AtStore releases) w (readers s) (writer s) s)
      | Panicked _ => None
      end
  | Some (AtStore releases) =>
      Some (move g AtStamp (set_releaseCache releases (world s))
              (readers s) (writer s) s)
  | Some AtStamp =>
      match Now (world s) with
      | Done now w =>
          Some (move g (AtUnlock None) (set_lastCacheUpdate now w)
                  (readers s) (writer s) s)
      | Panicked _ => None
      end
  | Some (AtUnlock result) =>
      Some (move g (Returned result) (world s) (readers s) None s)
  | Some (Returned _) => None
  end.

(** The system after the goroutines named by [schedule] have stepped in
    turn; [None] when the schedule names a goroutine that cannot step. *)
Fixpoint run (schedule : list nat) (s : System) : option System :=
  match schedule with
  | [] => Some s
  | g :: rest =>
      match step g s with
      | Some s' => run rest s'
      | None => None
      end
  end.

End steps.

Definition holdsRead (pc : PC) : bool :=
  match pc with AtFirstCheck | AtRUnlock _ => true | _ => false end.

Definition holdsWrite (pc : PC) : bool :=
  match pc with
  | AtSecondCheck | AtFetch | AtStore _ | AtStamp | AtUnlock _ => true
  | _ => false
  end.

(** Between the fetch and the time stamp the cache is half written. *)
Definition storing (pc : PC) : bool :=
  match pc with AtStore _ | AtStamp => true | _ => false end.

(** The steps a goroutine still has to take, at most. *)
Definition weight (pc : PC) : nat :=
  match pc with
  | AtRLock => 9
  | AtFirstCheck => 8
  | AtRUnlock _ => 7
  | AtLock => 6
  | AtSecondCheck => 5
  | AtFetch => 4
  | AtStore _ => 3
  | AtStamp => 2
  | AtUnlock _ => 1
  | Returned _ => 0
  end.

Definition remaining (s : System) : nat := sum_list (weight <$> goroutines s).

(** The locks are held by the goroutines at the matching program points,
    and a writer excludes every reader. *)
Record LockInv (s : System) : Prop := {
  writer_holds : forall g pc, goroutines s !! g = Some pc ->
                              (holdsWrite pc = true <-> writer s = Some g);
  reader_holds : forall g pc, goroutines s !! g = Some pc ->
                              (holdsRead pc = true <-> g ∈ readers s);
  writer_exists : forall g, writer s = Some g -> is_Some (goroutines s !! g);
  reader_exists : forall g, g ∈ readers s -> is_Some (goroutines s !! g);
  writer_excludes : forall g, writer s = Some g -> readers s = ∅
}.

Section cache_phases.

Context `{!Env, !github.Client}.

(** The world the goroutines start from, and what the single fetch returns. *)
Variables (w0 : World) (payload : list gogithub.RepositoryRelease).

Definition theFetch : github.Call :=
  github.CallGetReleases GithubOwner GithubRepo 100.

(** Every clock reading before the [n]-th is less than the time-to-live
    after each earlier reading of the run. *)
Definition window (n : nat) : Prop :=
  forall a b, clockReads w0 <= a -> a < b -> b < n ->
              (time.Sub (clock b) (clock a) < cacheDuration)%Z.

(** Where a goroutine can be while nothing has been fetched... *)
Definition beforeFetch (pc : PC) : Prop :=
  match pc with
  | AtRLock | AtFirstCheck | AtLock | AtSecondCheck | AtFetch => True
  | AtRUnlock fresh => fresh = false
  | AtStore _ | AtStamp | AtUnlock _ | Returned _ => False
  end.

(** ... and once the fetch has been made. *)
Definition afterFetch (pc : PC) : Prop :=
  match pc with
  | AtRLock | AtFirstCheck | AtLock | AtSecondCheck | AtStamp => True
  | AtRUnlock fresh => fresh = true
  | AtStore releases => releases = payload
  | AtUnlock result | Returned result => result = None
  | AtFetch => False
  end.

(** The cache holds the payload, stamped with a reading of this run. *)
Definition settled (w : World) : Prop :=
  releaseCache w = payload
  /\ exists k, clockReads w0 <= k < clockReads w /\ lastCacheUpdate w = clock k.

Record Cold (s : System) : Prop := {
  cold_upstream : upstream (world s) = upstream w0;
  cold_cache : releaseCache (world s) = [];
  cold_points : Forall beforeFetch (goroutines s)
}.

Record Warm (s : System) : Prop := {
  warm_upstream : upstream (world s) = theFetch :: upstream w0;
  warm_points : Forall afterFetch (goroutines s);
  warm_stamp : (exists g, goroutines s !! g = Some AtStamp) ->
               releaseCache (world s) = payload;
  warm_settled : (forall g pc, goroutines s !! g = Some pc -> storing pc = false) ->
                 settled (world s)
}.

Definition CacheInv (s : System) : Prop :=
  clockReads w0 <= clockReads (world s) /\ (Cold s \/ Warm s).

End cache_phases.

End race.

(** ** Vocabulary of the properties *)

(** The world after one more reading of the clock. *)
Definition tick (w : World) : World := set_clockReads (S (clockReads w)) w.

(** The text inputs the merge loop reaches in a submission, in order. *)
Definition textInputsOf (components : list discordgo.MessageComponent)
    : list discordgo.TextInput :=
  components ≫= fun component =>
    match component with
    | discordgo.ActionsRowPtr comps =>
        comps ≫= fun comp =>
          match comp with
          | discordgo.TextInputPtr textInput => [textInput]
          | _ => []
          end
    | _ => []
    end.

(** One assignment [state.SubmittedValues[fieldLabel] = textInput.Value]. *)
Definition storeInput (state : ModalState) (textInput : discordgo.TextInput)
    : ModalState :=
  mergeTextInput state (discordgo.TextInputPtr textInput).

(** Every submitted identifier is the [CustomID] of a field of the session. *)
Definition knownInputs (allFields : list config.FieldConfig)
    (components : list discordgo.MessageComponent) : Prop :=
  Forall (fun textInput =>
            discordgo.CustomID textInput ∈ config.CustomID <$> allFields)
         (textInputsOf components).

(** The keys collected so far are labels of fields of the session. *)
Definition collectedLabels (state : ModalState) : Prop :=
  dom (SubmittedValues state) ⊆@{gset string}
  list_to_set (config.Label <$> AllFields state).


(** A run of the continue button: from [collected] values on, each page shown
    is the chunk the handler computes and, once submitted, adds its fields to
    the count.  At most [fuel] pages. *)
Fixpoint pageRun (fuel : nat) (allFields : list config.FieldConfig)
    (collected : nat) : list (list config.FieldConfig) :=
  match fuel with
  | O => []
  | S fuel =>
      if (collected <? length allFields)%nat then
        match chunkAt allFields collected with
        | Some page => page :: pageRun fuel allFields (collected + length page)
        | None => []
        end
      else []
  end.

(** The string typed into the focused option of an autocomplete request, empty
    when no option is focused. *)
Definition focusedInput (options : list discordgo.ApplicationCommandInteractionDataOption)
    : string :=
  match List.find discordgo.Focused options with
  | Some opt =>
      match discordgo.OptValue opt with
      | discordgo.OptString v => v
      | discordgo.OptOther => ""
      end
  | None => ""
  end.

Section fetching.

Context `{!Env, !github.Client}.

(** What [getChangelogMessage] does once both freshness tests have failed,
    from the world [w] they leave. *)
Definition fetchComparison (base head : string) (w : World)
    : Outcome (string * option github.error) :=
  let w1 := set_upstream (github.CallCompareCommits GithubOwner GithubRepo base head
                            :: upstream w) w in
  match github.CompareCommits (length (upstream w)) GithubOwner GithubRepo base head with
  | inl err => Done ("", Some err) w1
  | inr comparison =>
      let message := formatChangelogMessage base head comparison in
      Done (message, None)
        (set_comparisonCache
           <[cacheKeyOf base head :=
               {| Message := message; Timestamp := clock (clockReads w) |}]>
           (tick w1))
  end.

End fetching.

(** ** Concrete sessions, submissions and collaborators for the examples *)

Module examples.

Definition field (n : string) : config.FieldConfig :=
  {| config.CustomID := "field_" +:+ n;
     config.Label := "Question " +:+ n;
     config.Style := "short";
     config.Placeholder := "";
     config.Required := true;
     config.MinLength := 0;
     config.MaxLength := 0 |}.

Definition sevenFields : list config.FieldConfig :=
  field <$> ["1"; "2"; "3"; "4"; "5"; "6"; "7"].

(** The session [handleBug] creates for a seven-field form. *)
Definition session : ModalState :=
  {| Title := "Bug Report";
     AllFields := sevenFields;
     SubmittedValues := ∅;
     Labels := ["from-discord"; "bug"];
     Command := "bug";
     ChannelID := "100";
     Owner := "meshtastic";
     Repo := "firmware" |}.

Definition sessionKey : string := stateKeyOf "bug" "100" "42".

Definition answer (customID value : string) : discordgo.MessageComponent :=
  discordgo.ActionsRowPtr
    [discordgo.TextInputPtr
       {| discordgo.CustomID := customID;
          discordgo.Label := "";
          discordgo.Style := discordgo.TextInputShort;
          discordgo.Placeholder := "";
          discordgo.Value := value;
          discordgo.Required := false |}].

Definition page1 : list discordgo.MessageComponent :=
  [answer "field_1" "a"; answer "field_2" "b"; answer "field_3" "c";
   answer "field_4" "d"; answer "field_5" "e"].

Definition page2 : list discordgo.MessageComponent :=
  [answer "field_6" "f"; answer "field_7" "g"].

(** Submissions whose identifiers belong to no field of the session. *)
Definition strangers1 : list discordgo.MessageComponent :=
  [answer "other_1" "a"; answer "other_2" "b"; answer "other_3" "c";
   answer "other_4" "d"; answer "other_5" "e"].

Definition strangers2 : list discordgo.MessageComponent :=
  [answer "other_6" "f"; answer "other_7" "g"; answer "other_8" "h"].

Definition env : Env :=
  {| clock := fun n => (1000 * Z.of_nat n)%Z;
     rangeOrder := map_to_list;
     unicodeLower := fun s => s;
     GithubOwner := "meshtastic";
     GithubRepo := "firmware";
     cacheDuration := time.Hour;
     comparisonCacheTTL := time.Hour |}.

Definition release (tag : string) : gogithub.RepositoryRelease :=
  {| gogithub.TagName := Some tag |}.

Definition noCommits : gogithub.CommitsComparison :=
  {| gogithub.TotalCommits := Some 0%Z;
     gogithub.Commits := [];
     gogithub.HTMLURL := Some "https://github.com/meshtastic/firmware/compare" |}.

(** A client whose every call succeeds. *)
Definition workingClient : github.Client :=
  {| github.GetReleases := fun _ _ _ _ => inr [release "v2.0.0"; release "v1.0.0"];
     github.CompareCommits := fun _ _ _ _ _ => inr noCommits;
     github.CreateIssue := fun _ _ _ _ _ _ =>
       inr {| github.Number := 7; github.HTMLURL := "https://github.com/i/7";
              github.ID := 7 |} |}.

(** A client whose every call fails. *)
Definition failingClient : github.Client :=
  {| github.GetReleases := fun _ _ _ _ => inl "GitHub API error";
     github.CompareCommits := fun _ _ _ _ _ => inl "GitHub API error";
     github.CreateIssue := fun _ _ _ _ _ _ => inl "GitHub API error" |}.

(** A client for a repository without releases. *)
Definition noReleasesClient : github.Client :=
  {| github.GetReleases := fun _ _ _ _ => inr [];
     github.CompareCommits := fun _ _ _ _ _ => inr noCommits;
     github.CreateIssue := fun _ _ _ _ _ _ => inl "GitHub API error" |}.

(** A process that has just started: no session, cold caches. *)
Definition coldWorld : World :=
  {| modalStates := ∅;
     releaseCache := [];
     lastCacheUpdate := 0%Z;
     comparisonCache := ∅;
     clockReads := 0;
     upstream := [];
     sent := [] |}.

Definition user : discordgo.User :=
  {| discordgo.ID := "42"; discordgo.Username := "tester" |}.

Definition submission (customID : string)
    (components : list discordgo.MessageComponent) : discordgo.InteractionCreate :=
  {| discordgo.ChannelID := "100";
     discordgo.Member := Some user;
     discordgo.IData := discordgo.ModalSubmitInteractionData customID components |}.

Definition click (customID : string) : discordgo.InteractionCreate :=
  {| discordgo.ChannelID := "100";
     discordgo.Member := Some user;
     discordgo.IData := discordgo.MessageComponentInteractionData customID |}.

(** The session after its first page, waiting in the store. *)
Definition pendingWorld : World :=
  set_modalStates <[sessionKey := mergeSubmission session page1]> coldWorld.

Definition cachedComparison : CachedComparison :=
  {| Message := "## Changes from v1.0.0 to v2.0.0"; Timestamp := 0%Z |}.

(** Both caches filled at instant 0; the next clock reading is a
    microsecond later. *)
Definition warmWorld : World :=
  {| modalStates := ∅;
     releaseCache := [release "v2.0.0"; release "v1.0.0"];
     lastCacheUpdate := 0%Z;
     comparisonCache := {[ cacheKeyOf "v1.0.0" "v2.0.0" := cachedComparison ]};
     clockReads := 1;
     upstream := [];
     sent := [] |}.

(** Both caches filled an hour and a nanosecond before the next reading. *)
Definition staleWorld : World :=
  {| modalStates := ∅;
     releaseCache := [release "v2.0.0"; release "v1.0.0"];
     lastCacheUpdate := (- (time.Hour + 1))%Z;
     comparisonCache :=
       {[ cacheKeyOf "v1.0.0" "v2.0.0" :=
            {| Message := "## Changes from v1.0.0 to v2.0.0";
               Timestamp := (- (time.Hour + 1))%Z |} ]};
     clockReads := 0;
     upstream := [];
     sent := [] |}.

Definition autocomplete (typed : string) : discordgo.InteractionCreate :=
  {| discordgo.ChannelID := "100";
     discordgo.Member := Some user;
     discordgo.IData :=
       discordgo.ApplicationCommandInteractionData "changelog"
         [{| discordgo.OptName := "base";
             discordgo.OptValue := discordgo.OptString typed;
             discordgo.Focused := true |}] |}.

(** A seven-field report from start to end: the first page, the continue
    button, the second page. *)
Definition sevenFieldReport : M unit :=
  @handleModalSubmit env workingClient (submission "modal_bug_100" page1);;
  handleButtonClick (click "continue_bug_100_42");;
  @handleModalSubmit env workingClient (submission "modal_continue_bug_100_42" page2).

(** Two goroutines: both pass the first test on the cold cache, the second
    fetches and stores, then the first takes the write lock. *)
Definition interleaved : list nat := [0; 1; 0; 1; 0; 1; 1; 1; 1; 1; 1; 1; 0; 0; 0].

(** Two goroutines, one after the other. *)
Definition oneByOne : list nat := replicate 9 0 ++ replicate 9 1.

End examples.

(** ** Submissions of rendered pages *)

(** What comes back when a user fills in a rendered page: one action row per
    field, holding a text input with the field's [CustomID] and the text
    typed for it. *)
Definition answerInput (typed : string -> string) (field : config.FieldConfig)
    : discordgo.TextInput :=
  {| discordgo.CustomID := config.CustomID field;
     discordgo.Label := "";
     discordgo.Style := discordgo.TextInputShort;
     discordgo.Placeholder := "";
     discordgo.Value := typed (config.CustomID field);
     discordgo.Required := false |}.

Definition answerField (typed : string -> string) (field : config.FieldConfig)
    : discordgo.MessageComponent :=
  discordgo.ActionsRowPtr [discordgo.TextInputPtr (answerInput typed field)].

Definition answerPage (typed : string -> string) (page : list config.FieldConfig)
    : list discordgo.MessageComponent :=
  answerField typed <$> page.

(** The label under which a submitted text input is stored in a session. *)
Definition labelOf (allFields : list config.FieldConfig)
    (textInput : discordgo.TextInput) : string :=
  fieldLabelFor allFields (discordgo.CustomID textInput).

(** The value of the last of [inputs] that [key] selects. *)
Definition lastValue (selects : discordgo.TextInput -> string) (key : string)
    (inputs : list discordgo.TextInput) : option string :=
  discordgo.Value <$> last (List.filter (fun t => String.eqb (selects t) key) inputs).

(** ** Further sessions for the examples *)

Module scenarios.

Import examples.

(** What a user types into the input of a given identifier. *)
Definition typed (customID : string) : string := "answer to " +:+ customID.

(** A six-field form whose last two fields carry the same label. *)
Definition twinFields : list config.FieldConfig :=
  (field <$> ["1"; "2"; "3"; "4"; "5"]) ++
  [{| config.CustomID := "field_6";
      config.Label := "Question 5";
      config.Style := "paragraph";
      config.Placeholder := "";
      config.Required := false;
      config.MinLength := 0;
      config.MaxLength := 0 |}].

Definition twinSession : ModalState :=
  {| Title := "Bug Report";
     AllFields := twinFields;
     SubmittedValues := ∅;
     Labels := ["from-discord"; "bug"];
     Command := "bug";
     ChannelID := "100";
     Owner := "meshtastic";
     Repo := "firmware" |}.

(** The same user's feature request, waiting beside the bug report. *)
Definition otherKey : string := stateKeyOf "feature" "100" "42".

Definition twoSessions : World :=
  set_modalStates <[otherKey := session]> pendingWorld.

(** A short bug report, sent as one form. *)
Definition shortReport : list discordgo.MessageComponent :=
  [answer "bug_title" "Crash on boot"; answer "bug_description" "It crashes."].

End scenarios.

(** ** [internal/config]: the FAQ data *)

Module faqconfig.

Record FAQItem := { Name : string; URL : string }.

Record FAQData := { FAQ : list FAQItem; SoftwareModules : list FAQItem }.

(** [GetAllFAQItems]: both categories, the FAQ first. *)
Definition GetAllFAQItems (f : FAQData) : list FAQItem :=
  let all := [] in
  let all := (all ++ FAQ f)%list in
  let all := (all ++ SoftwareModules f)%list in
  all.

(** One of the two loops of [FindFAQItem]: the first item whose name is
    [name], compared with [==]. *)
Fixpoint findIn (items : list FAQItem) (name : string) : option FAQItem :=
  match items with
  | [] => None
  | item :: rest => if String.eqb (Name item) name then Some item else findIn rest name
  end.

(** [FindFAQItem]; [None] is the [false] of the second result. *)
Definition FindFAQItem (f : FAQData) (name : string) : option FAQItem :=
  match findIn (FAQ f) name with
  | Some item => Some item
  | None => findIn (SoftwareModules f) name
  end.

End faqconfig.

(** ** [internal/discord/handlers/faq_handler.go] *)

Section faq.

Context `{!Env, !github.Client}.

(** The package variable [faqData] of [internal/config], set once by
    [LoadFAQ] before the handlers run; [None] is the nil pointer. *)
Variable GetFAQData : option faqconfig.FAQData.

(** A response that sets no flag, so one the whole channel sees. *)
Definition publicMessage (content : string) : discordgo.InteractionResponse :=
  {| discordgo.Type_ := discordgo.InteractionResponseChannelMessageWithSource;
     discordgo.Data :=
       {| discordgo.Content := content;
          discordgo.Flags := discordgo.MessageFlagsNone;
          discordgo.RespComponents := [];
          discordgo.RespCustomID := "";
          discordgo.Title := "";
          discordgo.Choices := [] |} |}.

Definition faqAnswer (item : faqconfig.FAQItem) : discordgo.InteractionResponse :=
  publicMessage ("**" +:+ faqconfig.Name item +:+ "**" +:+ github.nl +:+
                 faqconfig.URL item).

Definition handleFaq (i : discordgo.InteractionCreate) : M unit :=
  data ← ApplicationCommandData i;
  match data.2 with
  | [] =>
      InteractionRespond
        (message "Please select a FAQ topic from the autocomplete options." [])
  | opt :: _ =>
      topicName ← StringValue opt;
      match GetFAQData with
      | None =>
          InteractionRespond
            (message "FAQ data is not available. Please contact an administrator." [])
      | Some faqData =>
          match faqconfig.FindFAQItem faqData topicName with
          | None =>
              InteractionRespond
                (message ("FAQ topic '" +:+ topicName +:+ "' not found.") [])
          | Some item => InteractionRespond (faqAnswer item)
          end
      end
  end.

Definition faqChoice (item : faqconfig.FAQItem) : discordgo.ApplicationCommandOptionChoice :=
  {| discordgo.ChoiceName := faqconfig.Name item;
     discordgo.ChoiceValue := faqconfig.Name item |}.

(** The loop over [allItems] of [handleFaqAutocomplete], from the choices
    gathered so far. *)
Fixpoint collectFaqChoices (userInput : string) (allItems : list faqconfig.FAQItem)
    (choices : list discordgo.ApplicationCommandOptionChoice)
    : list discordgo.ApplicationCommandOptionChoice :=
  match allItems with
  | [] => choices
  | item :: rest =>
      if negb (String.eqb userInput "") &&
         negb (strings.Contains (strings.ToLower unicodeLower (faqconfig.Name item))
                 userInput)
      then collectFaqChoices userInput rest choices
      else
        let choices := (choices ++ [faqChoice item])%list in
        if (25 <=? length choices)%nat then choices
        else collectFaqChoices userInput rest choices
  end.

Definition handleFaqAutocomplete (i : discordgo.InteractionCreate) : M unit :=
  match GetFAQData with
  | None => InteractionRespond (autocompleteResult [])
  | Some faqData =>
      data ← ApplicationCommandData i;
      userInput ← match data.2 with
                  | [] => mret ""
                  | opt :: _ =>
                      v ← StringValue opt; mret (strings.ToLower unicodeLower v)
                  end;
      let allItems := faqconfig.GetAllFAQItems faqData in
      InteractionRespond (autocompleteResult (collectFaqChoices userInput allItems []))
  end.

End faq.

(** The text of the first option of a command, empty when there is no
    option; [None] when the first option is not a string. *)
Definition firstOptionText
    (options : list discordgo.ApplicationCommandInteractionDataOption)
    : option string :=
  match options with
  | [] => Some ""
  | opt :: _ =>
      match discordgo.OptValue opt with
      | discordgo.OptString v => Some v
      | discordgo.OptOther => None
      end
  end.

(** ** [internal/config/config.go]: template URLs *)

Module templateurl.

(** [strings.Replace(s, old, new, 1)]: the leftmost occurrence of [old]
    replaced, [s] itself when there is none. *)
Fixpoint Replace1 (s old new : string) : string :=
  if String.prefix old s
  then new +:+ substring (String.length old) (String.length s - String.length old) s
  else match s with
       | EmptyString => EmptyString
       | String c rest => String c (Replace1 rest old new)
       end.

Record TemplateURL := {
  original : string;
  owner : string;
  repo : string;
  path : string
}.

Definition ParseTemplateURL (templateURL : string) : github.error + TemplateURL :=
  if String.eqb templateURL "" then inl "template URL cannot be empty"
  else
    let url := strings.TrimPrefix templateURL "https://" in
    let url := strings.TrimPrefix url "http://" in
    let url := strings.TrimPrefix url "github.com/" in
    let parts := strings.Split url "/" in
    if (length parts <? 2)%nat
    then inl ("invalid GitHub URL format: " +:+ templateURL)
    else inr {| original := templateURL;
                owner := nth 0 parts "";
                repo := nth 1 parts "";
                path := strings.Join (drop 2 parts) "/" |}.

Definition Owner (t : TemplateURL) : string := owner t.

Definition Repo (t : TemplateURL) : string := repo t.

Definition IssueAPIURL (t : TemplateURL) : string :=
  "https://api.github.com/repos/" +:+ owner t +:+ "/" +:+ repo t +:+ "/issues".

Definition RawURL (t : TemplateURL) : string :=
  let path := Replace1 (path t) "blob/" "" in
  "https://raw.githubusercontent.com/" +:+ owner t +:+ "/" +:+ repo t +:+ "/" +:+ path.

End templateurl.

(** ** [internal/config/modal.go]: forms from issue templates *)

Module modalconfig.

Record Option_ := { OptionLabel : string; OptionRequired : bool }.

Record FieldAttributes := {
  Label : string;
  Description : string;
  Placeholder : string;
  Value : string;
  Options : list Option_;
  Multiple : bool
}.

Record FieldValidations := { Required : bool }.

Record GitHubTemplateField := {
  Type_ : string;
  ID : string;
  Attributes : FieldAttributes;
  Validations : FieldValidations
}.

(** The [labels] entry of a template is an untyped YAML value that no
    function below reads; it is left out. *)
Record GitHubIssueTemplate := {
  TemplateName : string;
  TemplateDescription : string;
  TemplateTitle : string;
  Body : list GitHubTemplateField
}.

Record ModalConfig := {
  Command : string;
  TemplateURLRaw : string;
  ChannelIDs : list string;
  Title : string;
  Fields : list config.FieldConfig;
  TemplateURL : option templateurl.TemplateURL
}.

Record ModalsConfig := { Modals : list ModalConfig }.

Definition GetTemplateFields (template : GitHubIssueTemplate)
    : list GitHubTemplateField :=
  foldl (fun fields field =>
           if negb (String.eqb (Type_ field) "markdown") &&
              negb (String.eqb (Type_ field) "checkboxes")
           then (fields ++ [field])%list
           else fields)
        [] (Body template).

(** [ConvertGitHubFieldToFieldConfig]; [None] is the nil pointer. *)
Definition ConvertGitHubFieldToFieldConfig (field : GitHubTemplateField)
    : option config.FieldConfig :=
  if String.eqb (Type_ field) "markdown" || String.eqb (Type_ field) "checkboxes"
  then None
  else
    let style := if String.eqb (Type_ field) "textarea" then "paragraph" else "short" in
    let '(minLength, maxLength) :=
      if String.eqb (Type_ field) "input" then (1, 100)%Z
      else if String.eqb (Type_ field) "textarea" then (1, 4000)%Z
      else (0, 0)%Z in
    Some {| config.CustomID := ID field;
            config.Label := Label (Attributes field);
            config.Style := style;
            config.Placeholder := Placeholder (Attributes field);
            config.Required := Required (Validations field);
            config.MinLength := minLength;
            config.MaxLength := maxLength |}.

(** The inner loop of the search: is [channelID] among the modal's
    channels. *)
Fixpoint appliesTo (channelIDs : list string) (channelID : string) : bool :=
  match channelIDs with
  | [] => false
  | cid :: rest => if String.eqb cid channelID then true else appliesTo rest channelID
  end.

(** The search of [GetAllFieldsForModal] and [GetModel]: the first modal of
    the command that applies to the channel. *)
Fixpoint findModal (modals : list ModalConfig) (command channelID : string)
    : option ModalConfig :=
  match modals with
  | [] => None
  | modal :: rest =>
      if String.eqb (Command modal) command && appliesTo (ChannelIDs modal) channelID
      then Some modal
      else findModal rest command channelID
  end.

(** The loop that turns the fields of a template into form fields. *)
Definition convertFields (templateFields : list GitHubTemplateField)
    : list config.FieldConfig :=
  foldl (fun fields field =>
           match ConvertGitHubFieldToFieldConfig field with
           | Some converted => (fields ++ [converted])%list
           | None => fields
           end)
        [] templateFields.

Section loaded.

(** The package variable [loadedModals], set by [LoadModals] at start-up
    ([None] before), and the HTTP fetch of a template, whose answer is not
    part of this repository. *)
Variable loadedModals : option ModalsConfig.
Variable FetchGitHubTemplate :
  templateurl.TemplateURL -> github.error + GitHubIssueTemplate.

Definition GetAllFieldsForModal (command channelID : string)
    : github.error + (list config.FieldConfig * string) :=
  match loadedModals with
  | None => inl "modals not loaded"
  | Some loaded =>
      match findModal (Modals loaded) command channelID with
      | None =>
          inl ("no modal configured for command '" +:+ command +:+
               "' in channel '" +:+ channelID +:+ "'")
      | Some modalConfig =>
          match TemplateURL modalConfig with
          | Some templateURL =>
              match FetchGitHubTemplate templateURL with
              | inl err => inl ("failed to fetch template: " +:+ err)
              | inr template =>
                  inr (convertFields (GetTemplateFields template), Title modalConfig)
              end
          | None => inr (Fields modalConfig, Title modalConfig)
          end
      end
  end.

End loaded.

End modalconfig.

(** ** [internal/config/modal.go]: the first form *)

Module modalform.

Import modalconfig.

(** [discordgo.TextInput] with the two length bounds [GetModel] sets; a
    bound of 0 is one that is not sent. *)
Record TextInput := {
  CustomID : string;
  Label : string;
  Style : discordgo.TextInputStyle;
  Placeholder : string;
  Required : bool;
  MinLength : Z;
  MaxLength : Z
}.

(** [discordgo.ActionsRow{Components: ...}], passed by value. *)
Record ActionsRow := { RowComponents : list TextInput }.

(** The fields of [discordgo.InteractionResponseData] that [GetModel]
    sets. *)
Record InteractionResponseData := {
  DataCustomID : string;
  DataTitle : string;
  DataComponents : list ActionsRow
}.

(** The body of the loop that builds the components. *)
Definition fieldRow (field : config.FieldConfig) : ActionsRow :=
  let style := if String.eqb (config.Style field) "paragraph"
               then discordgo.TextInputParagraph else discordgo.TextInputShort in
  let textInput := {| CustomID := config.CustomID field;
                      Label := config.Label field;
                      Style := style;
                      Placeholder := config.Placeholder field;
                      Required := config.Required field;
                      MinLength := 0;
                      MaxLength := 0 |} in
  let textInput :=
    if (0 <? config.MinLength field)%Z
    then {| CustomID := CustomID textInput; Label := Label textInput;
            Style := Style textInput; Placeholder := Placeholder textInput;
            Required := Required textInput;
            MinLength := config.MinLength field;
            MaxLength := MaxLength textInput |}
    else textInput in
  let textInput :=
    if (0 <? config.MaxLength field)%Z
    then {| CustomID := CustomID textInput; Label := Label textInput;
            Style := Style textInput; Placeholder := Placeholder textInput;
            Required := Required textInput;
            MinLength := MinLength textInput;
            MaxLength := config.MaxLength field |}
    else textInput in
  {| RowComponents := [textInput] |}.

Section loaded.

(** [FetchGitHubTemplate] does an [http.Get] of its own every time it is
    called, so what it answers depends on which request of the process it
    is: [FetchGitHubTemplate n url] is the answer to request number [n].
    [GetModel] is given the number of the request it makes. *)
Variable loadedModals : option ModalsConfig.
Variable FetchGitHubTemplate :
  nat -> templateurl.TemplateURL -> github.error + GitHubIssueTemplate.

Definition GetModel (request : nat) (command channelID : string)
    : github.error + InteractionResponseData :=
  match loadedModals with
  | None => inl "modals not loaded"
  | Some loaded =>
      match findModal (Modals loaded) command channelID with
      | None =>
          inl ("no modal configured for command '" +:+ command +:+
               "' in channel '" +:+ channelID +:+ "'")
      | Some modalConfig =>
          let fetched :=
            match TemplateURL modalConfig with
            | Some templateURL =>
                match FetchGitHubTemplate request templateURL with
                | inl err => inl ("failed to fetch template: " +:+ err)
                | inr template => inr (convertFields (GetTemplateFields template))
                end
            | None => inr (Fields modalConfig)
            end in
          match fetched with
          | inl err => inl err
          | inr fields =>
              let maxFields := 5%nat in
              let fields := if (maxFields <? length fields)%nat
                            then take maxFields fields else fields in
              let components := foldl (fun components field =>
                                         (components ++ [fieldRow field])%list)
                                  [] fields in
              inr {| DataCustomID := "modal_" +:+ command +:+ "_" +:+ channelID;
                     DataTitle := Title modalConfig;
                     DataComponents := components |}
          end
      end
  end.

End loaded.

End modalform.

(** ** [bug_handler.go] and [feature_handler.go]: opening a report *)

Section reports.

Context `{!Env, !github.Client}.

(** [config.GetAllFieldsForModal] as these handlers call it, with the owner
    and the repository of the form as third and fourth result, and
    [config.GetModel], which builds the first form.  Both read the loaded
    configuration and may fetch a template; the handlers only look at what
    they return. *)
Variable config_GetAllFieldsForModal :
  string -> string -> github.error + (list config.FieldConfig * string * string * string).
Variable config_GetModel :
  string -> string -> github.error + discordgo.InteractionResponseData.

Definition modalForm (modalData : discordgo.InteractionResponseData)
    : discordgo.InteractionResponse :=
  {| discordgo.Type_ := discordgo.InteractionResponseModal;
     discordgo.Data := modalData |}.

Definition handleBug (i : discordgo.InteractionCreate) : M unit :=
  match config_GetAllFieldsForModal "bug" (discordgo.ChannelID i) with
  | inl _ =>
      InteractionRespond
        (message "Sorry, the bug report command is not configured for this channel." [])
  | inr (allFields, title, owner, repo) =>
      (if (5 <? length allFields)%nat then
         user ← MemberUser i;
         let stateKey := stateKeyOf "bug" (discordgo.ChannelID i) (discordgo.ID user) in
         modify (set_modalStates
                   <[stateKey := {| Title := title;
                                    AllFields := allFields;
                                    SubmittedValues := ∅;
                                    Labels := ["from-discord"; "bug"];
                                    Command := "bug";
                                    ChannelID := discordgo.ChannelID i;
                                    Owner := owner;
                                    Repo := repo |}]>)
       else mret tt);;
      match config_GetModel "bug" (discordgo.ChannelID i) with
      | inl _ =>
          InteractionRespond
            (message "Sorry, the bug report command is not configured for this channel."
               [])
      | inr modalData => InteractionRespond (modalForm modalData)
      end
  end.

Definition handleFeature (i : discordgo.InteractionCreate) : M unit :=
  match config_GetAllFieldsForModal "feature" (discordgo.ChannelID i) with
  | inl _ =>
      InteractionRespond
        (message "Sorry, the feature request command is not configured for this channel."
           [])
  | inr (allFields, title, owner, repo) =>
      (if (5 <? length allFields)%nat then
         user ← MemberUser i;
         let stateKey :=
           stateKeyOf "feature" (discordgo.ChannelID i) (discordgo.ID user) in
         modify (set_modalStates
                   <[stateKey := {| Title := title;
                                    AllFields := allFields;
                                    SubmittedValues := ∅;
                                    Labels := ["from-discord"; "enhancement"];
                                    Command := "feature";
                                    ChannelID := discordgo.ChannelID i;
                                    Owner := owner;
                                    Repo := repo |}]>)
       else mret tt);;
      match config_GetModel "feature" (discordgo.ChannelID i) with
      | inl _ =>
          InteractionRespond
            (message
               "Sorry, the feature request command is not configured for this channel."
               [])
      | inr modalData => InteractionRespond (modalForm modalData)
      end
  end.

End reports.

(** ** [LiveGitHubClient.GetRepository]: the repository cache

    Every command runs on a goroutine of its own, so calls of
    [GetRepository] overlap.  The method looks the key up under the read
    lock, releases it, asks GitHub with no lock held, and stores the answer
    under the write lock without looking again.  Each of the three blocks is
    one step of a caller below: a block under a lock runs without another
    caller in between, and callers may interleave freely between blocks. *)

Module repoclient.

Section client.

(** [github.Repository] of go-github, which the client only stores and
    returns, and the request [client.Repositories.Get], whose answer may
    change from one request to the next. *)
Variable Repository : Type.
Variable Repositories_Get : nat -> string -> string -> github.error + Repository.

(** The part of [LiveGitHubClient] that [GetRepository] reads and writes,
    with the requests made so far, latest first. *)
Record LiveGitHubClient := {
  repoCache : gmap string Repository;
  requests : list (string * string)
}.

(** Where a caller of [GetRepository] stands. *)
Inductive PC :=
| Check
| Fetch
| Store (repository : Repository)
| Returned (result : github.error + Repository).

Record Caller := {
  owner : string;
  repo : string;
  pc : PC
}.

Record System := {
  client : LiveGitHubClient;
  callers : list Caller
}.

(** [fmt.Sprintf("%s/%s", owner, repo)]. *)
Definition cacheKey (c : Caller) : string := owner c +:+ "/" +:+ repo c.

Definition move (g : nat) (c : Caller) (pc' : PC) (client' : LiveGitHubClient)
    (s : System) : System :=
  {| client := client';
     callers := <[g := {| owner := owner c; repo := repo c; pc := pc' |}]> (callers s) |}.

(** One step of caller [g]; a caller that has returned takes no step. *)
Definition step (g : nat) (s : System) : option System :=
  match callers s !! g with
  | None => None
  | Some c =>
      match pc c with
      | Check =>
          match repoCache (client s) !! cacheKey c with
          | Some cached => Some (move g c (Returned (inr cached)) (client s) s)
          | None => Some (move g c Fetch (client s) s)
          end
      | Fetch =>
          let asked := {| repoCache := repoCache (client s);
                          requests := (owner c, repo c) :: requests (client s) |} in
          match Repositories_Get (length (requests (client s))) (owner c) (repo c) with
          | inl err =>
              Some (move g c (Returned (inl ("failed to get repository: " +:+ err)))
                      asked s)
          | inr repository => Some (move g c (Store repository) asked s)
          end
      | Store repository =>
          Some (move g c (Returned (inr repository))
                  {| repoCache := <[cacheKey c := repository]> (repoCache (client s));
                     requests := requests (client s) |} s)
      | Returned _ => None
      end
  end.

(** The system after the callers named in [schedule] have each taken a
    step, in that order. *)
Fixpoint run (schedule : list nat) (s : System) : option System :=
  match schedule with
  | [] => Some s
  | g :: rest =>
      match step g s with
      | Some s' => run rest s'
      | None => None
      end
  end.

(** [calls] callers about to start, on the client [c]. *)
Definition start (calls : list (string * string)) (c : LiveGitHubClient) : System :=
  {| client := c;
     callers := (fun '(owner, repo) => {| owner := owner; repo := repo; pc := Check |})
                <$> calls |}.

(** No caller for [key] is between its lookup and its return. *)
Definition settled (key : string) (s : System) : Prop :=
  forall c, c ∈ callers s -> cacheKey c = key ->
            pc c = Check \/ exists result, pc c = Returned result.

End client.

Arguments repoCache {Repository} _.
Arguments requests {Repository} _.
Arguments Check {Repository}.
Arguments Fetch {Repository}.
Arguments Store {Repository} repository.
Arguments Returned {Repository} result.
Arguments owner {Repository} _.
Arguments repo {Repository} _.
Arguments pc {Repository} _.
Arguments client {Repository} _.
Arguments callers {Repository} _.
Arguments cacheKey {Repository} c.
Arguments move {Repository} g c pc' client' s.
Arguments step {Repository} Repositories_Get g s.
Arguments run {Repository} Repositories_Get schedule s.
Arguments start {Repository} calls c.
Arguments settled {Repository} key s.

End repoclient.

(** ** [config/env.go]: validation of the configuration *)

Module envconfig.

Record Config := {
  ServerID : string;
  DiscordToken : string;
  GithubToken : string;
  RemoveCommands : bool;
  ConfigPath : string;
  FAQPath : string;
  HealthCheckPort : string
}.

Definition EnvDiscordServerID : string := "DISCORD_SERVER_ID".
Definition EnvDiscordToken : string := "DISCORD_TOKEN".
Definition EnvGitHubToken : string := "GITHUB_TOKEN".
Definition EnvConfigPath : string := "CONFIG_PATH".

(** What [os.Stat] reports of a path: no such file, another error, a
    directory, or a file. *)
Inductive FileInfo :=
| NotExist
| StatError (err : string)
| IsDir
| IsFile.

Section validate.

Context `{!Env}.

Variable os_Stat : string -> FileInfo.

(** [Validate]; [None] is the nil error.  The [range] over the required
    fields visits them in the order [rangeOrder] and stops at the first
    empty one. *)
Definition Validate (c : Config) : option github.error :=
  let requiredFields : gmap string string :=
    <[EnvConfigPath := ConfigPath c]>
      (<[EnvGitHubToken := GithubToken c]>
         (<[EnvDiscordServerID := ServerID c]>
            (<[EnvDiscordToken := DiscordToken c]> ∅))) in
  match List.find (fun '(envVar, value) => String.eqb value "")
          (rangeOrder requiredFields) with
  | Some (envVar, _) => Some (envVar +:+ " is required")
  | None =>
      match os_Stat (ConfigPath c) with
      | NotExist =>
          Some (EnvConfigPath +:+ " file does not exist: " +:+ ConfigPath c)
      | StatError err => Some (EnvConfigPath +:+ " error: " +:+ err)
      | IsDir =>
          Some (EnvConfigPath +:+ " must be a file, not a directory: " +:+
                ConfigPath c)
      | IsFile => None
      end
  end.

End validate.

End envconfig.

(** ** Further data for the examples *)

Module samples.

Import examples.

Definition faqData : faqconfig.FAQData :=
  {| faqconfig.FAQ :=
       [{| faqconfig.Name := "Getting Started";
           faqconfig.URL := "https://meshtastic.org/docs/getting-started" |};
        {| faqconfig.Name := "LoRa";
           faqconfig.URL := "https://meshtastic.org/docs/overview/radio-settings" |}];
     faqconfig.SoftwareModules :=
       [{| faqconfig.Name := "Telemetry Module";
           faqconfig.URL := "https://meshtastic.org/docs/configuration/module/telemetry"
        |}] |}.

(** The [faq] command with [topic] as its first option. *)
Definition faqRequest (topic : string) : discordgo.InteractionCreate :=
  {| discordgo.ChannelID := "100";
     discordgo.Member := Some user;
     discordgo.IData :=
       discordgo.ApplicationCommandInteractionData "faq"
         [{| discordgo.OptName := "topic";
             discordgo.OptValue := discordgo.OptString topic;
             discordgo.Focused := true |}] |}.

(** A configuration in which the bug report has seven fields, and one whose
    first form cannot be built. *)
Definition sevenFieldForm (command channelID : string)
    : github.error + (list config.FieldConfig * string * string * string) :=
  inr (sevenFields, "Bug Report", "meshtastic", "firmware").

Definition noForm (command channelID : string)
    : github.error + discordgo.InteractionResponseData :=
  inl "modals not loaded".

(** The [bug] command, sent by the user of the examples in channel 100. *)
Definition bugCommand : discordgo.InteractionCreate :=
  {| discordgo.ChannelID := "100";
     discordgo.Member := Some user;
     discordgo.IData := discordgo.ApplicationCommandInteractionData "bug" [] |}.

(** A GitHub that answers a request with the full name of the repository
    and the number of the request. *)
Definition numbered (n : nat) (owner repo : string) : github.error + string :=
  inr (owner +:+ "/" +:+ repo +:+ "#" +:+ pretty n).

Definition emptyClient : repoclient.LiveGitHubClient string :=
  {| repoclient.repoCache := ∅; repoclient.requests := [] |}.

(** Three callers for the firmware repository and one for the web
    repository. *)
Definition fourCallers : repoclient.System string :=
  repoclient.start
    [("meshtastic", "firmware"); ("meshtastic", "firmware"); ("meshtastic", "web");
     ("meshtastic", "firmware")]
    emptyClient.

Definition config : envconfig.Config :=
  {| envconfig.ServerID := "1";
     envconfig.DiscordToken := "discord-token";
     envconfig.GithubToken := "github-token";
     envconfig.RemoveCommands := false;
     envconfig.ConfigPath := "config.yaml";
     envconfig.FAQPath := "faq.yaml";
     envconfig.HealthCheckPort := "8080" |}.

Definition onlyFiles (path : string) : envconfig.FileInfo := envconfig.IsFile.

(** A configuration with a feature request for channel 200 and, after it,
    the seven-field bug report for channel 100; no form uses a template. *)
Definition featureModal : modalconfig.ModalConfig :=
  {| modalconfig.Command := "feature";
     modalconfig.TemplateURLRaw := "";
     modalconfig.ChannelIDs := ["200"];
     modalconfig.Title := "Feature Request";
     modalconfig.Fields := [field "1"];
     modalconfig.TemplateURL := None |}.

Definition bugModal : modalconfig.ModalConfig :=
  {| modalconfig.Command := "bug";
     modalconfig.TemplateURLRaw := "";
     modalconfig.ChannelIDs := ["300"; "100"];
     modalconfig.Title := "Bug Report";
     modalconfig.Fields := sevenFields;
     modalconfig.TemplateURL := None |}.

Definition modals : modalconfig.ModalsConfig :=
  {| modalconfig.Modals := [featureModal; bugModal] |}.

Definition noTemplate (templateURL : templateurl.TemplateURL)
    : github.error + modalconfig.GitHubIssueTemplate :=
  inl "no such template".

(** A bug report whose fields come from a template, and a GitHub that
    answers the first request for it and fails the second. *)
Definition bugTemplateURL : templateurl.TemplateURL :=
  {| templateurl.original := "https://github.com/meshtastic/web/blob/main/bug.yml";
     templateurl.owner := "meshtastic";
     templateurl.repo := "web";
     templateurl.path := "blob/main/bug.yml" |}.

Definition templateModals : modalconfig.ModalsConfig :=
  {| modalconfig.Modals :=
       [{| modalconfig.Command := "bug";
           modalconfig.TemplateURLRaw :=
             "https://github.com/meshtastic/web/blob/main/bug.yml";
           modalconfig.ChannelIDs := ["100"];
           modalconfig.Title := "Bug Report";
           modalconfig.Fields := [];
           modalconfig.TemplateURL := Some bugTemplateURL |}] |}.

Definition bugTemplate : modalconfig.GitHubIssueTemplate :=
  {| modalconfig.TemplateName := "Bug";
     modalconfig.TemplateDescription := "";
     modalconfig.TemplateTitle := "";
     modalconfig.Body :=
       [{| modalconfig.Type_ := "input";
           modalconfig.ID := "title";
           modalconfig.Attributes :=
             {| modalconfig.Label := "Title";
                modalconfig.Description := "";
                modalconfig.Placeholder := "";
                modalconfig.Value := "";
                modalconfig.Options := [];
                modalconfig.Multiple := false |};
           modalconfig.Validations := {| modalconfig.Required := true |} |}] |}.

Definition firstRequestOnly (request : nat) (templateURL : templateurl.TemplateURL)
    : github.error + modalconfig.GitHubIssueTemplate :=
  match request with
  | 0 => inr bugTemplate
  | S _ => inl "timeout"
  end.

End samples.

(** * Properties *)

Section string_facts.

Lemma length_app_string (a b : string) :
  String.length (a +:+ b) = (String.length a + String.length b)%nat.
Proof. induction a as [|c a IH]; simpl; [done | by rewrite IH]. Qed.

Lemma length_substring_0 (n : nat) (s : string) :
  (n <= String.length s)%nat -> String.length (substring 0 n s) = n.
Proof.
  revert s; induction n as [|n IH]; intros s Hn.
  - by destruct s.
  - destruct s as [|c s]; simpl in *; [lia |]. rewrite IH; [done | lia].
Qed.

Lemma substring_0_app (n : nat) (a b : string) :
  String.length a = n -> substring 0 n (a +:+ b) = a.
Proof.
  revert n; induction a as [|c a IH]; intros n Hn; simpl in *; subst n.
  - by destruct b.
  - simpl. by rewrite IH.
Qed.

Lemma substring_0_all (s : string) : substring 0 (String.length s) s = s.
Proof. induction s as [|c s IH]; simpl; [done | by rewrite IH]. Qed.

Lemma substring_skip_app (a b : string) :
  substring (String.length a) (String.length b) (a +:+ b) = b.
Proof.
  induction a as [|c a IH]; [apply substring_0_all | exact IH].
Qed.

Lemma prefix_app (a b : string) : String.prefix a (a +:+ b) = true.
Proof.
  induction a as [|c a IH]; simpl; [by destruct b |].
  destruct (Ascii.ascii_dec c c); [done | congruence].
Qed.

End string_facts.

(** C9 — [truncatePlaceholder] is idempotent, its result is never longer than
    100 bytes, a text longer than 100 bytes becomes its first 97 bytes
    followed by ["..."], and any other text is returned unchanged. *)
Theorem truncatePlaceholder_spec (s : string) :
  truncatePlaceholder (truncatePlaceholder s) = truncatePlaceholder s
  /\ (String.length (truncatePlaceholder s) <= 100)%nat
  /\ ((100 < String.length s)%nat ->
      truncatePlaceholder s = substring 0 97 s +:+ "...")
  /\ ((String.length s <= 100)%nat -> truncatePlaceholder s = s).
Proof.
  assert (Hlen : (String.length (truncatePlaceholder s) <= 100)%nat).
  { unfold truncatePlaceholder.
    destruct (Nat.ltb_spec 100 (String.length s)) as [Hgt|Hle]; [| done].
    rewrite length_app_string, length_substring_0 by lia. simpl. lia. }
  repeat split.
  - unfold truncatePlaceholder at 1.
    destruct (Nat.ltb_spec 100 (String.length (truncatePlaceholder s))); [lia | done].
  - done.
  - intros Hgt. unfold truncatePlaceholder.
    destruct (Nat.ltb_spec 100 (String.length s)); [done | lia].
  - intros Hle. unfold truncatePlaceholder.
    destruct (Nat.ltb_spec 100 (String.length s)); [lia | done].
Qed.

(** ** Session keys and the identifiers that carry them *)

Section routing.

Context `{!Env, !github.Client}.

Lemma Split_nonempty (s : string) (sep : ascii) : strings.Split s sep <> [].
Proof.
  destruct s as [|c s]; simpl; [done |].
  destruct (Ascii.eqb c sep); [done |].
  by destruct (strings.Split s sep).
Qed.

Lemma Join_cons_cons (a b : string) (rest : list string) (sep : string) :
  strings.Join (a :: b :: rest) sep = a +:+ sep +:+ strings.Join (b :: rest) sep.
Proof. reflexivity. Qed.

Lemma Join_String_head (c : ascii) (hd : string) (tl : list string) (sep : string) :
  strings.Join (String c hd :: tl) sep = String c (strings.Join (hd :: tl) sep).
Proof. destruct tl; reflexivity. Qed.

(** Splitting on a byte and joining with it again gives the string back. *)
Lemma Join_Split (s : string) (sep : ascii) :
  strings.Join (strings.Split s sep) (String sep EmptyString) = s.
Proof.
  induction s as [|c s IH]; [reflexivity |].
  pose proof (Split_nonempty s sep) as Hne.
  cbn [strings.Split].
  destruct (Ascii.eqb_spec c sep) as [->|Hc].
  - destruct (strings.Split s sep) as [|hd tl]; [done |].
    rewrite Join_cons_cons, IH. reflexivity.
  - destruct (strings.Split s sep) as [|hd tl]; [done |].
    by rewrite Join_String_head, IH.
Qed.

Lemma Split_modal_continue (key : string) :
  strings.Split ("modal_continue_" +:+ key) "_"
  = "modal" :: "continue" :: strings.Split key "_".
Proof.
  pose proof (Split_nonempty key "_") as Hne.
  cbv beta iota zeta delta [String.append]. cbn.
  destruct (strings.Split key "_") as [|hd tl]; [done | reflexivity].
Qed.

Lemma TrimPrefix_app (pre s : string) : strings.TrimPrefix (pre +:+ s) pre = s.
Proof.
  unfold strings.TrimPrefix, strings.HasPrefix.
  rewrite prefix_app, length_app_string.
  replace (String.length pre + String.length s - String.length pre)%nat
    with (String.length s) by lia.
  apply substring_skip_app.
Qed.

End routing.

(** Unfolding the plumbing of [M]. *)
Ltac unfold_M :=
  unfold mbind, M_bind, bind, mret, M_ret, ret, gets, modify, panic in *.

Section routing_theorems.

Context `{!Env, !github.Client}.

(** A submission whose identifier is [modal_continue_<key>] is handed to
    [handleModalContinuation] with exactly [key]. *)
Lemma handleModalSubmit_continue (i : discordgo.InteractionCreate)
    (key : string) (comps : list discordgo.MessageComponent) (w : World) :
  discordgo.IData i
    = discordgo.ModalSubmitInteractionData ("modal_continue_" +:+ key) comps ->
  handleModalSubmit i w = handleModalContinuation i key w.
Proof.
  intros Hdata. unfold handleModalSubmit, ModalSubmitData. rewrite Hdata.
  unfold_M. cbn -[strings.Split strings.Join handleModalContinuation String.eqb].
  rewrite Split_modal_continue.
  cbn -[strings.Split strings.Join handleModalContinuation].
  pose proof (Split_nonempty key "_") as Hne.
  destruct (strings.Split key "_") as [|hd tl] eqn:Hsplit; [done |].
  cbn -[strings.Join handleModalContinuation].
  rewrite <- Hsplit. change "_" with (String "_"%char EmptyString).
  by rewrite Join_Split.
Qed.

End routing_theorems.

Section session_theorems.

Context `{!Env, !github.Client}.

(** C8 — decoding a session key [{command}_{channelID}_{userID}] is a round
    trip: splitting [modal_continue_{sessionKey}] on ["_"] and joining the
    segments from index 2 with ["_"] gives [sessionKey], and stripping
    [continue_] from [continue_{sessionKey}] gives [sessionKey]. *)
Theorem session_key_roundtrip (command channelID userID : string) :
  let sessionKey := stateKeyOf command channelID userID in
  strings.Join (drop 2 (strings.Split ("modal_continue_" +:+ sessionKey) "_")) "_"
    = sessionKey
  /\ strings.HasPrefix ("continue_" +:+ sessionKey) "continue_" = true
  /\ strings.TrimPrefix ("continue_" +:+ sessionKey) "continue_" = sessionKey.
Proof.
  intros sessionKey. split; [| split].
  - rewrite Split_modal_continue. cbn [drop].
    change "_" with (String "_"%char EmptyString). apply Join_Split.
  - apply prefix_app.
  - apply TrimPrefix_app.
Qed.



End session_theorems.

Section creation_failure.

Context `{!Env, !github.Client}.

(** The tail of both submit handlers on a complete session whose creation
    call fails. *)
Lemma afterMerge_failure (i : discordgo.InteractionCreate) (key : string)
    (state : ModalState) (confirmation : github.IssueResponse -> string)
    (user : discordgo.User) (err : github.error) (w : World) :
  discordgo.Member i = Some user ->
  (length (AllFields state) <= size (SubmittedValues state))%nat ->
  github.CreateIssue (length (upstream w)) GithubOwner GithubRepo (Title state)
    (buildIssueBody (SubmittedValues state) (discordgo.Username user)
       (discordgo.ID user))
    (Labels state) = inl err ->
  exists w',
    afterMerge i key state confirmation w = Done tt w'
    /\ modalStates w' = delete key (modalStates w)
    /\ sent w' = createFailed :: sent w
    /\ upstream w' =
         github.CallCreateIssue GithubOwner GithubRepo (Title state)
           (buildIssueBody (SubmittedValues state) (discordgo.Username user)
              (discordgo.ID user))
           (Labels state) :: upstream w.
Proof.
  intros Hmember Hcomplete Herr.
  unfold afterMerge, MemberUser, GithubClient_CreateIssue, InteractionRespond.
  destruct (Nat.ltb_spec (size (SubmittedValues state)) (length (AllFields state)));
    [lia |].
  rewrite Hmember. unfold_M. rewrite Herr. cbn. eauto.
Qed.

(** C6 — when the creation call of a complete multi-part session fails, the
    session is gone from the store afterwards, the failure message is sent
    (an ephemeral channel message with the text of the source and nothing
    else), and the creation call was made exactly once. *)
Theorem creation_failure_deletes_session (i : discordgo.InteractionCreate)
    (customID : string) (comps : list discordgo.MessageComponent)
    (user : discordgo.User) (key : string) (state : ModalState)
    (err : github.error) (w : World) :
  let merged := mergeSubmission state comps in
  let body := buildIssueBody (SubmittedValues merged) (discordgo.Username user)
                (discordgo.ID user) in
  let failure :=
    {| discordgo.Type_ := discordgo.InteractionResponseChannelMessageWithSource;
       discordgo.Data :=
         {| discordgo.Content := "❌ Failed to create issue. Please try again later.";
            discordgo.Flags := discordgo.MessageFlagsEphemeral;
            discordgo.RespComponents := [];
            discordgo.RespCustomID := "";
            discordgo.Title := "";
            discordgo.Choices := [] |} |} in
  discordgo.IData i = discordgo.ModalSubmitInteractionData customID comps ->
  discordgo.Member i = Some user ->
  modalStates w !! key = Some state ->
  (length (AllFields merged) <= size (SubmittedValues merged))%nat ->
  github.CreateIssue (length (upstream w)) GithubOwner GithubRepo (Title merged)
    body (Labels merged) = inl err ->
  (exists w',
     handleModalContinuation i key w = Done tt w'
     /\ modalStates w' !! key = None
     /\ sent w' = failure :: sent w
     /\ upstream w' =
          github.CallCreateIssue GithubOwner GithubRepo (Title merged) body
            (Labels merged) :: upstream w)
  /\ (forall command,
        let parts := strings.Split customID "_" in
        parts !! 1%nat = Some command ->
        (command <> "continue" \/ length parts < 3)%nat ->
        key = stateKeyOf command (discordgo.ChannelID i) (discordgo.ID user) ->
        exists w',
          handleModalSubmit i w = Done tt w'
          /\ modalStates w' !! key = None
          /\ sent w' = failure :: sent w
          /\ upstream w' =
               github.CallCreateIssue GithubOwner GithubRepo (Title merged) body
                 (Labels merged) :: upstream w).
Proof.
  intros merged body failure Hdata Hmember Hstate Hcomplete Herr.
  pose (w1 := set_modalStates <[key := merged]> w).
  destruct (afterMerge_failure i key merged
              (fun issue =>
                 issueCreated issue +:+ github.nl +:+ github.nl +:+
                 "**Note:** You can use Markdown formatting in your descriptions. " +:+
                 "To add images or other attachments, please edit the issue directly on GitHub.")
              user err w1 Hmember Hcomplete Herr)
    as (wa & Hrun_a & Hstore_a & Hsent_a & Hup_a).
  destruct (afterMerge_failure i key merged issueCreated user err w1
              Hmember Hcomplete Herr)
    as (wb & Hrun_b & Hstore_b & Hsent_b & Hup_b).
  split.
  - exists wa. split; [| split; [| done]].
    + unfold handleModalContinuation, ModalSubmitData. unfold_M.
      rewrite Hstate, Hdata. exact Hrun_a.
    + rewrite Hstore_a. apply lookup_delete_eq.
  - intros command parts Hcmd Hroute Hkey.
    exists wb. split; [| split; [| done]].
    + unfold handleModalSubmit, ModalSubmitData, MemberUser. rewrite Hdata, Hmember.
      unfold_M. cbn [fst snd]. fold parts. rewrite Hcmd. cbn [default].
      assert (Hlen : (2 <= length parts)%nat).
      { apply lookup_lt_Some in Hcmd. lia. }
      destruct (Nat.ltb_spec (length parts) 2) as [?|_]; [lia |].
      assert (Hnot : String.eqb command "continue" && (3 <=? length parts)%nat = false).
      { destruct Hroute as [Hne|Hshort].
        - apply String.eqb_neq in Hne. by rewrite Hne.
        - destruct (Nat.leb_spec 3 (length parts)); [lia |]. apply andb_false_r. }
      unfold id. rewrite Hnot, <- Hkey, Hstate. exact Hrun_b.
    + rewrite Hstore_b. apply lookup_delete_eq.
Qed.

End creation_failure.

(** ** Merging submissions into a session *)

Section merge.

Lemma fieldLabelFor_known (allFields : list config.FieldConfig) (customID : string) :
  customID ∈ config.CustomID <$> allFields ->
  fieldLabelFor allFields customID ∈ config.Label <$> allFields.
Proof.
  induction allFields as [|field rest IH]; cbn [fmap list_fmap fieldLabelFor].
  - by intros ?%elem_of_nil.
  - intros Hin. destruct (String.eqb_spec (config.CustomID field) customID) as [Heq|Hne].
    + apply list_elem_of_here.
    + apply list_elem_of_further, IH.
      apply elem_of_cons in Hin as [Heq|Hin]; [congruence | done].
Qed.

Lemma mergeSubmission_inputs (components : list discordgo.MessageComponent)
    (state : ModalState) :
  mergeSubmission state components = foldl storeInput state (textInputsOf components).
Proof.
  unfold mergeSubmission, textInputsOf.
  revert state; induction components as [|component rest IH]; intros state;
    [done |].
  cbn [foldl mbind list_bind]. rewrite foldl_app, IH. f_equal.
  destruct component as [comps| | | | |]; try done.
  cbn [mergeComponent]. clear. revert state.
  induction comps as [|comp comps IHc]; intros state; [done |].
  cbn [foldl mbind list_bind]. rewrite foldl_app, IHc. f_equal.
  by destruct comp.
Qed.

Lemma storeInput_AllFields (state : ModalState) (textInput : discordgo.TextInput) :
  AllFields (storeInput state textInput) = AllFields state.
Proof. reflexivity. Qed.

Lemma foldl_storeInput_AllFields (inputs : list discordgo.TextInput)
    (state : ModalState) :
  AllFields (foldl storeInput state inputs) = AllFields state.
Proof.
  revert state; induction inputs as [|t inputs IH]; intros state; [done |].
  cbn [foldl]. by rewrite IH.
Qed.

Lemma mergeSubmission_AllFields (state : ModalState)
    (components : list discordgo.MessageComponent) :
  AllFields (mergeSubmission state components) = AllFields state.
Proof. rewrite mergeSubmission_inputs. apply foldl_storeInput_AllFields. Qed.

Lemma storeInput_collectedLabels (state : ModalState)
    (textInput : discordgo.TextInput) :
  collectedLabels state ->
  discordgo.CustomID textInput ∈ config.CustomID <$> AllFields state ->
  collectedLabels (storeInput state textInput).
Proof.
  unfold collectedLabels. intros Hinv Hknown. cbn.
  rewrite dom_insert_L. apply fieldLabelFor_known in Hknown.
  apply union_least; [| done].
  apply singleton_subseteq_l, elem_of_list_to_set, Hknown.
Qed.

Lemma mergeSubmission_collectedLabels (state : ModalState)
    (components : list discordgo.MessageComponent) :
  collectedLabels state ->
  knownInputs (AllFields state) components ->
  collectedLabels (mergeSubmission state components).
Proof.
  unfold knownInputs. rewrite mergeSubmission_inputs.
  generalize (textInputsOf components) as inputs. intros inputs.
  revert state; induction inputs as [|t inputs IH]; intros state Hinv Hknown;
    [done |].
  apply Forall_cons in Hknown as [Ht Hrest]. cbn [foldl].
  apply IH; [by apply storeInput_collectedLabels | by rewrite storeInput_AllFields].
Qed.

Lemma size_list_to_set_le (l : list string) :
  size (list_to_set l : gset string) <= length l.
Proof.
  induction l as [|x l IH]; cbn [list_to_set length].
  - by rewrite size_empty.
  - rewrite size_union_alt, size_singleton.
    assert (Hsub : list_to_set l ∖ {[x]} ⊆@{gset string} list_to_set l)
      by (by apply subseteq_difference_l).
    apply subseteq_size in Hsub. lia.
Qed.

Lemma collectedLabels_bound (state : ModalState) :
  collectedLabels state ->
  size (SubmittedValues state) <= length (AllFields state).
Proof.
  unfold collectedLabels. intros Hsub.
  rewrite <- (size_dom (D := gset string)).
  apply subseteq_size in Hsub.
  pose proof (size_list_to_set_le (config.Label <$> AllFields state)) as Hle.
  rewrite length_fmap in Hle. lia.
Qed.

End merge.

Section merge_theorems.

Lemma collectedLabels_empty (state : ModalState) :
  SubmittedValues state = ∅ -> collectedLabels state.
Proof.
  unfold collectedLabels. intros ->. rewrite dom_empty_L. apply empty_subseteq.
Qed.

Lemma foldl_mergeSubmission_AllFields
    (submissions : list (list discordgo.MessageComponent)) (state : ModalState) :
  AllFields (foldl mergeSubmission state submissions) = AllFields state.
Proof.
  revert state; induction submissions as [|comps rest IH]; intros state; [done |].
  cbn [foldl]. by rewrite IH, mergeSubmission_AllFields.
Qed.

Lemma foldl_mergeSubmission_collectedLabels
    (submissions : list (list discordgo.MessageComponent)) (state : ModalState) :
  collectedLabels state ->
  Forall (knownInputs (AllFields state)) submissions ->
  collectedLabels (foldl mergeSubmission state submissions).
Proof.
  revert state; induction submissions as [|comps rest IH];
    intros state Hinv Hknown; [done |].
  apply Forall_cons in Hknown as [Hcomps Hrest]. cbn [foldl].
  apply IH; [by apply mergeSubmission_collectedLabels |].
  by rewrite mergeSubmission_AllFields.
Qed.

(** C1 (amended) — starting from a session whose collected keys are labels
    of its fields (none, for a new session), after any sequence of merges
    whose submitted identifiers all belong to fields of the session, the
    number of collected values is at most the number of fields, and the
    handlers' completion test holds exactly when the two are equal. *)
Theorem merge_count_bounded (state : ModalState)
    (submissions : list (list discordgo.MessageComponent)) :
  collectedLabels state ->
  Forall (knownInputs (AllFields state)) submissions ->
  let merged := foldl mergeSubmission state submissions in
  size (SubmittedValues merged) <= length (AllFields merged)
  /\ ((size (SubmittedValues merged) <? length (AllFields merged))%nat = false
      <-> size (SubmittedValues merged) = length (AllFields merged)).
Proof.
  intros Hinv Hknown merged.
  assert (Hle : size (SubmittedValues merged) <= length (AllFields merged)).
  { apply collectedLabels_bound.
    by apply foldl_mergeSubmission_collectedLabels. }
  split; [done |].
  destruct (Nat.ltb_spec (size (SubmittedValues merged)) (length (AllFields merged)));
    split; intros; (done || lia).
Qed.

Lemma merge_count_bounded_witness :
  let merged := foldl mergeSubmission examples.session
                  [examples.page1; examples.page2] in
  size (SubmittedValues merged) <= length (AllFields merged)
  /\ ((size (SubmittedValues merged) <? length (AllFields merged))%nat = false
      <-> size (SubmittedValues merged) = length (AllFields merged)).
Proof.
  apply (merge_count_bounded examples.session [examples.page1; examples.page2]).
  - by apply collectedLabels_empty.
  - unfold knownInputs. apply (bool_decide_unpack _). by vm_compute.
Defined.

(** C1 as stated fails: identifiers that match no field are stored under
    themselves, so eight such values end up in a seven-field session, which
    the handlers then take for complete although the counts differ. *)
Lemma merge_count_unbounded :
  let merged := foldl mergeSubmission examples.session
                  [examples.strangers1; examples.strangers2] in
  ~ (size (SubmittedValues merged) <= length (AllFields merged))
  /\ (size (SubmittedValues merged) <? length (AllFields merged))%nat = false
  /\ size (SubmittedValues merged) <> length (AllFields merged).
Proof. vm_compute. repeat split; (lia || done). Qed.

End merge_theorems.

(** ** Paging *)

Section paging.

Context `{!Env, !github.Client}.

Lemma chunkAt_take_drop (allFields : list config.FieldConfig) (c : nat) :
  c <= length allFields ->
  chunkAt allFields c = Some (take 5 (drop c allFields)).
Proof.
  intros Hc. unfold chunkAt, slice.
  destruct (Nat.ltb_spec (length allFields) (c + 5)) as [Hshort|Hlong].
  - destruct (Nat.leb_spec c (length allFields)); [| lia].
    rewrite Nat.leb_refl. cbn [andb]. f_equal.
    rewrite !take_ge; [done | |]; rewrite length_drop; lia.
  - destruct (Nat.leb_spec c (c + 5)); [| lia].
    destruct (Nat.leb_spec (c + 5) (length allFields)); [| lia].
    cbn [andb]. do 2 f_equal. lia.
Qed.


Lemma page_length (allFields : list config.FieldConfig) (c : nat) :
  length (take 5 (drop c allFields)) = Nat.min 5 (length allFields - c).
Proof. by rewrite length_take, length_drop. Qed.



Lemma pageRun_concat (fuel : nat) (allFields : list config.FieldConfig) (c : nat) :
  c <= length allFields -> length allFields - c <= fuel ->
  concat (pageRun fuel allFields c) = drop c allFields.
Proof.
  revert c; induction fuel as [|fuel IH]; intros c Hc Hfuel; cbn [pageRun].
  - rewrite drop_ge by lia. done.
  - destruct (Nat.ltb_spec c (length allFields)) as [Hlt|Hge].
    + rewrite chunkAt_take_drop by done. cbn [concat].
      rewrite IH; rewrite ?page_length; [| lia | lia].
      rewrite <- (take_drop 5 (drop c allFields)) at 2.
      rewrite drop_drop. f_equal.
      destruct (decide (5 <= length allFields - c)); [f_equal; lia |].
      rewrite !drop_ge; [done | lia | lia].
    + rewrite drop_ge by lia. done.
Qed.



End paging.

Section paging_theorems.

Context `{!Env, !github.Client}.


Lemma handleButtonClick_renders (i : discordgo.InteractionCreate) (key : string)
    (state : ModalState) (page : list config.FieldConfig) (w : World) :
  discordgo.IData i = discordgo.MessageComponentInteractionData ("continue_" +:+ key) ->
  modalStates w !! key = Some state ->
  nextChunk state = Some page ->
  handleButtonClick i w
  = Done tt (set_sent (modalResponse ("modal_continue_" +:+ key) (Title state)
                         (fieldInput <$> page) :: sent w) w).
Proof.
  intros Hdata Hstate Hpage.
  unfold handleButtonClick, MessageComponentData, InteractionRespond.
  rewrite Hdata. unfold_M.
  unfold strings.HasPrefix. rewrite prefix_app, TrimPrefix_app, Hstate, Hpage.
  done.
Qed.

Lemma afterMerge_progress (i : discordgo.InteractionCreate) (key : string)
    (state : ModalState) (confirmation : github.IssueResponse -> string) (w : World) :
  size (SubmittedValues state) < length (AllFields state) ->
  afterMerge i key state confirmation w
  = Done tt (set_sent
               (message (partComplete (currentPart (size (SubmittedValues state)))
                           (totalParts state))
                  [continueButton key] :: sent w) w).
Proof.
  intros Hmore. unfold afterMerge, InteractionRespond.
  destruct (Nat.ltb_spec (size (SubmittedValues state)) (length (AllFields state)));
    [done | lia].
Qed.


(** Twelve fields are shown as pages of five, five and two; three parts. *)
Example twelve_fields :
  let fields := examples.field <$> ["1"; "2"; "3"; "4"; "5"; "6"; "7"; "8"; "9";
                                    "10"; "11"; "12"] in
  length <$> pageRun 12 fields 0 = [5; 5; 2] /\ (length fields + 4) / 5 = 3.
Proof. by vm_compute. Qed.

End paging_theorems.

(** ** The caches, one caller at a time *)

Section caches.

Context `{!Env, !github.Client}.

Local Open Scope Z_scope.

Lemma Sub_mono (t t' u : time.Time) : t <= t' -> time.Sub t u <= time.Sub t' u.
Proof.
  intros Hle. unfold time.Sub, time.minDuration, time.maxDuration.
  repeat match goal with
         | |- context [(?a <? ?b)] => destruct (Z.ltb_spec a b)
         end; lia.
Qed.

(** Within the range of [Duration], comparing [t.Sub(u)] with a duration is
    comparing the exact difference with it. *)
Lemma Sub_lt_iff (t u : time.Time) (d : time.Duration) :
  time.minDuration < d <= time.maxDuration ->
  (time.Sub t u < d <-> t - u < d).
Proof.
  unfold time.Sub, time.minDuration, time.maxDuration. intros Hd.
  repeat match goal with
         | |- context [(?a <? ?b)] => destruct (Z.ltb_spec a b)
         end; lia.
Qed.

Lemma releaseCacheFresh_run (w : World) :
  releaseCacheFresh w
  = Done ((time.Sub (clock (clockReads w)) (lastCacheUpdate w) <? cacheDuration)
          && (0 <? length (releaseCache w))%nat)
         (tick w).
Proof. reflexivity. Qed.

Lemma comparisonFresh_run (cacheKey : string) (w : World) :
  comparisonFresh cacheKey w
  = match comparisonCache w !! cacheKey with
    | Some cached =>
        Done (if time.Sub (clock (clockReads w)) (Timestamp cached)
                 <? comparisonCacheTTL
              then Some (Message cached) else None) (tick w)
    | None => Done None w
    end.
Proof.
  unfold comparisonFresh. unfold_M. by destruct (comparisonCache w !! cacheKey).
Qed.

Lemma updateReleaseCache_fresh (w : World) :
  releaseCache w <> [] ->
  time.Sub (clock (clockReads w)) (lastCacheUpdate w) < cacheDuration ->
  updateReleaseCache w = Done None (tick w).
Proof.
  intros Hpayload Hfresh. unfold updateReleaseCache. unfold_M.
  rewrite releaseCacheFresh_run.
  destruct (Z.ltb_spec (time.Sub (clock (clockReads w)) (lastCacheUpdate w))
              cacheDuration); [| lia].
  by destruct (releaseCache w).
Qed.

(** A stale or empty release cache goes to the upstream, once. *)
Lemma updateReleaseCache_stale (w : World) :
  (forall n, clock n <= clock (S n)) ->
  releaseCache w = []
  \/ cacheDuration <= time.Sub (clock (clockReads w)) (lastCacheUpdate w) ->
  updateReleaseCache w
  = match github.GetReleases (length (upstream w)) GithubOwner GithubRepo 100 with
    | inl err =>
        Done (Some err)
          (set_upstream (github.CallGetReleases GithubOwner GithubRepo 100
                           :: upstream w) (tick (tick w)))
    | inr releases =>
        Done None
          (set_lastCacheUpdate (clock (S (S (clockReads w))))
             (tick (set_releaseCache releases
                (set_upstream (github.CallGetReleases GithubOwner GithubRepo 100
                                 :: upstream w) (tick (tick w))))))
    end.
Proof.
  intros Hmono Hstale. unfold updateReleaseCache. unfold_M.
  assert (Hfirst :
    (time.Sub (clock (clockReads w)) (lastCacheUpdate w) <? cacheDuration)
    && (0 <? length (releaseCache w))%nat = false).
  { destruct Hstale as [->|Hold]; [apply andb_false_r |].
    destruct (Z.ltb_spec (time.Sub (clock (clockReads w)) (lastCacheUpdate w))
                cacheDuration); [lia | done]. }
  assert (Hsecond :
    (time.Sub (clock (clockReads (tick w))) (lastCacheUpdate (tick w))
       <? cacheDuration)
    && (0 <? length (releaseCache (tick w)))%nat = false).
  { cbn [tick set_clockReads clockReads lastCacheUpdate releaseCache].
    destruct Hstale as [->|Hold]; [apply andb_false_r |].
    pose proof (Sub_mono _ _ (lastCacheUpdate w) (Hmono (clockReads w))).
    destruct (Z.ltb_spec (time.Sub (clock (S (clockReads w))) (lastCacheUpdate w))
                cacheDuration); [lia | done]. }
  rewrite releaseCacheFresh_run, Hfirst, releaseCacheFresh_run, Hsecond.
  unfold GithubClient_GetReleases, Now.
  cbn [tick set_clockReads upstream].
  by destruct (github.GetReleases _ _ _ _).
Qed.

End caches.

Section comparison_cache.

Context `{!Env, !github.Client}.

Local Open Scope Z_scope.

Lemma getChangelogMessage_fresh (base head : string) (cached : CachedComparison)
    (w : World) :
  comparisonCache w !! cacheKeyOf base head = Some cached ->
  time.Sub (clock (clockReads w)) (Timestamp cached) < comparisonCacheTTL ->
  getChangelogMessage base head w = Done (Message cached, None) (tick w).
Proof.
  intros Hcached Hfresh. unfold getChangelogMessage. unfold_M.
  rewrite comparisonFresh_run, Hcached.
  destruct (Z.ltb_spec (time.Sub (clock (clockReads w)) (Timestamp cached))
              comparisonCacheTTL); [done | lia].
Qed.

Lemma getChangelogMessage_stale (base head : string) (w : World) :
  (forall n, clock n <= clock (S n)) ->
  match comparisonCache w !! cacheKeyOf base head with
  | Some cached =>
      comparisonCacheTTL <= time.Sub (clock (clockReads w)) (Timestamp cached)
  | None => True
  end ->
  getChangelogMessage base head w
  = fetchComparison base head
      (match comparisonCache w !! cacheKeyOf base head with
       | Some _ => tick (tick w)
       | None => w
       end).
Proof.
  intros Hmono Hstale. unfold getChangelogMessage, fetchComparison. unfold_M.
  rewrite comparisonFresh_run.
  destruct (comparisonCache w !! cacheKeyOf base head) as [cached|] eqn:Hcached.
  - destruct (Z.ltb_spec (time.Sub (clock (clockReads w)) (Timestamp cached))
                comparisonCacheTTL); [lia |].
    rewrite comparisonFresh_run.
    cbn [tick set_clockReads comparisonCache clockReads]. rewrite Hcached.
    pose proof (Sub_mono _ _ (Timestamp cached) (Hmono (clockReads w))).
    destruct (Z.ltb_spec (time.Sub (clock (S (clockReads w))) (Timestamp cached))
                comparisonCacheTTL); [lia |].
    unfold GithubClient_CompareCommits, Now.
    cbn [tick set_clockReads upstream].
    by destruct (github.CompareCommits _ _ _ _ _).
  - rewrite comparisonFresh_run, Hcached.
    unfold GithubClient_CompareCommits, Now.
    by destruct (github.CompareCommits _ _ _ _ _).
Qed.

End comparison_cache.

Section cache_theorems.

Context `{!Env, !github.Client}.

Local Open Scope Z_scope.

(** C3 — when the upstream call fails on a stale or empty entry,
    [updateReleaseCache] and [getChangelogMessage] return that error and
    both caches are exactly as before: payload and timestamp of the release
    slot and of every comparison key.  The clock does not go backwards. *)
Theorem fetch_error_keeps_cache (w : World) (err : github.error) :
  (forall n, clock n <= clock (S n)) ->
  (github.GetReleases (length (upstream w)) GithubOwner GithubRepo 100 = inl err ->
   releaseCache w = []
   \/ cacheDuration <= time.Sub (clock (clockReads w)) (lastCacheUpdate w) ->
   exists w',
     updateReleaseCache w = Done (Some err) w'
     /\ releaseCache w' = releaseCache w
     /\ lastCacheUpdate w' = lastCacheUpdate w
     /\ comparisonCache w' = comparisonCache w)
  /\ (forall base head,
      github.CompareCommits (length (upstream w)) GithubOwner GithubRepo base head
        = inl err ->
      match comparisonCache w !! cacheKeyOf base head with
      | Some cached =>
          comparisonCacheTTL <= time.Sub (clock (clockReads w)) (Timestamp cached)
      | None => True
      end ->
      exists w',
        getChangelogMessage base head w = Done ("", Some err) w'
        /\ releaseCache w' = releaseCache w
        /\ lastCacheUpdate w' = lastCacheUpdate w
        /\ comparisonCache w' = comparisonCache w).
Proof.
  intros Hmono. split.
  - intros Herr Hstale. rewrite updateReleaseCache_stale, Herr by done. eauto.
  - intros base head Herr Hstale.
    rewrite getChangelogMessage_stale by done. unfold fetchComparison.
    destruct (comparisonCache w !! cacheKeyOf base head);
      cbn [tick set_clockReads upstream]; rewrite Herr; eauto.
Qed.

(** C4 — a present payload younger than the time-to-live is returned
    without any upstream call; an entry as old as the time-to-live or older
    costs exactly one upstream call.  The clock does not go backwards. *)
Theorem cache_expiry (w : World) :
  (forall n, clock n <= clock (S n)) ->
  (releaseCache w <> [] ->
   time.Sub (clock (clockReads w)) (lastCacheUpdate w) < cacheDuration ->
   exists w',
     updateReleaseCache w = Done None w'
     /\ upstream w' = upstream w
     /\ releaseCache w' = releaseCache w)
  /\ (cacheDuration <= time.Sub (clock (clockReads w)) (lastCacheUpdate w) ->
      exists r w',
        updateReleaseCache w = Done r w'
        /\ upstream w'
           = github.CallGetReleases GithubOwner GithubRepo 100 :: upstream w)
  /\ (forall base head cached,
        comparisonCache w !! cacheKeyOf base head = Some cached ->
        time.Sub (clock (clockReads w)) (Timestamp cached) < comparisonCacheTTL ->
        exists w',
          getChangelogMessage base head w = Done (Message cached, None) w'
          /\ upstream w' = upstream w
          /\ comparisonCache w' = comparisonCache w)
  /\ (forall base head cached,
        comparisonCache w !! cacheKeyOf base head = Some cached ->
        comparisonCacheTTL <= time.Sub (clock (clockReads w)) (Timestamp cached) ->
        exists r w',
          getChangelogMessage base head w = Done r w'
          /\ upstream w'
             = github.CallCompareCommits GithubOwner GithubRepo base head
                 :: upstream w).
Proof.
  intros Hmono. repeat split.
  - intros Hpayload Hfresh. rewrite updateReleaseCache_fresh by done. eauto.
  - intros Hstale. rewrite updateReleaseCache_stale by auto.
    destruct (github.GetReleases _ _ _ _); eauto.
  - intros base head cached Hcached Hfresh.
    rewrite (getChangelogMessage_fresh _ _ cached) by done. eauto.
  - intros base head cached Hcached Hstale.
    rewrite getChangelogMessage_stale by (by rewrite ?Hcached).
    rewrite Hcached. unfold fetchComparison.
    cbn [tick set_clockReads upstream].
    destruct (github.CompareCommits _ _ _ _ _); eauto.
Qed.

End cache_theorems.

(** ** Changelog autocomplete *)

Section autocomplete.

Context `{!Env, !github.Client}.

Lemma Contains_empty (s : string) : strings.Contains s "" = true.
Proof. by destruct s. Qed.

Lemma ToLower_empty : strings.ToLower unicodeLower "" = "".
Proof. reflexivity. Qed.

(** The test of the loop: an empty input matches every tag, as the empty
    string is contained in every string. *)
Lemma choice_test (currentInput tagName : string) :
  String.eqb currentInput "" ||
    strings.Contains (strings.ToLower unicodeLower tagName) currentInput
  = strings.Contains (strings.ToLower unicodeLower tagName) currentInput.
Proof.
  destruct (String.eqb_spec currentInput "") as [->|_]; [| done].
  by rewrite Contains_empty.
Qed.

Lemma filter_empty_input (tags : list string) :
  List.filter
    (fun tagName => strings.Contains (strings.ToLower unicodeLower tagName) "")
    tags = tags.
Proof.
  induction tags as [|tag tags IH]; [done |].
  cbn [List.filter]. by rewrite Contains_empty, IH.
Qed.

Lemma collectChoices_take (currentInput : string)
    (releases : list gogithub.RepositoryRelease)
    (choices : list discordgo.ApplicationCommandOptionChoice) :
  (length choices < 25)%nat ->
  collectChoices currentInput releases choices
  = take 25
      (choices ++
       (choiceOf <$>
          List.filter
            (fun tagName =>
               strings.Contains (strings.ToLower unicodeLower tagName) currentInput)
            (gogithub.GetTagName <$> releases))).
Proof.
  revert choices; induction releases as [|release rest IH]; intros choices Hlen.
  - cbn. rewrite app_nil_r, take_ge; [done | lia].
  - cbn [collectChoices fmap list_fmap List.filter]. rewrite choice_test.
    destruct (strings.Contains _ currentInput).
    + cbn [fmap list_fmap].
      set (choice := choiceOf (gogithub.GetTagName release)).
      set (later := choiceOf <$> List.filter _ _).
      replace (choices ++ choice :: later)%list
        with ((choices ++ [choice]) ++ later)%list by (by rewrite <- app_assoc).
      assert (Hgrown : length (choices ++ [choice])%list = S (length choices))
        by (rewrite length_app; cbn [length]; lia).
      destruct (Nat.leb_spec 25 (length (choices ++ [choice])%list)) as [Hfull|Hroom].
      * rewrite take_app_le by done. rewrite take_ge; [done | lia].
      * by rewrite IH.
    + destruct (Nat.leb_spec 25 (length choices)); [lia |]. by apply IH.
Qed.

Lemma currentInputOf_run
    (options : list discordgo.ApplicationCommandInteractionDataOption) (w : World) :
  (forall opt, List.find discordgo.Focused options = Some opt ->
               discordgo.OptValue opt <> discordgo.OptOther) ->
  currentInputOf options w
  = Done (strings.ToLower unicodeLower (focusedInput options)) w.
Proof.
  unfold focusedInput.
  induction options as [|opt rest IH]; intros Hstr; cbn [currentInputOf List.find].
  - done.
  - destruct (discordgo.Focused opt) eqn:Hfocused.
    + specialize (Hstr opt). cbn [List.find] in Hstr. rewrite Hfocused in Hstr.
      unfold StringValue. destruct (discordgo.OptValue opt); [done |].
      by destruct Hstr.
    + apply IH. intros opt' Hfind. apply Hstr. cbn [List.find].
      by rewrite Hfocused.
Qed.

Lemma updateReleaseCache_total (w : World) :
  exists r w', updateReleaseCache w = Done r w' /\ sent w' = sent w.
Proof.
  unfold updateReleaseCache. unfold_M. rewrite releaseCacheFresh_run.
  destruct (_ && _); [eauto |].
  rewrite releaseCacheFresh_run. destruct (_ && _); [eauto |].
  unfold GithubClient_GetReleases, Now.
  destruct (github.GetReleases _ _ _ _); eauto.
Qed.

(** C10 — the changelog autocomplete answers with at most 25 choices: the
    first tags of the cached releases, in cache order, that contain the
    focused input when both are lowered, and the first 25 tags when the
    input is empty.  Name and value of a choice are the tag name, and the
    response is an autocomplete result that carries the choices and nothing
    else. *)
Theorem autocomplete_choices (i : discordgo.InteractionCreate) (name : string)
    (options : list discordgo.ApplicationCommandInteractionDataOption) (w : World) :
  discordgo.IData i = discordgo.ApplicationCommandInteractionData name options ->
  (forall opt, List.find discordgo.Focused options = Some opt ->
               discordgo.OptValue opt <> discordgo.OptOther) ->
  exists w' choices,
    handleChangelogAutocomplete i w = Done tt w'
    /\ sent w'
       = {| discordgo.Type_ :=
              discordgo.InteractionApplicationCommandAutocompleteResult;
            discordgo.Data :=
              {| discordgo.Content := "";
                 discordgo.Flags := discordgo.MessageFlagsNone;
                 discordgo.RespComponents := [];
                 discordgo.RespCustomID := "";
                 discordgo.Title := "";
                 discordgo.Choices := choices |} |} :: sent w
    /\ (length choices <= 25)%nat
    /\ choices
       = take 25
           ((fun tagName => {| discordgo.ChoiceName := tagName;
                                discordgo.ChoiceValue := tagName |}) <$>
              List.filter
                (fun tagName =>
                   strings.Contains (strings.ToLower unicodeLower tagName)
                     (strings.ToLower unicodeLower (focusedInput options)))
                (gogithub.GetTagName <$> releaseCache w'))
    /\ (focusedInput options = "" ->
        choices
        = take 25 ((fun tagName => {| discordgo.ChoiceName := tagName;
                                discordgo.ChoiceValue := tagName |}) <$>
                     (gogithub.GetTagName <$> releaseCache w'))).
Proof.
  intros Hdata Hstr.
  destruct (updateReleaseCache_total w) as (r & w1 & Hupdate & Hsent).
  set (currentInput := strings.ToLower unicodeLower (focusedInput options)).
  set (choices := collectChoices currentInput (releaseCache w1) []).
  assert (Hchoices : choices
    = take 25 (choiceOf <$>
                 List.filter
                   (fun tagName =>
                      strings.Contains (strings.ToLower unicodeLower tagName)
                        currentInput)
                   (gogithub.GetTagName <$> releaseCache w1))).
  { unfold choices. rewrite collectChoices_take by (cbn; lia). done. }
  exists (set_sent (autocompleteResult choices :: sent w1) w1), choices.
  split; [| split; [| split; [| split]]].
  - unfold handleChangelogAutocomplete, ApplicationCommandData, InteractionRespond.
    unfold_M. rewrite Hupdate, Hdata. cbn [snd].
    by rewrite currentInputOf_run.
  - cbn. by rewrite Hsent.
  - rewrite Hchoices, length_take. lia.
  - exact Hchoices.
  - intros Hempty. rewrite Hchoices. unfold currentInput. rewrite Hempty.
    rewrite ToLower_empty. cbn [releaseCache set_sent].
    by rewrite filter_empty_input.
Qed.

End autocomplete.

(** ** Concurrent callers of [updateReleaseCache] *)

Section race_locks.

Import race.
Context `{!Env, !github.Client}.

Lemma start_LockInv (K : nat) (w : World) : LockInv (start K w).
Proof.
  split; cbn [start goroutines readers writer].
  - intros g pc [-> _]%lookup_replicate. done.
  - intros g pc [-> _]%lookup_replicate. split; [done | set_solver].
  - done.
  - set_solver.
  - done.
Qed.

(** A goroutine that changes neither its locks nor the lock state. *)
Lemma LockInv_internal (g : nat) (pc pc' : PC) (w : World) (s : System) :
  LockInv s ->
  goroutines s !! g = Some pc ->
  holdsRead pc' = holdsRead pc ->
  holdsWrite pc' = holdsWrite pc ->
  LockInv (move g pc' w (readers s) (writer s) s).
Proof.
  intros [Hw Hr Hwe Hre Hex] Hpc Hread Hwrite.
  split; cbn [move goroutines readers writer].
  - intros g' pc'' [(-> & <- & _)|(Hne & Hlook)]%list_lookup_insert_Some.
    + rewrite Hwrite. by apply Hw.
    + by apply Hw.
  - intros g' pc'' [(-> & <- & _)|(Hne & Hlook)]%list_lookup_insert_Some.
    + rewrite Hread. by apply Hr.
    + by apply Hr.
  - intros g' Hg'. apply Hwe in Hg' as [pc0 Hpc0].
    destruct (decide (g = g')) as [->|Hne].
    + exists pc'. apply list_lookup_insert_eq. by eapply lookup_lt_Some.
    + exists pc0. by rewrite list_lookup_insert_ne.
  - intros g' Hg'. apply Hre in Hg' as [pc0 Hpc0].
    destruct (decide (g = g')) as [->|Hne].
    + exists pc'. apply list_lookup_insert_eq. by eapply lookup_lt_Some.
    + exists pc0. by rewrite list_lookup_insert_ne.
  - done.
Qed.

Lemma releaseCacheFresh_Done (w : World) :
  exists fresh, releaseCacheFresh w = Done fresh (tick w).
Proof. rewrite releaseCacheFresh_run. eauto. Qed.

Lemma LockInv_step (g : nat) (s s' : System) :
  LockInv s -> step g s = Some s' -> LockInv s'.
Proof.
  intros Hinv Hstep. unfold step in Hstep.
  destruct (goroutines s !! g) as [pc|] eqn:Hpc; [| done].
  pose proof (lookup_lt_Some _ _ _ Hpc) as Hlt.
  destruct pc as [| |fresh| | | |releases| |result|result].
  - (* RLock *)
    destruct (writer s) eqn:Hwriter; [done |]. injection Hstep as <-.
    destruct Hinv as [Hw Hr Hwe Hre Hex].
    split; cbn [move goroutines readers writer].
    + intros g' pc' [(-> & <- & _)|(Hne & Hlook)]%list_lookup_insert_Some.
      * done.
      * rewrite <- Hwriter. by apply Hw.
    + intros g' pc' [(-> & <- & _)|(Hne & Hlook)]%list_lookup_insert_Some.
      * split; [set_solver | done].
      * rewrite (Hr g' pc' Hlook). set_solver.
    + done.
    + intros g' [->%elem_of_singleton|Hg']%elem_of_union.
      * exists AtFirstCheck. by apply list_lookup_insert_eq.
      * apply Hre in Hg' as [pc0 Hpc0].
        destruct (decide (g = g')) as [->|Hne].
        -- exists AtFirstCheck. by apply list_lookup_insert_eq.
        -- exists pc0. by rewrite list_lookup_insert_ne.
    + done.
  - (* first check *)
    destruct (releaseCacheFresh_Done (world s)) as [fresh Hfresh].
    rewrite Hfresh in Hstep. injection Hstep as <-.
    by eapply LockInv_internal.
  - (* RUnlock *)
    injection Hstep as <-. destruct Hinv as [Hw Hr Hwe Hre Hex].
    split; cbn [move goroutines readers writer].
    + intros g' pc' [(-> & <- & _)|(Hne & Hlook)]%list_lookup_insert_Some.
      * rewrite <- (Hw g' _ Hpc). by destruct fresh.
      * by apply Hw.
    + intros g' pc' [(-> & <- & _)|(Hne & Hlook)]%list_lookup_insert_Some.
      * split; [by destruct fresh | set_solver].
      * rewrite (Hr g' pc' Hlook). set_solver.
    + intros g' Hg'. apply Hwe in Hg' as [pc0 Hpc0].
      destruct (decide (g = g')) as [->|Hne].
      * eexists. by apply list_lookup_insert_eq.
      * exists pc0. by rewrite list_lookup_insert_ne.
    + intros g' [Hg' Hne]%elem_of_difference.
      apply Hre in Hg' as [pc0 Hpc0]. exists pc0.
      rewrite list_lookup_insert_ne; [done | set_solver].
    + intros g' Hg'. rewrite (Hex g' Hg'). set_solver.
  - (* Lock *)
    destruct (writer s) eqn:Hwriter; [done |].
    destruct (decide (readers s = ∅)) as [Hempty|]; [| done].
    injection Hstep as <-. destruct Hinv as [Hw Hr Hwe Hre Hex].
    split; cbn [move goroutines readers writer].
    + intros g' pc' [(-> & <- & _)|(Hne & Hlook)]%list_lookup_insert_Some.
      * done.
      * pose proof (Hw g' pc' Hlook) as Hold. rewrite Hwriter in Hold.
        split; [intros Hh; by apply Hold in Hh | intros [= ?]; done].
    + intros g' pc' [(-> & <- & _)|(Hne & Hlook)]%list_lookup_insert_Some.
      * rewrite Hempty. split; [done | set_solver].
      * by apply Hr.
    + intros g' [= <-]. exists AtSecondCheck. by apply list_lookup_insert_eq.
    + intros g' Hg'. rewrite Hempty in Hg'. set_solver.
    + done.
  - (* second check *)
    destruct (releaseCacheFresh_Done (world s)) as [fresh Hfresh].
    rewrite Hfresh in Hstep. injection Hstep as <-.
    eapply LockInv_internal; [done | done | by destruct fresh | by destruct fresh].
  - (* fetch *)
    unfold GithubClient_GetReleases in Hstep.
    destruct (github.GetReleases _ _ _ _); injection Hstep as <-;
      by eapply LockInv_internal.
  - (* store *)
    injection Hstep as <-. by eapply LockInv_internal.
  - (* stamp *)
    unfold Now in Hstep. injection Hstep as <-. by eapply LockInv_internal.
  - (* Unlock *)
    injection Hstep as <-. destruct Hinv as [Hw Hr Hwe Hre Hex].
    assert (Hheld : writer s = Some g) by (by apply (Hw g _ Hpc)).
    split; cbn [move goroutines readers writer].
    + intros g' pc' [(-> & <- & _)|(Hne & Hlook)]%list_lookup_insert_Some.
      * done.
      * pose proof (Hw g' pc' Hlook) as Hold. rewrite Hheld in Hold.
        split; [intros Hh; apply Hold in Hh; congruence | done].
    + intros g' pc' [(-> & <- & _)|(Hne & Hlook)]%list_lookup_insert_Some.
      * rewrite <- (Hr g' _ Hpc). done.
      * by apply Hr.
    + done.
    + intros g' Hg'. apply Hre in Hg' as [pc0 Hpc0].
      destruct (decide (g = g')) as [->|Hne].
      * eexists. by apply list_lookup_insert_eq.
      * exists pc0. by rewrite list_lookup_insert_ne.
    + done.
  - done.
Qed.

End race_locks.

Section race_progress.

Import race.
Context `{!Env, !github.Client}.

Lemma sum_weight_insert (l : list PC) (g : nat) (pc pc' : PC) :
  l !! g = Some pc ->
  sum_list (weight <$> <[g := pc']> l) + weight pc
  = sum_list (weight <$> l) + weight pc'.
Proof.
  revert g; induction l as [|x l IH]; intros g Hg; [done |].
  change (sum_list (weight <$> x :: l)) with (weight x + sum_list (weight <$> l)).
  destruct g as [|g].
  - injection Hg as ->.
    change (sum_list (weight <$> <[0 := pc']> (pc :: l)))
      with (weight pc' + sum_list (weight <$> l)).
    lia.
  - change (sum_list (weight <$> <[S g := pc']> (x :: l)))
      with (weight x + sum_list (weight <$> <[g := pc']> l)).
    specialize (IH g Hg). lia.
Qed.

(** Every step brings its goroutine closer to returning. *)
Lemma step_remaining (g : nat) (s s' : System) :
  step g s = Some s' -> remaining s' < remaining s.
Proof.
  unfold step, remaining. intros Hstep.
  destruct (goroutines s !! g) as [pc|] eqn:Hpc; [| done].
  assert (Hmove : forall pc' w rs wr,
            weight pc' < weight pc ->
            sum_list (weight <$> goroutines (move g pc' w rs wr s))
            < sum_list (weight <$> goroutines s)).
  { intros pc' w rs wr Hlt. cbn [move goroutines].
    pose proof (sum_weight_insert _ g pc pc' Hpc). lia. }
  destruct pc as [| |fresh| | | |releases| |result|result].
  - destruct (writer s); [done |]. injection Hstep as <-. apply Hmove. cbn. lia.
  - destruct (releaseCacheFresh_Done (world s)) as [fresh Hfresh].
    rewrite Hfresh in Hstep. injection Hstep as <-. apply Hmove. cbn. lia.
  - injection Hstep as <-. apply Hmove. destruct fresh; cbn; lia.
  - destruct (writer s); [done |]. destruct (decide _); [| done].
    injection Hstep as <-. apply Hmove. cbn. lia.
  - destruct (releaseCacheFresh_Done (world s)) as [fresh Hfresh].
    rewrite Hfresh in Hstep. injection Hstep as <-. apply Hmove.
    destruct fresh; cbn; lia.
  - unfold GithubClient_GetReleases in Hstep.
    destruct (github.GetReleases _ _ _ _); injection Hstep as <-;
      apply Hmove; cbn; lia.
  - injection Hstep as <-. apply Hmove. cbn. lia.
  - unfold Now in Hstep. injection Hstep as <-. apply Hmove. cbn. lia.
  - injection Hstep as <-. apply Hmove. cbn. lia.
  - done.
Qed.

(** A goroutine that holds a lock can always step. *)
Lemma holder_steps (g : nat) (pc : PC) (s : System) :
  goroutines s !! g = Some pc ->
  holdsRead pc = true \/ holdsWrite pc = true ->
  is_Some (step g s).
Proof.
  intros Hpc Hholds. unfold step. rewrite Hpc.
  destruct (releaseCacheFresh_Done (world s)) as [fresh Hfresh].
  destruct pc; try (by destruct Hholds); rewrite ?Hfresh; try done.
  unfold GithubClient_GetReleases. by destruct (github.GetReleases _ _ _ _).
Qed.

(** No deadlock: while a goroutine has not returned, some goroutine can
    step. *)
Lemma progress (s : System) :
  LockInv s -> finished s = false -> exists g s', step g s = Some s'.
Proof.
  intros [Hw Hr Hwe Hre Hex] Hunfinished.
  destruct (writer s) as [g|] eqn:Hwriter.
  { destruct (Hwe g eq_refl) as [pc Hpc].
    destruct (holder_steps g pc s Hpc) as [s' Hstep]; [| by eauto].
    right. by apply (Hw g pc Hpc). }
  destruct (set_choose_or_empty (readers s)) as [[g Hg]|Hempty].
  { destruct (Hre g Hg) as [pc Hpc].
    destruct (holder_steps g pc s Hpc) as [s' Hstep]; [| by eauto].
    left. by apply (Hr g pc Hpc). }
  apply leibniz_equiv in Hempty.
  unfold finished in Hunfinished.
  assert (Hsome : exists g pc, goroutines s !! g = Some pc /\ isReturned pc = false).
  { clear -Hunfinished. induction (goroutines s) as [|pc l IH]; [done |].
    cbn in Hunfinished. destruct (isReturned pc) eqn:Hret.
    - destruct (IH Hunfinished) as (g & pc' & Hlook & Hpc'). by exists (S g), pc'.
    - by exists 0, pc. }
  destruct Hsome as (g & pc & Hpc & Hret).
  exists g. unfold step. rewrite Hpc, Hwriter.
  pose proof (Hw g pc Hpc) as Hnotw. pose proof (Hr g pc Hpc) as Hnotr.
  rewrite Hempty in Hnotr.
  destruct pc; try done; try (by eauto);
    try (exfalso; by apply (not_elem_of_empty (C := gset nat) g), Hnotr);
    try (exfalso; by discriminate (proj1 Hnotw eq_refl)).
  destruct (decide (readers s = ∅)); [by eauto | done].
Qed.

Lemma run_app (schedule rest : list nat) (s : System) :
  run (schedule ++ rest) s
  = match run schedule s with
    | Some s' => run rest s'
    | None => None
    end.
Proof.
  revert s; induction schedule as [|g schedule IH]; intros s; [done |].
  cbn [app run]. by destruct (step g s).
Qed.

Lemma LockInv_run (schedule : list nat) (s s' : System) :
  LockInv s -> run schedule s = Some s' -> LockInv s'.
Proof.
  revert s; induction schedule as [|g schedule IH]; intros s Hinv Hrun.
  - by injection Hrun as <-.
  - cbn [run] in Hrun. destruct (step g s) as [s1|] eqn:Hstep; [| done].
    by eapply IH; [eapply LockInv_step |].
Qed.

(** Every state the locks allow can be run to the end. *)
Lemma completion (s : System) :
  LockInv s -> exists rest s', run rest s = Some s' /\ finished s' = true.
Proof.
  remember (remaining s) as n eqn:Hn. revert s Hn.
  induction n as [n IH] using lt_wf_ind. intros s -> Hinv.
  destruct (finished s) eqn:Hfin.
  - by exists [], s.
  - destruct (progress s Hinv Hfin) as (g & s1 & Hstep).
    destruct (IH (remaining s1) (step_remaining _ _ _ Hstep) s1 eq_refl)
      as (rest & s' & Hrun & Hdone); [by eapply LockInv_step |].
    exists (g :: rest), s'. cbn [run]. by rewrite Hstep.
Qed.

End race_progress.

Section race_cache.

Import race.
Context `{!Env, !github.Client}.
Variables (w0 : World) (payload : list gogithub.RepositoryRelease).
Hypothesis fetch_succeeds :
  github.GetReleases (length (upstream w0)) GithubOwner GithubRepo 100 = inr payload.
Hypothesis payload_nonempty : payload <> [].

Lemma storing_holdsWrite (pc : PC) : storing pc = true -> holdsWrite pc = true.
Proof. by destruct pc. Qed.

(** While a goroutine holds the write lock, no other holds any lock. *)
Lemma writer_alone (s : System) (g g' : nat) (pc pc' : PC) :
  LockInv s ->
  goroutines s !! g = Some pc -> holdsWrite pc = true ->
  goroutines s !! g' = Some pc' -> g' <> g ->
  holdsWrite pc' = false /\ holdsRead pc' = false.
Proof.
  intros [Hw Hr Hwe Hre Hex] Hpc Hheld Hpc' Hne.
  assert (Hwriter : writer s = Some g) by (by apply (Hw g pc)).
  split.
  - destruct (holdsWrite pc') eqn:Hheld'; [| done].
    apply (Hw g' pc' Hpc') in Hheld'. congruence.
  - destruct (holdsRead pc') eqn:Hread; [| done].
    apply (Hr g' pc' Hpc') in Hread. rewrite (Hex g Hwriter) in Hread. set_solver.
Qed.

(** While a goroutine holds the read lock, none holds the write lock. *)
Lemma reader_excludes (s : System) (g g' : nat) (pc pc' : PC) :
  LockInv s ->
  goroutines s !! g = Some pc -> holdsRead pc = true ->
  goroutines s !! g' = Some pc' ->
  holdsWrite pc' = false.
Proof.
  intros [Hw Hr Hwe Hre Hex] Hpc Hread Hpc'.
  destruct (holdsWrite pc') eqn:Hheld; [| done].
  apply (Hw g' pc' Hpc') in Hheld. apply (Hr g pc Hpc) in Hread.
  rewrite (Hex g' Hheld) in Hread. set_solver.
Qed.

Lemma cold_not_fresh (w : World) :
  releaseCache w = [] -> releaseCacheFresh w = Done false (tick w).
Proof. intros Hcold. rewrite releaseCacheFresh_run, Hcold. by rewrite andb_false_r. Qed.

Lemma settled_fresh (w : World) :
  settled w0 payload w -> window w0 (S (clockReads w)) ->
  releaseCacheFresh w = Done true (tick w).
Proof.
  intros [Hcache (k & Hk & Hstamp)] Hwindow.
  rewrite releaseCacheFresh_run, Hcache, Hstamp.
  specialize (Hwindow k (clockReads w) ltac:(lia) ltac:(lia) ltac:(lia)).
  destruct (Z.ltb_spec (time.Sub (clock (clockReads w)) (clock k)) cacheDuration);
    [| lia].
  by destruct payload.
Qed.

Lemma settled_tick (w : World) : settled w0 payload w -> settled w0 payload (tick w).
Proof.
  intros [Hcache (k & Hk & Hstamp)]. split; [done |].
  exists k. cbn [tick set_clockReads clockReads lastCacheUpdate]. split; [lia | done].
Qed.

Lemma Cold_move (s : System) (g : nat) (pc' : PC) (w : World)
    (rs : gset nat) (wr : option nat) :
  Cold w0 s -> beforeFetch pc' ->
  upstream w = upstream (world s) -> releaseCache w = releaseCache (world s) ->
  Cold w0 (move g pc' w rs wr s).
Proof.
  intros [Hup Hcache Hpoints] Hpc' Hup' Hcache'.
  split; cbn [move world goroutines]; [congruence | congruence |].
  by apply Forall_insert.
Qed.

(** A move between two points that are not in the middle of the store. *)
Lemma Warm_move (s : System) (g : nat) (pc pc' : PC) (w : World)
    (rs : gset nat) (wr : option nat) :
  Warm w0 payload s ->
  goroutines s !! g = Some pc -> storing pc = false -> storing pc' = false ->
  afterFetch payload pc' ->
  upstream w = upstream (world s) -> releaseCache w = releaseCache (world s) ->
  (settled w0 payload (world s) -> settled w0 payload w) ->
  Warm w0 payload (move g pc' w rs wr s).
Proof.
  intros [Hup Hpoints Hstamp Hsettled] Hpc Hquiet Hquiet' Hpc' Hup' Hcache' Hkeep.
  split; cbn [move world goroutines].
  - congruence.
  - by apply Forall_insert.
  - intros [g' [(-> & -> & _)|(Hne & Hlook)]%list_lookup_insert_Some]; [done |].
    rewrite Hcache'. apply Hstamp. eauto.
  - intros Hnone. apply Hkeep, Hsettled. intros g' pc0 Hlook.
    destruct (decide (g' = g)) as [->|Hne]; [congruence |].
    apply (Hnone g'). by rewrite list_lookup_insert_ne.
Qed.

(** When a goroutine holds the read lock, or holds the write lock outside
    the store, the cache is settled. *)
Lemma Warm_settled_for (s : System) (g : nat) (pc : PC) :
  LockInv s -> Warm w0 payload s ->
  goroutines s !! g = Some pc ->
  holdsRead pc = true \/ (holdsWrite pc = true /\ storing pc = false) ->
  settled w0 payload (world s).
Proof.
  intros Hlocks Hwarm Hpc Hheld. apply (warm_settled _ _ _ Hwarm).
  intros g' pc' Hpc'. destruct (storing pc') eqn:Hstoring; [| done].
  pose proof (storing_holdsWrite _ Hstoring) as Hholds.
  destruct Hheld as [Hread|[Hwrite Hquiet]].
  - pose proof (reader_excludes s g g' pc pc' Hlocks Hpc Hread Hpc'). congruence.
  - destruct (decide (g' = g)) as [->|Hne].
    + congruence.
    + destruct (writer_alone s g g' pc pc' Hlocks Hpc Hwrite Hpc' Hne). congruence.
Qed.

Lemma CacheInv_step (g : nat) (s s' : System) :
  LockInv s -> CacheInv w0 payload s ->
  step g s = Some s' ->
  window w0 (clockReads (world s')) ->
  CacheInv w0 payload s'.
Proof.
  intros Hlocks [Hreads Hphase] Hstep Hwindow. unfold step in Hstep.
  destruct (goroutines s !! g) as [pc|] eqn:Hpc; [| done].
  assert (Hpoint : (Cold w0 s /\ beforeFetch pc) \/ (Warm w0 payload s /\ afterFetch payload pc)).
  { destruct Hphase as [Hcold|Hwarm]; [left | right]; (split; [done |]).
    - eapply Forall_lookup_1; [apply (cold_points _ _ Hcold) | done].
    - eapply Forall_lookup_1; [apply (warm_points _ _ _ Hwarm) | done]. }
  clear Hphase.
  destruct pc as [| |fresh| | | |releases| |result|result].
  - (* RLock *)
    destruct (writer s); [done |]. injection Hstep as <-.
    split; [done |].
    destruct Hpoint as [[Hcold _]|[Hwarm _]]; [left | right].
    + by apply Cold_move.
    + by eapply Warm_move.
  - (* first check *)
    destruct Hpoint as [[Hcold _]|[Hwarm _]].
    + rewrite (cold_not_fresh _ (cold_cache _ _ Hcold)) in Hstep.
      injection Hstep as <-. split; [cbn; lia | left]. by apply Cold_move.
    + assert (Hsettled : settled w0 payload (world s))
        by (eapply Warm_settled_for; eauto).
      destruct (releaseCacheFresh_Done (world s)) as [fresh Hfresh].
      rewrite Hfresh in Hstep. injection Hstep as <-.
      cbn [move world tick set_clockReads clockReads] in Hwindow.
      rewrite (settled_fresh _ Hsettled Hwindow) in Hfresh.
      injection Hfresh as <-.
      split; [cbn; lia | right].
      eapply Warm_move; eauto using settled_tick; done.
  - (* RUnlock *)
    injection Hstep as <-. split; [done |].
    destruct Hpoint as [[Hcold ->]|[Hwarm ->]]; [left | right].
    + by apply Cold_move.
    + by eapply Warm_move.
  - (* Lock *)
    destruct (writer s); [done |]. destruct (decide _); [| done].
    injection Hstep as <-. split; [done |].
    destruct Hpoint as [[Hcold _]|[Hwarm _]]; [left | right].
    + by apply Cold_move.
    + by eapply Warm_move.
  - (* second check *)
    destruct Hpoint as [[Hcold _]|[Hwarm _]].
    + rewrite (cold_not_fresh _ (cold_cache _ _ Hcold)) in Hstep.
      injection Hstep as <-. split; [cbn; lia | left]. by apply Cold_move.
    + assert (Hsettled : settled w0 payload (world s))
        by (eapply Warm_settled_for; eauto).
      destruct (releaseCacheFresh_Done (world s)) as [fresh Hfresh].
      rewrite Hfresh in Hstep. injection Hstep as <-.
      cbn [move world tick set_clockReads clockReads] in Hwindow.
      rewrite (settled_fresh _ Hsettled Hwindow) in Hfresh.
      injection Hfresh as <-.
      split; [cbn; lia | right].
      eapply Warm_move; eauto using settled_tick; done.
  - (* fetch *)
    destruct Hpoint as [[Hcold _]|[_ []]].
    unfold GithubClient_GetReleases in Hstep.
    rewrite (cold_upstream _ _ Hcold), fetch_succeeds in Hstep.
    injection Hstep as <-. split; [done |]. right.
    assert (Hothers : forall g' pc', goroutines s !! g' = Some pc' -> g' <> g ->
                                     holdsWrite pc' = false /\ holdsRead pc' = false)
      by (intros g' pc' Hpc' Hne; by eapply (writer_alone s g g' AtFetch)).
    split; cbn [move world goroutines set_upstream upstream releaseCache].
    + reflexivity.
    + apply Forall_lookup_2. intros g' pc' Hlook.
      apply list_lookup_insert_Some in Hlook as [(-> & <- & _)|(Hne & Hlook)];
        [done |].
      destruct (Hothers g' pc' Hlook ltac:(done)) as [Hnotw Hnotr].
      pose proof (Forall_lookup_1 _ _ _ _ (cold_points _ _ Hcold) Hlook) as Hbefore.
      by destruct pc'.
    + intros [g' [(_ & [=] & _)|(Hne & Hlook)]%list_lookup_insert_Some].
      by destruct (Hothers g' AtStamp Hlook ltac:(done)).
    + intros Hnone. exfalso.
      assert (Hg : <[g := AtStore payload]> (goroutines s) !! g = Some (AtStore payload))
        by (apply list_lookup_insert_eq; by eapply lookup_lt_Some).
      by specialize (Hnone g _ Hg).
  - (* store *)
    destruct Hpoint as [[_ []]|[Hwarm Hpayload]]. cbn in Hpayload. subst releases.
    injection Hstep as <-. split; [done |]. right.
    split; cbn [move world goroutines set_releaseCache upstream releaseCache].
    + apply (warm_upstream _ _ _ Hwarm).
    + apply Forall_insert; [apply (warm_points _ _ _ Hwarm) | done].
    + done.
    + intros Hnone. exfalso.
      assert (Hg : <[g := AtStamp]> (goroutines s) !! g = Some AtStamp)
        by (apply list_lookup_insert_eq; by eapply lookup_lt_Some).
      by specialize (Hnone g _ Hg).
  - (* stamp *)
    destruct Hpoint as [[_ []]|[Hwarm _]].
    unfold Now in Hstep. injection Hstep as <-.
    assert (Hcache : releaseCache (world s) = payload)
      by (apply (warm_stamp _ _ _ Hwarm); eauto).
    split; [cbn; lia |]. right.
    split; cbn [move world goroutines set_lastCacheUpdate set_clockReads upstream
                  releaseCache].
    + apply (warm_upstream _ _ _ Hwarm).
    + apply Forall_insert; [apply (warm_points _ _ _ Hwarm) | done].
    + done.
    + intros _. split; [done |]. exists (clockReads (world s)). cbn. split; [lia | done].
  - (* Unlock *)
    destruct Hpoint as [[_ []]|[Hwarm Hresult]].
    injection Hstep as <-. split; [done |]. right. by eapply Warm_move.
  - done.
Qed.

End race_cache.

Section race_runs.

Import race.
Context `{!Env, !github.Client}.

Lemma step_clockReads (g : nat) (s s' : System) :
  step g s = Some s' -> clockReads (world s) <= clockReads (world s').
Proof.
  unfold step. intros Hstep.
  destruct (goroutines s !! g) as [pc|]; [| done].
  destruct (releaseCacheFresh_Done (world s)) as [fresh Hfresh].
  destruct pc; rewrite ?Hfresh in Hstep;
    try (destruct (writer s); [done |]); try (destruct (decide _); [| done]);
    try (unfold GithubClient_GetReleases in Hstep;
         destruct (github.GetReleases _ _ _ _));
    try (unfold Now in Hstep);
    try done; injection Hstep as <-; cbn; lia.
Qed.

Lemma run_clockReads (schedule : list nat) (s s' : System) :
  run schedule s = Some s' -> clockReads (world s) <= clockReads (world s').
Proof.
  revert s; induction schedule as [|g schedule IH]; intros s Hrun.
  - by injection Hrun as <-.
  - cbn [run] in Hrun. destruct (step g s) as [s1|] eqn:Hstep; [| done].
    apply step_clockReads in Hstep. apply IH in Hrun. lia.
Qed.

Lemma step_length (g : nat) (s s' : System) :
  step g s = Some s' -> length (goroutines s') = length (goroutines s).
Proof.
  unfold step. intros Hstep.
  destruct (goroutines s !! g) as [pc|]; [| done].
  destruct (releaseCacheFresh_Done (world s)) as [fresh Hfresh].
  destruct pc; rewrite ?Hfresh in Hstep;
    try (destruct (writer s); [done |]); try (destruct (decide _); [| done]);
    try (unfold GithubClient_GetReleases in Hstep;
         destruct (github.GetReleases _ _ _ _));
    try (unfold Now in Hstep);
    try done; injection Hstep as <-; cbn [move goroutines]; apply length_insert.
Qed.

Lemma run_length (schedule : list nat) (s s' : System) :
  run schedule s = Some s' -> length (goroutines s') = length (goroutines s).
Proof.
  revert s; induction schedule as [|g schedule IH]; intros s Hrun.
  - by injection Hrun as <-.
  - cbn [run] in Hrun. destruct (step g s) as [s1|] eqn:Hstep; [| done].
    apply step_length in Hstep. apply IH in Hrun. congruence.
Qed.

Lemma window_mono (w0 : World) (n m : nat) : n <= m -> window w0 m -> window w0 n.
Proof. intros Hle Hwindow a b Ha Hab Hb. apply Hwindow; lia. Qed.

Lemma CacheInv_run (w0 : World) (payload : list gogithub.RepositoryRelease)
    (schedule : list nat) (s s' : System) :
  github.GetReleases (length (upstream w0)) GithubOwner GithubRepo 100 = inr payload ->
  payload <> [] ->
  LockInv s -> CacheInv w0 payload s ->
  run schedule s = Some s' ->
  window w0 (clockReads (world s')) ->
  CacheInv w0 payload s'.
Proof.
  intros Hfetch Hne.
  revert s; induction schedule as [|g schedule IH]; intros s Hlocks Hinv Hrun Hwindow.
  - by injection Hrun as <-.
  - cbn [run] in Hrun. destruct (step g s) as [s1|] eqn:Hstep; [| done].
    apply (IH s1); [by eapply LockInv_step | | done | done].
    eapply CacheInv_step; eauto.
    eapply window_mono; [| done]. by eapply run_clockReads.
Qed.

Lemma start_CacheInv (K : nat) (w : World) (payload : list gogithub.RepositoryRelease) :
  releaseCache w = [] -> CacheInv w payload (start K w).
Proof.
  intros Hcold. split; [done |]. left. split; cbn [start world goroutines]; [done | done |].
  by apply Forall_replicate.
Qed.

Lemma all_returned (payload : list gogithub.RepositoryRelease) (l : list PC) :
  Forall (afterFetch payload) l -> forallb isReturned l = true ->
  l = replicate (length l) (Returned None).
Proof.
  induction 1 as [|pc l Hpc Hl IH]; [done |].
  cbn [forallb length replicate]. intros [Hret Hrest]%andb_prop.
  rewrite <- IH by done. f_equal. destruct pc; try done. cbn in Hpc. by subst.
Qed.

End race_runs.

Section race_theorems.

Import race.
Context `{!Env, !github.Client}.

(** One goroutine alone goes through [updateReleaseCache] as the sequential
    function does. *)
Lemma solo_run (w : World) :
  exists n result s,
    run (replicate n 0) (start 1 w) = Some s
    /\ goroutines s = [Returned result]
    /\ updateReleaseCache w = Done result (world s).
Proof.
  destruct (releaseCacheFresh_Done w) as [fresh1 Hfirst].
  destruct (releaseCacheFresh_Done (tick w)) as [fresh2 Hsecond].
  assert (Hfetch : exists r,
            GithubClient_GetReleases GithubOwner GithubRepo 100 (tick (tick w))
            = Done r (set_upstream (theFetch :: upstream w) (tick (tick w)))
            /\ github.GetReleases (length (upstream w)) GithubOwner GithubRepo 100 = r)
    by (eexists; split; reflexivity).
  destruct Hfetch as (r & Hfetch & Hr).
  unfold updateReleaseCache. unfold_M. rewrite Hfirst.
  destruct fresh1.
  { exists 3, None. eexists. split; [| split].
    - cbn -[releaseCacheFresh]. rewrite Hfirst. cbn -[releaseCacheFresh].
      reflexivity.
    - reflexivity.
    - reflexivity. }
  rewrite Hsecond.
  destruct fresh2.
  { exists 6, None. eexists. split; [| split].
    - cbn -[releaseCacheFresh]. rewrite Hfirst. cbn -[releaseCacheFresh].
      rewrite decide_True by set_solver. cbn -[releaseCacheFresh].
      rewrite Hsecond. cbn -[releaseCacheFresh]. reflexivity.
    - reflexivity.
    - reflexivity. }
  rewrite Hfetch. destruct r as [err|releases].
  - exists 7, (Some err). eexists. split; [| split].
    + cbn -[releaseCacheFresh GithubClient_GetReleases]. rewrite Hfirst.
      cbn -[releaseCacheFresh GithubClient_GetReleases].
      rewrite decide_True by set_solver.
      cbn -[releaseCacheFresh GithubClient_GetReleases].
      rewrite Hsecond. cbn -[releaseCacheFresh GithubClient_GetReleases].
      rewrite Hfetch. cbn -[releaseCacheFresh GithubClient_GetReleases].
      reflexivity.
    + reflexivity.
    + reflexivity.
  - exists 9, None. eexists. split; [| split].
    + cbn -[releaseCacheFresh GithubClient_GetReleases]. rewrite Hfirst.
      cbn -[releaseCacheFresh GithubClient_GetReleases].
      rewrite decide_True by set_solver.
      cbn -[releaseCacheFresh GithubClient_GetReleases].
      rewrite Hsecond. cbn -[releaseCacheFresh GithubClient_GetReleases].
      rewrite Hfetch. cbn -[releaseCacheFresh GithubClient_GetReleases].
      reflexivity.
    + reflexivity.
    + reflexivity.
Qed.

(** C7 (amended) — [K >= 1] goroutines call [updateReleaseCache] on an empty
    cache, the upstream answers the first call with a non-empty list, and
    every clock reading of the run comes less than the time-to-live after
    the earlier ones.  Then however the goroutines interleave, the run can
    be completed, and when all have returned the upstream was called exactly
    once, every caller got a nil error, and the cache they read holds the
    fetched list. *)
Theorem single_fetch_under_contention (K : nat) (w : World)
    (payload : list gogithub.RepositoryRelease) (schedule : list nat) (s : System) :
  1 <= K ->
  releaseCache w = [] ->
  github.GetReleases (length (upstream w)) GithubOwner GithubRepo 100 = inr payload ->
  payload <> [] ->
  run schedule (start K w) = Some s ->
  window w (clockReads (world s)) ->
  (exists rest s', run rest s = Some s' /\ finished s' = true)
  /\ (finished s = true ->
      upstream (world s) = theFetch :: upstream w
      /\ goroutines s = replicate K (Returned None)
      /\ releaseCache (world s) = payload).
Proof.
  intros HK Hcold Hfetch Hne Hrun Hwindow.
  assert (Hlocks : LockInv s) by (eapply LockInv_run; [apply start_LockInv | done]).
  split; [by apply completion |].
  intros Hfinished.
  assert (Hlen : length (goroutines s) = K).
  { rewrite (run_length _ _ _ Hrun). apply length_replicate. }
  destruct (CacheInv_run w payload schedule (start K w) s Hfetch Hne
              (start_LockInv K w) (start_CacheInv K w payload Hcold) Hrun Hwindow)
    as [_ [Hstill|Hwarm]].
  - exfalso. destruct (goroutines s) as [|pc l] eqn:Hgs; [cbn in Hlen; lia |].
    pose proof (cold_points _ _ Hstill) as Hpoints. rewrite Hgs in Hpoints.
    apply Forall_cons in Hpoints as [Hpc _].
    unfold finished in Hfinished. rewrite Hgs in Hfinished.
    cbn in Hfinished. by destruct pc.
  - pose proof (all_returned payload _ (warm_points _ _ _ Hwarm) Hfinished) as Hall.
    rewrite Hlen in Hall.
    split; [apply (warm_upstream _ _ _ Hwarm) | split; [done |]].
    apply (warm_settled _ _ _ Hwarm). intros g pc Hpc.
    rewrite Hall in Hpc. by apply lookup_replicate in Hpc as [-> _].
Qed.

End race_theorems.

(** ** Worked instances *)

Section instances.

Import examples.

Lemma truncatePlaceholder_spec_witness :
  let s := String.concat "" (replicate 150 "a") in
  (100 < String.length s)%nat
  /\ truncatePlaceholder s = String.concat "" (replicate 97 "a") +:+ "...".
Proof.
  intros s. assert (Hlong : (100 < String.length s)%nat) by (vm_compute; lia).
  split; [exact Hlong |].
  rewrite (proj1 (proj2 (proj2 (truncatePlaceholder_spec s))) Hlong).
  reflexivity.
Defined.


Lemma creation_failure_deletes_session_witness :
  let merged := mergeSubmission (mergeSubmission session page1) page2 in
  let failure :=
    {| discordgo.Type_ := discordgo.InteractionResponseChannelMessageWithSource;
       discordgo.Data :=
         {| discordgo.Content := "❌ Failed to create issue. Please try again later.";
            discordgo.Flags := discordgo.MessageFlagsEphemeral;
            discordgo.RespComponents := [];
            discordgo.RespCustomID := "";
            discordgo.Title := "";
            discordgo.Choices := [] |} |} in
  (length (AllFields merged) <= size (SubmittedValues merged))%nat
  /\ (exists w',
        @handleModalContinuation env failingClient
          (submission "modal_continue_bug_100_42" page2) sessionKey pendingWorld
        = Done tt w'
        /\ modalStates w' !! sessionKey = None
        /\ sent w' = failure :: sent pendingWorld
        /\ length (upstream w') = S (length (upstream pendingWorld)))
  /\ (exists w',
        @handleModalSubmit env failingClient (submission "modal_bug_100" page2)
          pendingWorld
        = Done tt w'
        /\ modalStates w' !! sessionKey = None
        /\ sent w' = failure :: sent pendingWorld
        /\ length (upstream w') = S (length (upstream pendingWorld))).
Proof.
  intros merged failure.
  assert (Hcomplete : (length (AllFields merged) <= size (SubmittedValues merged))%nat)
    by (vm_compute; lia).
  assert (Hstored : modalStates pendingWorld !! sessionKey
                    = Some (mergeSubmission session page1))
    by (vm_compute; reflexivity).
  assert (Hparts : strings.Split "modal_bug_100" "_" !! 1%nat = Some "bug")
    by (vm_compute; reflexivity).
  assert (Hkey : sessionKey = stateKeyOf "bug" "100" "42") by reflexivity.
  destruct (@creation_failure_deletes_session env failingClient
              (submission "modal_bug_100" page2) "modal_bug_100" page2 user
              sessionKey (mergeSubmission session page1) "GitHub API error"
              pendingWorld eq_refl eq_refl Hstored Hcomplete eq_refl)
    as [_ Hsubmit].
  destruct (@creation_failure_deletes_session env failingClient
              (submission "modal_continue_bug_100_42" page2)
              "modal_continue_bug_100_42" page2 user
              sessionKey (mergeSubmission session page1) "GitHub API error"
              pendingWorld eq_refl eq_refl Hstored Hcomplete eq_refl)
    as [(w1 & Hrun1 & Hgone1 & Hsent1 & Hup1) _].
  assert (Hne : "bug" <> "continue") by discriminate.
  destruct (Hsubmit "bug" Hparts (or_introl Hne) Hkey)
    as (w2 & Hrun2 & Hgone2 & Hsent2 & Hup2).
  split; [exact Hcomplete |]. split.
  - exists w1. rewrite Hup1. auto.
  - exists w2. rewrite Hup2. auto.
Defined.


Lemma env_clock_monotone : forall n, (@clock env n <= @clock env (S n))%Z.
Proof. intros n. cbn [clock env]. lia. Qed.

Lemma fetch_error_keeps_cache_witness :
  (exists w',
     @updateReleaseCache env failingClient coldWorld
     = Done (Some "GitHub API error") w'
     /\ releaseCache w' = releaseCache coldWorld
     /\ lastCacheUpdate w' = lastCacheUpdate coldWorld
     /\ comparisonCache w' = comparisonCache coldWorld)
  /\ (exists w',
     @getChangelogMessage env failingClient "v1.0.0" "v2.0.0" staleWorld
     = Done ("", Some "GitHub API error") w'
     /\ releaseCache w' = releaseCache staleWorld
     /\ lastCacheUpdate w' = lastCacheUpdate staleWorld
     /\ comparisonCache w' = comparisonCache staleWorld).
Proof.
  split.
  - apply (proj1 (@fetch_error_keeps_cache env failingClient coldWorld
                    "GitHub API error" env_clock_monotone));
      [reflexivity | left; reflexivity].
  - apply (proj2 (@fetch_error_keeps_cache env failingClient staleWorld
                    "GitHub API error" env_clock_monotone) "v1.0.0" "v2.0.0");
      [reflexivity | vm_compute; discriminate].
Defined.

Lemma cache_expiry_witness :
  (exists w',
     @updateReleaseCache env workingClient warmWorld = Done None w'
     /\ upstream w' = upstream warmWorld
     /\ releaseCache w' = releaseCache warmWorld)
  /\ (exists r w',
     @updateReleaseCache env workingClient staleWorld = Done r w'
     /\ upstream w'
        = github.CallGetReleases "meshtastic" "firmware" 100 :: upstream staleWorld)
  /\ (exists w',
     @getChangelogMessage env workingClient "v1.0.0" "v2.0.0" warmWorld
     = Done ("## Changes from v1.0.0 to v2.0.0", None) w'
     /\ upstream w' = upstream warmWorld
     /\ comparisonCache w' = comparisonCache warmWorld)
  /\ (exists r w',
     @getChangelogMessage env workingClient "v1.0.0" "v2.0.0" staleWorld
     = Done r w'
     /\ upstream w'
        = github.CallCompareCommits "meshtastic" "firmware" "v1.0.0" "v2.0.0"
            :: upstream staleWorld).
Proof.
  pose proof (@cache_expiry env workingClient warmWorld env_clock_monotone)
    as (Hrel & _ & Hcmp & _).
  pose proof (@cache_expiry env workingClient staleWorld env_clock_monotone)
    as (_ & Hrel' & _ & Hcmp').
  split; [| split; [| split]].
  - apply Hrel; [discriminate | vm_compute; reflexivity].
  - apply Hrel'. vm_compute. discriminate.
  - apply (Hcmp "v1.0.0" "v2.0.0" cachedComparison);
      vm_compute; reflexivity.
  - apply (Hcmp' "v1.0.0" "v2.0.0"
             {| Message := "## Changes from v1.0.0 to v2.0.0";
                Timestamp := (- (time.Hour + 1))%Z |});
      [vm_compute; reflexivity | vm_compute; discriminate].
Defined.

Lemma autocomplete_choices_witness :
  exists w' choices,
    @handleChangelogAutocomplete env workingClient (autocomplete "V2") warmWorld
    = Done tt w'
    /\ sent w'
       = {| discordgo.Type_ :=
              discordgo.InteractionApplicationCommandAutocompleteResult;
            discordgo.Data :=
              {| discordgo.Content := "";
                 discordgo.Flags := discordgo.MessageFlagsNone;
                 discordgo.RespComponents := [];
                 discordgo.RespCustomID := "";
                 discordgo.Title := "";
                 discordgo.Choices := choices |} |} :: sent warmWorld
    /\ (length choices <= 25)%nat
    /\ choices = [{| discordgo.ChoiceName := "v2.0.0";
                     discordgo.ChoiceValue := "v2.0.0" |}].
Proof.
  destruct (@autocomplete_choices env workingClient (autocomplete "V2") "changelog"
              [{| discordgo.OptName := "base";
                  discordgo.OptValue := discordgo.OptString "V2";
                  discordgo.Focused := true |}] warmWorld eq_refl)
    as (w' & choices & Hrun & Hsent & Hlen & Hchoices & _).
  { intros opt [= <-]. discriminate. }
  exists w', choices. repeat split; try done.
  assert (Hcache : releaseCache w' = releaseCache warmWorld).
  { revert Hrun. vm_compute. intros [= <-]. reflexivity. }
  rewrite Hchoices, Hcache. vm_compute; reflexivity.
Defined.

Lemma single_fetch_under_contention_witness :
  exists s,
    @race.run env workingClient interleaved (race.start 2 coldWorld) = Some s
    /\ race.finished s = true
    /\ upstream (race.world s) = [@race.theFetch env]
    /\ race.goroutines s = [race.Returned None; race.Returned None]
    /\ releaseCache (race.world s) = [release "v2.0.0"; release "v1.0.0"].
Proof.
  destruct (@race.run env workingClient interleaved (race.start 2 coldWorld))
    as [s|] eqn:Hrun; [| by vm_compute in Hrun].
  assert (Hreads : clockReads (race.world s) = 5).
  { revert Hrun. vm_compute. by intros [= <-]. }
  assert (Hfinished : race.finished s = true).
  { revert Hrun. vm_compute. by intros [= <-]. }
  assert (Hwindow : @race.window env coldWorld (clockReads (race.world s))).
  { rewrite Hreads. intros a b _ Hab Hb. cbn [clock env cacheDuration].
    unfold time.Sub, time.minDuration, time.maxDuration, time.Hour, time.Minute,
      time.Millisecond.
    repeat match goal with
           | |- context [(?x <? ?y)%Z] => destruct (Z.ltb_spec x y)
           end; lia. }
  destruct (@single_fetch_under_contention env workingClient 2 coldWorld
              [release "v2.0.0"; release "v1.0.0"] interleaved s
              ltac:(lia) eq_refl eq_refl ltac:(discriminate) Hrun Hwindow)
    as [_ Hone].
  exists s. split; [done |]. split; [done |]. by apply Hone.
Defined.

(** C7 as stated fails: on a repository without releases the fetch
    succeeds with an empty list, the cache stays empty, and the second of
    two callers fetches again. *)
Lemma cold_cache_fetched_twice :
  exists s,
    @race.run env noReleasesClient oneByOne (race.start 2 coldWorld) = Some s
    /\ race.finished s = true
    /\ upstream (race.world s) = [@race.theFetch env; @race.theFetch env]
    /\ length (upstream (race.world s)) <> 1.
Proof. eexists. split; [vm_compute; reflexivity |]. by vm_compute. Qed.

(** The seven-field report: part 1 of 2 after the first page, a second page
    of two inputs, one issue created, and no session left. *)
Example seven_field_report :
  exists w,
    sevenFieldReport (set_modalStates <[sessionKey := session]> coldWorld) = Done tt w
    /\ modalStates w !! sessionKey = None
    /\ length (upstream w) = 1
    /\ (fun r => length (discordgo.RespComponents (discordgo.Data r))) <$> sent w
       = [0; 2; 1]
    /\ (fun r => discordgo.Content (discordgo.Data r)) <$> last (sent w)
       = Some "Part 1 of 2 complete. Click 'Continue' to proceed.".
Proof. eexists. split; [vm_compute; reflexivity |]. by vm_compute. Qed.

End instances.

(** * Further properties of the handlers *)

(** ** Session keys *)

Section session_keys.

Lemma Contains_cons_false (c : ascii) (s sub : string) :
  strings.Contains (String c s) sub = false -> strings.Contains s sub = false.
Proof. cbn [strings.Contains]. by intros [_ ?]%orb_false_elim. Qed.

Lemma Contains_head_false (c : ascii) (s : string) :
  strings.Contains (String c s) (String c EmptyString) = false -> False.
Proof.
  cbn [strings.Contains String.prefix]. intros [Hpre _]%orb_false_elim.
  destruct (Ascii.ascii_dec c c); [| done]. by destruct s.
Qed.

(** A segment without the separator is the first part of what follows it. *)
Lemma Split_segment (a rest : string) (sep : ascii) :
  strings.Contains a (String sep EmptyString) = false ->
  strings.Split (a +:+ String sep rest) sep = a :: strings.Split rest sep.
Proof.
  induction a as [|c a IH]; intros Hfree.
  - change ("" +:+ String sep rest) with (String sep rest).
    cbn [strings.Split]. by rewrite Ascii.eqb_refl.
  - change (String c a +:+ String sep rest) with (String c (a +:+ String sep rest)).
    cbn [strings.Split].
    destruct (Ascii.eqb_spec c sep) as [->|Hne].
    + by apply Contains_head_false in Hfree.
    + rewrite IH by (by eapply Contains_cons_false). done.
Qed.

Lemma Split_injective (s t : string) (sep : ascii) :
  strings.Split s sep = strings.Split t sep -> s = t.
Proof.
  intros Heq. rewrite <- (Join_Split s sep), <- (Join_Split t sep). by rewrite Heq.
Qed.

(** X1 — session keys of different (command, channel, user) triples differ,
    as long as command and channel contain no underscore (commands are
    [bug] and [feature], channel identifiers are digits). *)
Theorem stateKeyOf_injective (command1 channel1 user1 command2 channel2 user2 : string) :
  strings.Contains command1 "_" = false ->
  strings.Contains channel1 "_" = false ->
  strings.Contains command2 "_" = false ->
  strings.Contains channel2 "_" = false ->
  stateKeyOf command1 channel1 user1 = stateKeyOf command2 channel2 user2 ->
  command1 = command2 /\ channel1 = channel2 /\ user1 = user2.
Proof.
  intros Hc1 Hh1 Hc2 Hh2 Hkey.
  apply (f_equal (fun key => strings.Split key "_")) in Hkey.
  unfold stateKeyOf in Hkey.
  change "_" with (String "_"%char EmptyString) in Hkey, Hc1, Hh1, Hc2, Hh2.
  change (String "_" "" +:+ ?x) with (String "_"%char x) in Hkey.
  cbv beta in Hkey.
  repeat match type of Hkey with
         | context [String "_" "" +:+ ?x] =>
             change (String "_" "" +:+ x) with (String "_"%char x) in Hkey
         end.
  rewrite !Split_segment in Hkey by done.
  injection Hkey as -> -> Huser. by apply Split_injective in Huser.
Qed.

Lemma stateKeyOf_injective_witness :
  "bug" = "bug" /\ "100" = "100" /\ "42" = "42".
Proof.
  apply (stateKeyOf_injective "bug" "100" "42" "bug" "100" "42"); reflexivity.
Defined.

(** Without the restriction two triples can share a key. *)
Example stateKeyOf_collision :
  stateKeyOf "bug" "1_2" "3" = stateKeyOf "bug" "1" "2_3".
Proof. reflexivity. Qed.

End session_keys.

(** ** Identifiers the handlers do not act on *)

Section ignored.

Context `{!Env, !github.Client}.

Lemma Split_whole (s : string) (sep : ascii) :
  strings.Contains s (String sep EmptyString) = false -> strings.Split s sep = [s].
Proof.
  induction s as [|c s IH]; intros Hfree; [done |].
  cbn [strings.Split]. destruct (Ascii.eqb_spec c sep) as [->|Hne].
  - by apply Contains_head_false in Hfree.
  - by rewrite IH by (by eapply Contains_cons_false).
Qed.

Lemma Split_two (s : string) (sep : ascii) :
  strings.Contains s (String sep EmptyString) = true ->
  2 <= length (strings.Split s sep).
Proof.
  induction s as [|c s IH]; intros Hhas; [done |].
  cbn [strings.Split]. pose proof (Split_nonempty s sep) as Hne.
  destruct (Ascii.eqb_spec c sep) as [->|Hc].
  - destruct (strings.Split s sep); [done | cbn; lia].
  - cbn [strings.Contains String.prefix] in Hhas.
    destruct (Ascii.ascii_dec sep c) as [->|_]; [done |].
    cbn [orb] in Hhas. specialize (IH Hhas).
    destruct (strings.Split s sep); [done | exact IH].
Qed.

(** X2 — a form submission whose identifier contains no underscore, and a
    button whose identifier does not start with [continue_], get no response
    at all: the world is left exactly as it was.  Any identifier with an
    underscore has at least two segments and is acted on. *)
Theorem unroutable_ignored (i : discordgo.InteractionCreate) (w : World) :
  (forall customID comps,
     discordgo.IData i = discordgo.ModalSubmitInteractionData customID comps ->
     strings.Contains customID "_" = false ->
     handleModalSubmit i w = Done tt w)
  /\ (forall customID,
     discordgo.IData i = discordgo.MessageComponentInteractionData customID ->
     strings.HasPrefix customID "continue_" = false ->
     handleButtonClick i w = Done tt w)
  /\ (forall customID,
     strings.Contains customID "_" = true ->
     2 <= length (strings.Split customID "_")).
Proof.
  split; [| split].
  - intros customID comps Hdata Hfree.
    unfold handleModalSubmit, ModalSubmitData. rewrite Hdata. unfold_M.
    cbn [fst]. by rewrite (Split_whole customID "_" Hfree).
  - intros customID Hdata Hother.
    unfold handleButtonClick, MessageComponentData. rewrite Hdata. unfold_M.
    by rewrite Hother.
  - intros customID. apply Split_two.
Qed.

End ignored.

(** ** The paths of the submit handlers *)

Section submit_paths.

Context `{!Env, !github.Client}.

(** Merging changes nothing of a session but its collected values. *)
Lemma mergeSubmission_frame (state : ModalState)
    (components : list discordgo.MessageComponent) :
  mergeSubmission state components
  = with_SubmittedValues state (SubmittedValues (mergeSubmission state components)).
Proof.
  rewrite mergeSubmission_inputs.
  generalize (textInputsOf components) as inputs. intros inputs.
  assert (Hgen : forall s,
            foldl storeInput s inputs
            = with_SubmittedValues s (SubmittedValues (foldl storeInput s inputs))).
  { induction inputs as [|t inputs IH]; intros s; [by destruct s |].
    cbn [foldl]. rewrite (IH (storeInput s t)) at 1. reflexivity. }
  apply Hgen.
Qed.

(** The tail of both submit handlers on a complete session whose creation
    call succeeds. *)
Lemma afterMerge_success (i : discordgo.InteractionCreate) (key : string)
    (state : ModalState) (confirmation : github.IssueResponse -> string)
    (user : discordgo.User) (issue : github.IssueResponse) (w : World) :
  discordgo.Member i = Some user ->
  (length (AllFields state) <= size (SubmittedValues state))%nat ->
  github.CreateIssue (length (upstream w)) GithubOwner GithubRepo (Title state)
    (buildIssueBody (SubmittedValues state) (discordgo.Username user)
       (discordgo.ID user))
    (Labels state) = inr issue ->
  exists w',
    afterMerge i key state confirmation w = Done tt w'
    /\ modalStates w' = delete key (modalStates w)
    /\ sent w' = message (confirmation issue) [] :: sent w
    /\ upstream w' =
         github.CallCreateIssue GithubOwner GithubRepo (Title state)
           (buildIssueBody (SubmittedValues state) (discordgo.Username user)
              (discordgo.ID user))
           (Labels state) :: upstream w.
Proof.
  intros Hmember Hcomplete Hok.
  unfold afterMerge, MemberUser, GithubClient_CreateIssue, InteractionRespond.
  destruct (Nat.ltb_spec (size (SubmittedValues state)) (length (AllFields state)));
    [lia |].
  rewrite Hmember. unfold_M. rewrite Hok. cbn. eauto.
Qed.

(** X3 — when the creation call of a complete session succeeds, the
    continuation handler removes the session, answers with the number and
    address of the new issue, and has called the tracker exactly once, with
    the session's title and labels. *)
Theorem creation_success_closes_session (i : discordgo.InteractionCreate)
    (customID : string) (comps : list discordgo.MessageComponent)
    (user : discordgo.User) (key : string) (state : ModalState)
    (issue : github.IssueResponse) (w : World) :
  let merged := mergeSubmission state comps in
  let body := buildIssueBody (SubmittedValues merged) (discordgo.Username user)
                (discordgo.ID user) in
  discordgo.IData i = discordgo.ModalSubmitInteractionData customID comps ->
  discordgo.Member i = Some user ->
  modalStates w !! key = Some state ->
  (length (AllFields merged) <= size (SubmittedValues merged))%nat ->
  github.CreateIssue (length (upstream w)) GithubOwner GithubRepo (Title merged)
    body (Labels merged) = inr issue ->
  exists w' text,
    handleModalContinuation i key w = Done tt w'
    /\ modalStates w' !! key = None
    /\ sent w' = message text [] :: sent w
    /\ strings.HasPrefix text
         ("✅ Issue #" +:+ pretty (github.Number issue) +:+ " created successfully!"
          +:+ github.nl +:+ github.HTMLURL issue) = true
    /\ upstream w' =
         github.CallCreateIssue GithubOwner GithubRepo (Title state) body
           (Labels state) :: upstream w.
Proof.
  intros merged body Hdata Hmember Hstate Hcomplete Hok.
  pose (w1 := set_modalStates <[key := merged]> w).
  destruct (afterMerge_success i key merged
              (fun issue =>
                 issueCreated issue +:+ github.nl +:+ github.nl +:+
                 "**Note:** You can use Markdown formatting in your descriptions. " +:+
                 "To add images or other attachments, please edit the issue directly on GitHub.")
              user issue w1 Hmember Hcomplete Hok)
    as (w' & Hrun & Hstore & Hsent & Hup).
  eexists w', _. split; [| split; [| split; [| split]]].
  - unfold handleModalContinuation, ModalSubmitData. unfold_M.
    rewrite Hstate, Hdata. exact Hrun.
  - rewrite Hstore. apply lookup_delete_eq.
  - exact Hsent.
  - exact (prefix_app (issueCreated issue) _).
  - rewrite Hup. unfold merged at 1 3. by rewrite (mergeSubmission_frame state comps).
Qed.

End submit_paths.

(** ** What a merge stores *)

Section stored_values.

Context `{!Env, !github.Client}.

Lemma last_cons_filter {A} (x : A) (l : list A) :
  last (x :: l) = match last l with Some y => Some y | None => Some x end.
Proof.
  destruct l as [|y l]; [done |].
  change (last (x :: y :: l)) with (last (y :: l)).
  destruct (last (y :: l)) eqn:Hlast; [done |]. by apply last_None in Hlast.
Qed.

(** After a run of assignments [m[key t] = val t], a key holds the value of
    the last assignment to it, or what it held before. *)
Lemma lookup_assignments {T} (key : T -> string) (val : T -> string)
    (l : list T) (m : gmap string string) (k : string) :
  foldl (fun m t => <[key t := val t]> m) m l !! k
  = match last (List.filter (fun t => String.eqb (key t) k) l) with
    | Some t => Some (val t)
    | None => m !! k
    end.
Proof.
  revert m; induction l as [|t l IH]; intros m; [done |].
  cbn [foldl List.filter]. rewrite IH.
  destruct (String.eqb_spec (key t) k) as [Hk|Hk].
  - rewrite last_cons_filter.
    destruct (last (List.filter _ l)); [done |]. subst k. apply lookup_insert_eq.
  - destruct (last (List.filter _ l)); [done |]. by apply lookup_insert_ne.
Qed.

Lemma SubmittedValues_storeInputs (inputs : list discordgo.TextInput)
    (state : ModalState) :
  SubmittedValues (foldl storeInput state inputs)
  = foldl (fun m t => <[labelOf (AllFields state) t := discordgo.Value t]> m)
      (SubmittedValues state) inputs.
Proof.
  revert state; induction inputs as [|t inputs IH]; intros state; [done |].
  cbn [foldl]. by rewrite IH.
Qed.

(** X4 — after a merge, a label holds the value of the last submitted text
    input that resolves to it, and every other label holds what it held
    before: later inputs overwrite earlier ones, nothing else is touched. *)
Theorem merge_stores_last (state : ModalState)
    (components : list discordgo.MessageComponent) (label : string) :
  SubmittedValues (mergeSubmission state components) !! label
  = match lastValue (labelOf (AllFields state)) label (textInputsOf components) with
    | Some value => Some value
    | None => SubmittedValues state !! label
    end.
Proof.
  rewrite mergeSubmission_inputs, SubmittedValues_storeInputs, lookup_assignments.
  unfold lastValue. by destruct (last _).
Qed.

(** X5 — submitting the same components a second time changes nothing: the
    session is as after the first submission, so its count does not advance. *)
Theorem merge_idempotent (state : ModalState)
    (components : list discordgo.MessageComponent) :
  mergeSubmission (mergeSubmission state components) components
  = mergeSubmission state components.
Proof.
  assert (Hvalues :
    SubmittedValues (mergeSubmission (mergeSubmission state components) components)
    = SubmittedValues (mergeSubmission state components)).
  { assert (Hlookup : forall s label,
              SubmittedValues (mergeSubmission s components) !! label
              = match lastValue (labelOf (AllFields s)) label
                        (textInputsOf components) with
                | Some value => Some value
                | None => SubmittedValues s !! label
                end).
    { intros s label.
      rewrite mergeSubmission_inputs, SubmittedValues_storeInputs,
        lookup_assignments.
      unfold lastValue. by destruct (last _). }
    apply map_eq. intros label.
    rewrite (Hlookup (mergeSubmission state components)).
    rewrite mergeSubmission_AllFields.
    destruct (lastValue _ label _) eqn:Hlast; [| done].
    by rewrite Hlookup, Hlast. }
  rewrite (mergeSubmission_frame (mergeSubmission state components)), Hvalues.
  generalize (mergeSubmission state components). by intros [].
Qed.

Lemma extractModalFields_inputs (components : list discordgo.MessageComponent) :
  extractModalFields components
  = foldl (fun m t => <[discordgo.CustomID t := discordgo.Value t]> m) ∅
      (textInputsOf components).
Proof.
  unfold extractModalFields, textInputsOf.
  generalize (∅ : gmap string string) as m.
  induction components as [|component rest IH]; intros m; [done |].
  cbn [foldl mbind list_bind]. rewrite foldl_app, IH. f_equal.
  destruct component as [comps| | | | |]; try done.
  clear. revert m. induction comps as [|comp comps IHc]; intros m; [done |].
  cbn [foldl mbind list_bind]. rewrite foldl_app, IHc. f_equal.
  by destruct comp.
Qed.

(** X6 — [extractModalFields] maps an identifier to the value of the last
    text input submitted under it and holds no other key. *)
Theorem extractModalFields_lookup (components : list discordgo.MessageComponent)
    (customID : string) :
  extractModalFields components !! customID
  = lastValue discordgo.CustomID customID (textInputsOf components).
Proof.
  rewrite extractModalFields_inputs, lookup_assignments. unfold lastValue.
  by destruct (last _).
Qed.

End stored_values.

(** ** A form answered page by page *)

Section flow.

Context `{!Env, !github.Client}.

Lemma textInputsOf_answerPage (typed : string -> string)
    (page : list config.FieldConfig) :
  textInputsOf (answerPage typed page) = answerInput typed <$> page.
Proof.
  unfold textInputsOf, answerPage.
  induction page as [|field page IH]; [done |].
  cbn [fmap list_fmap mbind list_bind answerField app]. by rewrite <- IH.
Qed.

Lemma foldl_mergeSubmission_answers (typed : string -> string)
    (pages : list (list config.FieldConfig)) (state : ModalState) :
  foldl mergeSubmission state (answerPage typed <$> pages)
  = foldl storeInput state (answerInput typed <$> concat pages).
Proof.
  revert state; induction pages as [|page pages IH]; intros state; [done |].
  cbn [fmap list_fmap foldl concat]. rewrite IH, fmap_app, foldl_app.
  by rewrite mergeSubmission_inputs, textInputsOf_answerPage.
Qed.

(** With distinct identifiers, a field's identifier resolves to its label. *)
Lemma fieldLabelFor_own (allFields : list config.FieldConfig)
    (field : config.FieldConfig) :
  NoDup (config.CustomID <$> allFields) ->
  field ∈ allFields ->
  fieldLabelFor allFields (config.CustomID field) = config.Label field.
Proof.
  induction allFields as [|first rest IH]; intros Hnodup Hin;
    [by apply elem_of_nil in Hin |].
  cbn [fmap list_fmap] in Hnodup. apply NoDup_cons in Hnodup as [Hfresh Hnodup].
  cbn [fieldLabelFor].
  apply elem_of_cons in Hin as [->|Hin].
  - by rewrite String.eqb_refl.
  - destruct (String.eqb_spec (config.CustomID first) (config.CustomID field))
      as [Heq|Hne]; [| by apply IH].
    exfalso. apply Hfresh. rewrite Heq. apply list_elem_of_fmap. eauto.
Qed.

(** The values collected from the answers to [answered], fields of the
    session with distinct labels. *)
Lemma answers_collected (typed : string -> string) (state : ModalState)
    (answered : list config.FieldConfig) :
  NoDup (config.CustomID <$> AllFields state) ->
  NoDup (config.Label <$> answered) ->
  answered ⊆ AllFields state ->
  SubmittedValues state = ∅ ->
  let collected := SubmittedValues (foldl storeInput state (answerInput typed <$> answered)) in
  size collected = length answered
  /\ forall field, field ∈ answered ->
       collected !! config.Label field = Some (typed (config.CustomID field)).
Proof.
  intros Hids Hlabels Hsub Hempty collected.
  assert (Hfold : collected
    = foldl (fun m field => <[config.Label field := typed (config.CustomID field)]> m)
        ∅ answered).
  { unfold collected. rewrite SubmittedValues_storeInputs, Hempty.
    generalize (∅ : gmap string string) as m. clear Hlabels collected.
    induction answered as [|field answered IH]; intros m; [done |].
    cbn [fmap list_fmap foldl]. unfold labelOf at 2. cbn [answerInput discordgo.CustomID].
    rewrite fieldLabelFor_own; [| done | apply Hsub, list_elem_of_here].
    apply IH. intros f Hf. by apply Hsub, list_elem_of_further. }
  assert (Hdom : dom collected = list_to_set (config.Label <$> answered)).
  { rewrite Hfold. clear.
    assert (Hgen : forall m : gmap string string,
              dom (foldl (fun m field =>
                            <[config.Label field := typed (config.CustomID field)]> m)
                     m answered)
              = list_to_set (config.Label <$> answered) ∪ dom m).
    { induction answered as [|field answered IH]; intros m.
      - cbn. set_solver.
      - cbn [foldl fmap list_fmap list_to_set]. rewrite IH, dom_insert_L. set_solver. }
    rewrite Hgen, dom_empty_L. apply (right_id_L ∅ (∪)). }
  split.
  - rewrite <- (size_dom (D := gset string)), Hdom.
    rewrite size_list_to_set by done. apply length_fmap.
  - intros field Hfield. rewrite Hfold. rewrite lookup_assignments.
    destruct (last _) as [found|] eqn:Hlast.
    + apply last_Some_elem_of in Hlast.
      apply list_elem_of_In, List.filter_In in Hlast as [Hfound Hsame].
      apply String.eqb_eq in Hsame. apply list_elem_of_In in Hfound.
      do 2 f_equal.
      assert (found = field); [| by subst].
      apply list_elem_of_lookup in Hfound as [a Ha].
      apply list_elem_of_lookup in Hfield as [b Hb].
      assert (a = b); [| congruence].
      eapply (NoDup_lookup (config.Label <$> answered)); [done | |].
      * rewrite list_lookup_fmap, Ha. reflexivity.
      * rewrite list_lookup_fmap, Hb. cbn. by rewrite Hsame.
    + apply last_None in Hlast. exfalso.
      assert (Hin : List.In field
                (List.filter (fun t => String.eqb (config.Label t) (config.Label field))
                   answered)).
      { apply List.filter_In. split; [by apply list_elem_of_In | apply String.eqb_refl]. }
      rewrite Hlast in Hin. done.
Qed.

Lemma pageRun_lookup (fuel : nat) (allFields : list config.FieldConfig)
    (c k : nat) (page : list config.FieldConfig) :
  pageRun fuel allFields c !! k = Some page ->
  chunkAt allFields (c + length (concat (take k (pageRun fuel allFields c))))
  = Some page.
Proof.
  revert c k; induction fuel as [|fuel IH]; intros c k Hpage; [done |].
  cbn [pageRun] in Hpage |- *.
  destruct (c <? length allFields)%nat; [| done].
  destruct (chunkAt allFields c) as [first|] eqn:Hfirst; [| done].
  destruct k as [|k].
  - cbn in Hpage |- *. rewrite Nat.add_0_r. congruence.
  - cbn [lookup list_lookup take concat] in Hpage |- *.
    rewrite length_app, Nat.add_assoc. by apply IH.
Qed.

(** X7 — a form whose fields have distinct identifiers and distinct labels is
    collected page by page: after the answers to the first [k] pages the
    count is the number of fields on those pages, the page the continue
    button renders next is page [k], and after the last page every field's
    label holds what was typed for it and the count is the number of
    fields. *)
Theorem pages_answered_in_turn (typed : string -> string) (state : ModalState)
    (k : nat) :
  NoDup (config.CustomID <$> AllFields state) ->
  NoDup (config.Label <$> AllFields state) ->
  SubmittedValues state = ∅ ->
  let allFields := AllFields state in
  let pages := pageRun (length allFields) allFields 0 in
  let collected :=
    foldl mergeSubmission state (answerPage typed <$> take k pages) in
  size (SubmittedValues collected) = length (concat (take k pages))
  /\ (forall page, pages !! k = Some page -> nextChunk collected = Some page)
  /\ (length pages <= k ->
      size (SubmittedValues collected) = length allFields
      /\ forall field, field ∈ allFields ->
           SubmittedValues collected !! config.Label field
           = Some (typed (config.CustomID field))).
Proof.
  intros Hids Hlabels Hempty allFields pages collected.
  assert (Hall : concat pages = allFields).
  { unfold pages. rewrite pageRun_concat; [done | lia | lia]. }
  assert (Hsplit : (concat (take k pages) ++ concat (drop k pages))%list = allFields).
  { by rewrite <- concat_app, take_drop. }
  set (answered := concat (take k pages)) in *.
  assert (Hcollected : collected = foldl storeInput state (answerInput typed <$> answered)).
  { unfold collected. by rewrite foldl_mergeSubmission_answers. }
  assert (Hsub : answered ⊆ AllFields state).
  { intros field Hfield. fold allFields. rewrite <- Hsplit.
    apply elem_of_app. by left. }
  assert (Hlabels' : NoDup (config.Label <$> answered)).
  { fold allFields in Hlabels. rewrite <- Hsplit, fmap_app in Hlabels.
    by apply NoDup_app in Hlabels as [? _]. }
  destruct (answers_collected typed state answered Hids Hlabels' Hsub Hempty)
    as [Hsize Hvalues].
  rewrite <- Hcollected in Hsize, Hvalues.
  split; [exact Hsize |]. split.
  - intros page Hpage. unfold nextChunk. rewrite Hsize.
    rewrite Hcollected, foldl_storeInput_AllFields. fold allFields.
    apply (pageRun_lookup _ _ 0 k page Hpage).
  - intros Hdone.
    assert (Hanswered : answered = allFields).
    { unfold answered. by rewrite take_ge. }
    rewrite Hsize, Hanswered. split; [done |].
    intros field Hfield. apply Hvalues. by rewrite Hanswered.
Qed.

End flow.

(** ** Forms that cannot be completed *)

Section shared_labels.

Context `{!Env, !github.Client}.

Lemma size_list_to_set_lt (l : list string) :
  ~ NoDup l -> size (list_to_set l : gset string) < length l.
Proof.
  induction l as [|x l IH]; intros Hdup; [by destruct Hdup; constructor |].
  cbn [list_to_set length].
  pose proof (size_list_to_set_le l) as Hle.
  destruct (decide (x ∈ l)) as [Hin|Hout].
  - assert (Hsame : {[x]} ∪ list_to_set l = (list_to_set l : gset string))
      by (apply subseteq_union_1_L, singleton_subseteq_l, elem_of_list_to_set, Hin).
    rewrite Hsame. lia.
  - assert (Hdup' : ~ NoDup l) by (intros Hl; apply Hdup; by constructor).
    specialize (IH Hdup').
    rewrite size_union_alt, size_singleton.
    assert (Hsub : list_to_set l ∖ {[x]} ⊆@{gset string} list_to_set l)
      by (by apply subseteq_difference_l).
    apply subseteq_size in Hsub. lia.
Qed.

End shared_labels.

(** ** Sessions of other keys *)

Section isolation.

Context `{!Env, !github.Client}.

Lemma afterMerge_other_keys (i : discordgo.InteractionCreate) (key : string)
    (state : ModalState) (confirmation : github.IssueResponse -> string)
    (w w' : World) (other : string) :
  afterMerge i key state confirmation w = Done tt w' ->
  other <> key ->
  modalStates w' !! other = modalStates w !! other.
Proof.
  unfold afterMerge, MemberUser, GithubClient_CreateIssue, InteractionRespond.
  intros Hrun Hother.
  destruct (size (SubmittedValues state) <? length (AllFields state))%nat.
  { unfold_M. by injection Hrun as <-. }
  unfold_M. destruct (discordgo.Member i); [| done].
  destruct (github.CreateIssue _ _ _ _ _ _); injection Hrun as <-;
    cbn; by rewrite lookup_delete_ne.
Qed.

Lemma handleModalContinuation_other_keys (i : discordgo.InteractionCreate)
    (key : string) (w w' : World) (other : string) :
  handleModalContinuation i key w = Done tt w' ->
  other <> key ->
  modalStates w' !! other = modalStates w !! other.
Proof.
  unfold handleModalContinuation, ModalSubmitData, InteractionRespond. unfold_M.
  intros Hrun Hother.
  destruct (modalStates w !! key) as [state|]; [| by injection Hrun as <-].
  destruct (discordgo.IData i); try done.
  apply (afterMerge_other_keys _ _ _ _ _ _ other) in Hrun; [| done].
  rewrite Hrun. cbn. by rewrite lookup_insert_ne.
Qed.

(** X9 — an interaction touches at most one session: a continuation leaves
    the sessions of all other keys as they were, a submission changes the
    session of at most one key, and a button click changes no session and
    makes no upstream call. *)
Theorem other_sessions_untouched (i : discordgo.InteractionCreate) (w w' : World) :
  (forall key other,
     handleModalContinuation i key w = Done tt w' ->
     other <> key ->
     modalStates w' !! other = modalStates w !! other)
  /\ (handleModalSubmit i w = Done tt w' ->
      exists key, forall other,
        other <> key -> modalStates w' !! other = modalStates w !! other)
  /\ (handleButtonClick i w = Done tt w' ->
      modalStates w' = modalStates w /\ upstream w' = upstream w).
Proof.
  split; [| split].
  - intros key other. apply handleModalContinuation_other_keys.
  - unfold handleModalSubmit, ModalSubmitData, MemberUser. unfold_M.
    intros Hrun.
    destruct (discordgo.IData i) as [customID comps| |] eqn:Hdata; try done.
    cbn [fst snd] in Hrun.
    destruct (length (strings.Split customID "_") <? 2)%nat.
    { injection Hrun as <-. by exists "". }
    destruct (_ && _).
    { eexists. intros other Hother.
      by eapply handleModalContinuation_other_keys. }
    destruct (discordgo.Member i) as [user|]; [| done].
    set (key := stateKeyOf _ _ _) in Hrun. exists key. intros other Hother.
    destruct (modalStates w !! key) as [state|].
    + apply (afterMerge_other_keys _ _ _ _ _ _ other) in Hrun; [| done].
      rewrite Hrun. cbn. by rewrite lookup_insert_ne.
    + unfold simpleModal, MemberUser, GithubClient_CreateIssue, InteractionRespond
        in Hrun.
      unfold_M. destruct (discordgo.Member i); [| done].
      by destruct (github.CreateIssue _ _ _ _ _ _); injection Hrun as <-.
  - unfold handleButtonClick, MessageComponentData, InteractionRespond. unfold_M.
    intros Hrun.
    destruct (discordgo.IData i); try done.
    destruct (strings.HasPrefix _ _); [| by injection Hrun as <-].
    destruct (modalStates w !! _) as [state|]; [| by injection Hrun as <-].
    destruct (nextChunk state); [| done]. by injection Hrun as <-.
Qed.

End isolation.

(** ** The page behind the continue button *)

Lemma truncatePlaceholder_bound (text : string) :
  String.length (truncatePlaceholder text) <= 100.
Proof.
  unfold truncatePlaceholder.
  destruct (Nat.ltb_spec 100 (String.length text)) as [Hlong|Hshort]; [| done].
  rewrite length_app_string, length_substring_0 by lia. cbn. lia.
Qed.

Section rendered_page.

Context `{!Env, !github.Client}.

(** X10 — the form the continue button opens has at most five rows, each one
    text input whose identifier and label are those of a field of the
    session and whose placeholder has at most 100 bytes; its own identifier
    brings the submission back to the continuation handler with the same
    session key. *)
Theorem continue_form_within_limits (i : discordgo.InteractionCreate) (key : string)
    (state : ModalState) (w : World) :
  discordgo.IData i = discordgo.MessageComponentInteractionData ("continue_" +:+ key) ->
  modalStates w !! key = Some state ->
  size (SubmittedValues state) <= length (AllFields state) ->
  exists rows customID,
    handleButtonClick i w
    = Done tt (set_sent (modalResponse customID (Title state) rows :: sent w) w)
    /\ length rows <= 5
    /\ Forall (fun row =>
         exists textInput field,
           row = discordgo.ActionsRowVal [discordgo.TextInputVal textInput]
           /\ field ∈ AllFields state
           /\ discordgo.CustomID textInput = config.CustomID field
           /\ discordgo.Label textInput = config.Label field
           /\ String.length (discordgo.Placeholder textInput) <= 100) rows
    /\ forall i' comps w1,
         discordgo.IData i' = discordgo.ModalSubmitInteractionData customID comps ->
         handleModalSubmit i' w1 = handleModalContinuation i' key w1.
Proof.
  intros Hdata Hstate Hcount.
  pose proof (chunkAt_take_drop (AllFields state) _ Hcount) as Hchunk.
  eexists _, _. split; [| split; [| split]].
  - by apply handleButtonClick_renders.
  - rewrite length_fmap, page_length. lia.
  - apply Forall_fmap, Forall_forall. intros field Hfield. cbn.
    eexists _, field. split; [reflexivity |]. split; [| split; [done | split; [done |]]].
    + apply elem_of_take in Hfield as (j & Hj & _).
      apply list_elem_of_lookup. rewrite lookup_drop in Hj. eauto.
    + cbn. apply truncatePlaceholder_bound.
  - intros i' comps w1 Hdata'. by eapply handleModalSubmit_continue.
Qed.

End rendered_page.

(** ** The single-page path *)

Section single_page.

Context `{!Env, !github.Client}.

(** X11 — a submission for which no session is stored takes the single-page
    path: the store is left as it was, the tracker is called exactly once,
    with the label [from-discord] followed by [bug] or [enhancement] for the
    commands [bug] and [feature], and with the title typed under
    [bug_title], or under [feature_title] when that is empty; one reply is
    sent. *)
Theorem single_page_submission (i : discordgo.InteractionCreate)
    (customID : string) (comps : list discordgo.MessageComponent)
    (user : discordgo.User) (command : string) (w : World) :
  let parts := strings.Split customID "_" in
  let typed := fun customID => default "" (extractModalFields comps !! customID) in
  discordgo.IData i = discordgo.ModalSubmitInteractionData customID comps ->
  discordgo.Member i = Some user ->
  parts !! 1%nat = Some command ->
  (command <> "continue" \/ length parts < 3)%nat ->
  modalStates w !! stateKeyOf command (discordgo.ChannelID i) (discordgo.ID user) = None ->
  exists w' reply title body labels,
    handleModalSubmit i w = Done tt w'
    /\ modalStates w' = modalStates w
    /\ sent w' = reply :: sent w
    /\ upstream w'
       = github.CallCreateIssue GithubOwner GithubRepo title body labels :: upstream w
    /\ title = (if String.eqb (typed "bug_title") "" then typed "feature_title"
                else typed "bug_title")
    /\ (command = "bug" -> labels = ["from-discord"; "bug"])
    /\ (command = "feature" -> labels = ["from-discord"; "enhancement"])
    /\ (command <> "bug" -> command <> "feature" -> labels = ["from-discord"]).
Proof.
  intros parts typed Hdata Hmember Hcmd Hroute Hnone.
  assert (Hlen : (2 <= length parts)%nat).
  { apply lookup_lt_Some in Hcmd. lia. }
  assert (Hnot : String.eqb command "continue" && (3 <=? length parts)%nat = false).
  { destruct Hroute as [Hne|Hshort].
    - apply String.eqb_neq in Hne. by rewrite Hne.
    - destruct (Nat.leb_spec 3 (length parts)); [lia |]. apply andb_false_r. }
  assert (Hrun : handleModalSubmit i w = simpleModal i command comps w).
  { unfold handleModalSubmit, ModalSubmitData, MemberUser. rewrite Hdata, Hmember.
    unfold_M. cbn [fst snd]. fold parts. rewrite Hcmd. cbn [default]. unfold id.
    destruct (Nat.ltb_spec (length parts) 2) as [?|_]; [lia |].
    by rewrite Hnot, Hnone. }
  rewrite Hrun. unfold simpleModal, MemberUser, GithubClient_CreateIssue,
    InteractionRespond. rewrite Hmember. unfold_M.
  destruct (github.CreateIssue _ _ _ _ _ _) as [err|issue];
    (eexists _, _, _, _, _; split; [reflexivity |]; split; [reflexivity |];
     split; [reflexivity |]; split; [reflexivity |]; split; [reflexivity |];
     split; [by intros -> | split; [by intros -> |]];
     intros Hb Hf; apply String.eqb_neq in Hb, Hf; by rewrite Hb, Hf).
Qed.

End single_page.

(** ** The issue body *)

Section issue_body.

Context `{!Env, !github.Client}.

Lemma app_string_assoc (a b c : string) : (a +:+ b) +:+ c = a +:+ (b +:+ c).
Proof.
  induction a as [|x a IH]; [done |].
  change ((String x a +:+ b) +:+ c) with (String x ((a +:+ b) +:+ c)).
  by rewrite IH.
Qed.

Lemma app_string_nil_r (a : string) : a +:+ "" = a.
Proof.
  induction a as [|x a IH]; [done |].
  change (String x a +:+ "") with (String x (a +:+ "")). by rewrite IH.
Qed.

Lemma foldl_append {T} (block : T -> string) (l : list T) (acc : string) :
  foldl (fun body x => body +:+ block x) acc l
  = acc +:+ foldl (fun body x => body +:+ block x) "" l.
Proof.
  revert acc; induction l as [|x l IH]; intros acc.
  - cbn. by rewrite app_string_nil_r.
  - cbn [foldl]. rewrite IH, (IH ("" +:+ block x)).
    change ("" +:+ block x) with (block x). by rewrite app_string_assoc.
Qed.

(** X12 — whatever order the [range] over the map takes, the issue body
    holds, for every collected label, the block [### label], value and blank
    line, and ends with the line naming the submitting user. *)
Theorem issue_body_blocks (submittedValues : gmap string string)
    (username userID label value : string) :
  rangeOrder submittedValues ≡ₚ map_to_list submittedValues ->
  submittedValues !! label = Some value ->
  exists before after,
    buildIssueBody submittedValues username userID
    = before +:+
      ("### " +:+ label +:+ github.nl +:+ value +:+ github.nl +:+ github.nl) +:+
      after +:+
      (github.nl +:+ "---" +:+ github.nl +:+ "Submitted via Discord by: " +:+
       username +:+ " (" +:+ userID +:+ ")").
Proof.
  intros Horder Hentry.
  assert (Hin : (label, value) ∈ rangeOrder submittedValues).
  { rewrite Horder. by apply elem_of_map_to_list. }
  apply list_elem_of_split in Hin as (l1 & l2 & Hsplit).
  unfold buildIssueBody. rewrite Hsplit.
  set (block := fun '(label, value) =>
         "### " +:+ label +:+ github.nl +:+ value +:+ github.nl +:+ github.nl).
  assert (Hfold : forall l acc,
            foldl (fun body '(label, value) =>
                     body +:+ "### " +:+ label +:+ github.nl +:+ value +:+
                     github.nl +:+ github.nl) acc l
            = foldl (fun body x => body +:+ block x) acc l).
  { intros l. induction l as [|[a b] l IH]; intros acc; [done |].
    cbn [foldl]. apply IH. }
  rewrite Hfold, foldl_app. cbn [foldl].
  rewrite (foldl_append block l2).
  exists (foldl (fun body x => body +:+ block x) "" l1),
         (foldl (fun body x => body +:+ block x) "" l2).
  change (block (label, value))
    with ("### " +:+ label +:+ github.nl +:+ value +:+ github.nl +:+ github.nl).
  by rewrite !app_string_assoc.
Qed.

End issue_body.

(** ** The properties above on concrete sessions *)

Section further_instances.

Import examples scenarios.

#[local] Existing Instance env.
#[local] Existing Instance workingClient.

Lemma unroutable_ignored_witness :
  handleModalSubmit (submission "modal" page1) pendingWorld = Done tt pendingWorld
  /\ handleButtonClick (click "cancel_bug") pendingWorld = Done tt pendingWorld
  /\ 2 <= length (strings.Split "modal_bug" "_").
Proof.
  destruct (unroutable_ignored (submission "modal" page1) pendingWorld)
    as (Hsubmit & _ & Hparts).
  destruct (unroutable_ignored (click "cancel_bug") pendingWorld)
    as (_ & Hclick & _).
  split; [| split].
  - apply (Hsubmit "modal" page1); reflexivity.
  - apply (Hclick "cancel_bug"); reflexivity.
  - apply (Hparts "modal_bug"). reflexivity.
Defined.

Lemma creation_success_closes_session_witness :
  exists w' text,
    handleModalContinuation (submission ("modal_continue_" +:+ sessionKey) page2)
      sessionKey pendingWorld = Done tt w'
    /\ modalStates w' !! sessionKey = None
    /\ sent w' = message text [] :: sent pendingWorld
    /\ strings.HasPrefix text
         ("✅ Issue #7 created successfully!" +:+ github.nl +:+
          "https://github.com/i/7") = true
    /\ length (upstream w') = 1.
Proof.
  assert (Hstored : modalStates pendingWorld !! sessionKey
                    = Some (mergeSubmission session page1))
    by (vm_compute; reflexivity).
  assert (Hfull : (length (AllFields (mergeSubmission (mergeSubmission session page1) page2))
                   <= size (SubmittedValues
                              (mergeSubmission (mergeSubmission session page1) page2)))%nat)
    by (vm_compute; lia).
  destruct (creation_success_closes_session
              (submission ("modal_continue_" +:+ sessionKey) page2)
              ("modal_continue_" +:+ sessionKey) page2 user sessionKey
              (mergeSubmission session page1)
              {| github.Number := 7; github.HTMLURL := "https://github.com/i/7";
                 github.ID := 7 |}
              pendingWorld eq_refl eq_refl Hstored Hfull)
    as (w' & text & Hrun & Hgone & Hsent & Htext & Hcalls); [reflexivity |].
  exists w', text. split; [exact Hrun |]. split; [exact Hgone |].
  split; [exact Hsent |]. split; [exact Htext |]. by rewrite Hcalls.
Defined.

Lemma pages_answered_in_turn_witness :
  let collected :=
    foldl mergeSubmission session
      (answerPage typed <$> take 2 (pageRun 7 sevenFields 0)) in
  size (SubmittedValues collected) = 7
  /\ SubmittedValues collected !! "Question 6" = Some "answer to field_6".
Proof.
  assert (Hids : NoDup (config.CustomID <$> AllFields session))
    by (apply (bool_decide_unpack _); by vm_compute).
  assert (Hlabels : NoDup (config.Label <$> AllFields session))
    by (apply (bool_decide_unpack _); by vm_compute).
  destruct (pages_answered_in_turn typed session 2 Hids Hlabels eq_refl)
    as (_ & _ & Hlast).
  destruct Hlast as [Hsize Hvalues]; [vm_compute; lia |].
  split; [exact Hsize |].
  apply (Hvalues (field "6")).
  apply (list_elem_of_lookup_2 _ 5). reflexivity.
Defined.


Lemma other_sessions_untouched_witness :
  exists w',
    handleModalContinuation (submission ("modal_continue_" +:+ sessionKey) page2)
      sessionKey twoSessions = Done tt w'
    /\ modalStates w' !! otherKey = Some session.
Proof.
  destruct (handleModalContinuation
              (submission ("modal_continue_" +:+ sessionKey) page2) sessionKey
              twoSessions) as [[] w'|reason] eqn:Hrun;
    [| by vm_compute in Hrun].
  exists w'. split; [reflexivity |].
  destruct (other_sessions_untouched
              (submission ("modal_continue_" +:+ sessionKey) page2) twoSessions w')
    as (Hcontinue & _ & _).
  rewrite (Hcontinue sessionKey otherKey Hrun); [by vm_compute | by vm_compute].
Defined.

Lemma continue_form_within_limits_witness :
  exists rows customID,
    handleButtonClick (click ("continue_" +:+ sessionKey)) pendingWorld
    = Done tt (set_sent (modalResponse customID "Bug Report" rows :: sent pendingWorld)
                 pendingWorld)
    /\ length rows <= 5
    /\ handleModalSubmit (submission customID page2) pendingWorld
       = handleModalContinuation (submission customID page2) sessionKey pendingWorld.
Proof.
  destruct (continue_form_within_limits (click ("continue_" +:+ sessionKey))
              sessionKey (mergeSubmission session page1) pendingWorld)
    as (rows & customID & Hrun & Hlen & _ & Hnext);
    [reflexivity | by vm_compute | vm_compute; lia |].
  exists rows, customID. split; [exact Hrun |]. split; [exact Hlen |].
  apply (Hnext (submission customID page2) page2 pendingWorld). reflexivity.
Defined.

Lemma single_page_submission_witness :
  exists w' reply body,
    handleModalSubmit (submission "modal_bug_100" shortReport) coldWorld = Done tt w'
    /\ modalStates w' = modalStates coldWorld
    /\ sent w' = reply :: sent coldWorld
    /\ upstream w'
       = [github.CallCreateIssue GithubOwner GithubRepo "Crash on boot" body
            ["from-discord"; "bug"]].
Proof.
  destruct (single_page_submission (submission "modal_bug_100" shortReport)
              "modal_bug_100" shortReport user "bug" coldWorld)
    as (w' & reply & title & body & labels & Hrun & Hstore & Hsent & Hcalls
        & Htitle & Hbug & _);
    [reflexivity | reflexivity | reflexivity | left; discriminate | reflexivity |].
  exists w', reply, body. split; [exact Hrun |]. split; [exact Hstore |].
  split; [exact Hsent |]. rewrite Hcalls, Htitle, (Hbug eq_refl). reflexivity.
Defined.

Lemma issue_body_blocks_witness :
  exists before after,
    buildIssueBody (SubmittedValues (mergeSubmission session page1)) "tester" "42"
    = before +:+
      ("### Question 2" +:+ github.nl +:+ "b" +:+ github.nl +:+ github.nl) +:+
      after +:+
      (github.nl +:+ "---" +:+ github.nl +:+
       "Submitted via Discord by: tester (42)").
Proof.
  apply (issue_body_blocks (SubmittedValues (mergeSubmission session page1))
           "tester" "42" "Question 2" "b").
  - reflexivity.
  - by vm_compute.
Defined.

End further_instances.

(** ** The FAQ *)

Section faq_lookup.

Lemma findIn_Some (items : list faqconfig.FAQItem) (name : string)
    (item : faqconfig.FAQItem) :
  faqconfig.findIn items name = Some item ->
  faqconfig.Name item = name
  /\ exists before after,
       items = (before ++ item :: after)%list
       /\ name ∉ faqconfig.Name <$> before.
Proof.
  induction items as [|first rest IH]; [done |]. cbn [faqconfig.findIn].
  destruct (String.eqb_spec (faqconfig.Name first) name) as [Hname|Hname].
  - intros [= <-]. split; [done |]. exists [], rest. split; [done |].
    cbn. apply not_elem_of_nil.
  - intros (Hitem & before & after & -> & Hbefore)%IH. split; [done |].
    exists (first :: before), after. split; [done |].
    cbn [fmap list_fmap]. rewrite not_elem_of_cons. split; [congruence | done].
Qed.

Lemma findIn_None (items : list faqconfig.FAQItem) (name : string) :
  faqconfig.findIn items name = None <-> name ∉ faqconfig.Name <$> items.
Proof.
  induction items as [|first rest IH]; cbn [faqconfig.findIn fmap list_fmap].
  - split; [intros _; apply not_elem_of_nil | done].
  - rewrite not_elem_of_cons.
    destruct (String.eqb_spec (faqconfig.Name first) name) as [Hname|Hname].
    + split; [done | by intros [? _]].
    + rewrite IH. split; [intros ?; split; [congruence | done] | by intros [_ ?]].
Qed.

Lemma FindFAQItem_Some (f : faqconfig.FAQData) (name : string)
    (item : faqconfig.FAQItem) :
  faqconfig.FindFAQItem f name = Some item ->
  faqconfig.Name item = name
  /\ exists before after,
       faqconfig.GetAllFAQItems f = (before ++ item :: after)%list
       /\ name ∉ faqconfig.Name <$> before.
Proof.
  unfold faqconfig.FindFAQItem, faqconfig.GetAllFAQItems. cbn [app].
  destruct (faqconfig.findIn (faqconfig.FAQ f) name) as [found|] eqn:Hfaq.
  - intros [= ->]. apply findIn_Some in Hfaq as (Hname & before & after & -> & Hb).
    split; [done |]. exists before, (after ++ faqconfig.SoftwareModules f)%list.
    by rewrite <- app_assoc.
  - intros (Hname & before & after & -> & Hb)%findIn_Some. split; [done |].
    exists (faqconfig.FAQ f ++ before)%list, after. rewrite <- app_assoc.
    split; [done |]. rewrite fmap_app, not_elem_of_app.
    by apply findIn_None in Hfaq.
Qed.

Lemma FindFAQItem_None (f : faqconfig.FAQData) (name : string) :
  faqconfig.FindFAQItem f name = None <->
  name ∉ faqconfig.Name <$> faqconfig.GetAllFAQItems f.
Proof.
  unfold faqconfig.FindFAQItem, faqconfig.GetAllFAQItems. cbn [app].
  rewrite fmap_app, not_elem_of_app, <- !findIn_None.
  destruct (faqconfig.findIn (faqconfig.FAQ f) name); [| tauto].
  split; [done | by intros [? _]].
Qed.

(** X13 — [FindFAQItem] returns the first item, over the FAQ category and
    then the software modules, whose name is exactly the name asked for, and
    finds nothing exactly when no item carries that name: the comparison is
    byte for byte, so a name that differs in case is not found. *)
Theorem FindFAQItem_first_exact (f : faqconfig.FAQData) (name : string) :
  (forall item, faqconfig.FindFAQItem f name = Some item ->
     faqconfig.Name item = name
     /\ exists before after,
          faqconfig.GetAllFAQItems f = (before ++ item :: after)%list
          /\ name ∉ faqconfig.Name <$> before)
  /\ (faqconfig.FindFAQItem f name = None <->
      name ∉ faqconfig.Name <$> faqconfig.GetAllFAQItems f).
Proof.
  split.
  - intros item. apply FindFAQItem_Some.
  - apply FindFAQItem_None.
Qed.

End faq_lookup.

Section faq_handlers.

Context `{!Env, !github.Client}.

Lemma faq_test (userInput name : string) :
  negb (String.eqb userInput "") &&
    negb (strings.Contains (strings.ToLower unicodeLower name) userInput)
  = negb (strings.Contains (strings.ToLower unicodeLower name) userInput).
Proof.
  destruct (String.eqb_spec userInput "") as [->|_]; [| done].
  by rewrite Contains_empty.
Qed.

Lemma collectFaqChoices_take (userInput : string)
    (allItems : list faqconfig.FAQItem)
    (choices : list discordgo.ApplicationCommandOptionChoice) :
  (length choices < 25)%nat ->
  collectFaqChoices userInput allItems choices
  = take 25
      (choices ++
       (faqChoice <$>
          List.filter
            (fun item =>
               strings.Contains
                 (strings.ToLower unicodeLower (faqconfig.Name item)) userInput)
            allItems)).
Proof.
  revert choices; induction allItems as [|item rest IH]; intros choices Hlen.
  - cbn. rewrite app_nil_r, take_ge; [done | lia].
  - cbn [collectFaqChoices List.filter]. rewrite faq_test.
    destruct (strings.Contains _ userInput); cbn [negb].
    + cbn [fmap list_fmap].
      set (choice := faqChoice item).
      set (later := faqChoice <$> List.filter _ _).
      replace (choices ++ choice :: later)%list
        with ((choices ++ [choice]) ++ later)%list by (by rewrite <- app_assoc).
      assert (Hgrown : length (choices ++ [choice])%list = S (length choices))
        by (rewrite length_app; cbn [length]; lia).
      destruct (Nat.leb_spec 25 (length (choices ++ [choice])%list)) as [Hfull|Hroom].
      * rewrite take_app_le by done. rewrite take_ge; [done | lia].
      * by rewrite IH.
    + by apply IH.
Qed.

Lemma handleFaqAutocomplete_run (faqData : faqconfig.FAQData)
    (i : discordgo.InteractionCreate) (name typed : string)
    (options : list discordgo.ApplicationCommandInteractionDataOption) (w : World) :
  discordgo.IData i = discordgo.ApplicationCommandInteractionData name options ->
  firstOptionText options = Some typed ->
  handleFaqAutocomplete (Some faqData) i w
  = Done tt
      (set_sent
         (autocompleteResult
            (collectFaqChoices (strings.ToLower unicodeLower typed)
               (faqconfig.GetAllFAQItems faqData) []) :: sent w) w).
Proof.
  intros Hdata Htyped.
  unfold handleFaqAutocomplete, ApplicationCommandData, InteractionRespond.
  rewrite Hdata. unfold_M. cbn [snd].
  destruct options as [|opt rest].
  - injection Htyped as <-. reflexivity.
  - cbn [firstOptionText] in Htyped. unfold StringValue.
    destruct (discordgo.OptValue opt) as [v|]; [| done].
    injection Htyped as <-. reflexivity.
Qed.

(** X14 — the FAQ autocomplete answers with at most 25 choices: the first
    items, FAQ category first, whose lowered name contains the lowered text
    of the first option, and the first 25 items of all when nothing was
    typed; name and value of a choice are the item's name.  Without FAQ data
    it answers with no choice, whatever the interaction carries. *)
Theorem faq_autocomplete_choices (faqData : faqconfig.FAQData)
    (i : discordgo.InteractionCreate) (name typed : string)
    (options : list discordgo.ApplicationCommandInteractionDataOption) (w : World) :
  discordgo.IData i = discordgo.ApplicationCommandInteractionData name options ->
  firstOptionText options = Some typed ->
  handleFaqAutocomplete None i w
  = Done tt (set_sent (autocompleteResult [] :: sent w) w)
  /\ exists choices,
       handleFaqAutocomplete (Some faqData) i w
       = Done tt (set_sent (autocompleteResult choices :: sent w) w)
       /\ (length choices <= 25)%nat
       /\ choices
          = take 25
              (faqChoice <$>
                 List.filter
                   (fun item =>
                      strings.Contains
                        (strings.ToLower unicodeLower (faqconfig.Name item))
                        (strings.ToLower unicodeLower typed))
                   (faqconfig.FAQ faqData ++ faqconfig.SoftwareModules faqData)%list)
       /\ (typed = "" ->
           choices
           = take 25 (faqChoice <$>
                        (faqconfig.FAQ faqData ++ faqconfig.SoftwareModules faqData)%list)).
Proof.
  intros Hdata Htyped. split; [reflexivity |].
  eexists. split; [by eapply handleFaqAutocomplete_run |].
  rewrite collectFaqChoices_take by (cbn; lia). cbn [app].
  split; [rewrite length_take; lia |]. split; [reflexivity |].
  intros ->. f_equal. f_equal. unfold faqconfig.GetAllFAQItems. cbn [app].
  generalize (faqconfig.FAQ faqData ++ faqconfig.SoftwareModules faqData)%list.
  intros items. induction items as [|item items IH]; [done |].
  cbn [List.filter]. rewrite ToLower_empty, Contains_empty. f_equal.
  rewrite ToLower_empty in IH. exact IH.
Qed.

Lemma collectFaqChoices_item (userInput : string)
    (allItems : list faqconfig.FAQItem)
    (choice : discordgo.ApplicationCommandOptionChoice) :
  choice ∈ collectFaqChoices userInput allItems [] ->
  exists item, item ∈ allItems /\ choice = faqChoice item.
Proof.
  rewrite collectFaqChoices_take by (cbn; lia). cbn [app].
  intros Hin. apply elem_of_take in Hin as (n & Hin%list_elem_of_lookup_2 & _).
  apply list_elem_of_fmap in Hin as (item & -> & Hitem).
  exists item. split; [| done].
  apply list_elem_of_In, List.filter_In in Hitem as [Hitem _].
  by apply list_elem_of_In.
Qed.

(** X15 — every choice the FAQ autocomplete offers is answered: when the
    value of an offered choice comes back as the topic of the command,
    [handleFaq] replies to the channel with the name and address of an item
    of that name, not with the not-found message. *)
Theorem faq_choice_answered (faqData : faqconfig.FAQData)
    (i i' : discordgo.InteractionCreate) (name name' typed : string)
    (options rest : list discordgo.ApplicationCommandInteractionDataOption)
    (opt : discordgo.ApplicationCommandInteractionDataOption)
    (choices : list discordgo.ApplicationCommandOptionChoice)
    (choice : discordgo.ApplicationCommandOptionChoice) (w w1 w2 : World) :
  discordgo.IData i = discordgo.ApplicationCommandInteractionData name options ->
  firstOptionText options = Some typed ->
  handleFaqAutocomplete (Some faqData) i w = Done tt w1 ->
  sent w1 = autocompleteResult choices :: sent w ->
  choice ∈ choices ->
  discordgo.IData i' = discordgo.ApplicationCommandInteractionData name' (opt :: rest) ->
  discordgo.OptValue opt = discordgo.OptString (discordgo.ChoiceValue choice) ->
  exists item,
    handleFaq (Some faqData) i' w2
    = Done tt (set_sent (faqAnswer item :: sent w2) w2)
    /\ item ∈ faqconfig.GetAllFAQItems faqData
    /\ faqconfig.Name item = discordgo.ChoiceName choice.
Proof.
  intros Hdata Htyped Hrun Hsent Hchoice Hdata' Hvalue.
  rewrite (handleFaqAutocomplete_run _ _ _ _ _ _ Hdata Htyped) in Hrun.
  injection Hrun as <-. cbn in Hsent. injection Hsent as <-.
  apply collectFaqChoices_item in Hchoice as (offered & Hoffered & ->).
  cbn [faqChoice discordgo.ChoiceValue discordgo.ChoiceName] in *.
  destruct (faqconfig.FindFAQItem faqData (faqconfig.Name offered))
    as [item|] eqn:Hfind.
  - apply FindFAQItem_Some in Hfind as Hitem.
    destruct Hitem as (Hname & before & after & Hall & _).
    exists item. split; [| split; [| done]].
    + unfold handleFaq, ApplicationCommandData, StringValue, InteractionRespond.
      rewrite Hdata'. unfold_M. cbn [snd]. rewrite Hvalue. by rewrite Hfind.
    + rewrite Hall. apply elem_of_app. right. apply list_elem_of_here.
  - apply FindFAQItem_None in Hfind. destruct Hfind.
    apply list_elem_of_fmap. by exists offered.
Qed.

End faq_handlers.

(** ** Template URLs *)

Section template_urls.

Import templateurl.

Lemma TrimPrefix_other (s pre : string) :
  String.prefix pre s = false -> strings.TrimPrefix s pre = s.
Proof. unfold strings.TrimPrefix, strings.HasPrefix. by intros ->. Qed.

(** The three [TrimPrefix] calls of [ParseTemplateURL]. *)
Lemma stripped_github (scheme rest : string) :
  scheme ∈ ["https://"; "http://"; ""] ->
  strings.TrimPrefix
    (strings.TrimPrefix
       (strings.TrimPrefix (scheme +:+ "github.com/" +:+ rest) "https://")
       "http://")
    "github.com/" = rest.
Proof.
  intros Hscheme.
  assert (Hcases : scheme = "https://" \/ scheme = "http://" \/ scheme = "").
  { rewrite !elem_of_cons in Hscheme.
    destruct Hscheme as [?| [?| [?| Hnil]]]; [tauto | tauto | tauto |].
    by apply elem_of_nil in Hnil. }
  destruct Hcases as [->| [->| ->]].
  - rewrite (TrimPrefix_app "https://").
    rewrite (TrimPrefix_other _ "http://") by reflexivity.
    apply TrimPrefix_app.
  - rewrite (TrimPrefix_other _ "https://") by reflexivity.
    rewrite (TrimPrefix_app "http://"). apply TrimPrefix_app.
  - change ("" +:+ "github.com/" +:+ rest) with ("github.com/" +:+ rest).
    rewrite (TrimPrefix_other _ "https://") by reflexivity.
    rewrite (TrimPrefix_other _ "http://") by reflexivity.
    apply TrimPrefix_app.
Qed.

Lemma nonempty_app (a b : string) : a <> "" -> a +:+ b <> "".
Proof. by destruct a. Qed.

Lemma github_url_nonempty (scheme rest : string) :
  scheme +:+ "github.com/" +:+ rest <> "".
Proof. destruct scheme; discriminate. Qed.

(** X16 — a GitHub address is taken apart into what it was put together
    from: for an owner and a repository without a slash, parsing
    [scheme github.com/owner/repo/path], with scheme [https://], [http://] or
    none, succeeds and yields that owner, repository and path and keeps the
    address; the issue endpoint names the same owner and repository. *)
Theorem ParseTemplateURL_github (scheme owner repo path : string) :
  scheme ∈ ["https://"; "http://"; ""] ->
  strings.Contains owner "/" = false ->
  strings.Contains repo "/" = false ->
  let url := scheme +:+ "github.com/" +:+ owner +:+ "/" +:+ repo +:+ "/" +:+ path in
  exists t,
    ParseTemplateURL url = inr t
    /\ original t = url
    /\ Owner t = owner
    /\ Repo t = repo
    /\ templateurl.path t = path
    /\ IssueAPIURL t
       = "https://api.github.com/repos/" +:+ owner +:+ "/" +:+ repo +:+ "/issues".
Proof.
  intros Hscheme Howner Hrepo url.
  assert (Hparts :
    strings.Split (owner +:+ "/" +:+ repo +:+ "/" +:+ path) "/"
    = owner :: repo :: strings.Split path "/").
  { change (owner +:+ "/" +:+ repo +:+ "/" +:+ path)
      with (owner +:+ String "/" (repo +:+ String "/" path)).
    by rewrite !Split_segment. }
  unfold ParseTemplateURL. subst url.
  destruct (String.eqb_spec (scheme +:+ "github.com/" +:+ owner +:+ "/" +:+ repo
                             +:+ "/" +:+ path) "") as [Hempty|_].
  { by apply github_url_nonempty in Hempty. }
  cbv zeta. rewrite stripped_github by done. rewrite Hparts.
  cbn [length Nat.ltb Nat.leb nth drop].
  eexists. split; [reflexivity |].
  cbn [templateurl.original Owner Repo templateurl.path templateurl.owner templateurl.repo IssueAPIURL].
  rewrite drop_0, (Join_Split path "/"). done.
Qed.

Lemma substring_0_0 (s : string) : substring 0 0 s = "".
Proof. by destruct s. Qed.

Lemma Replace1_absent (s old new : string) :
  strings.Contains s old = false -> Replace1 s old new = s.
Proof.
  induction s as [|c s IH]; cbn [strings.Contains Replace1];
    intros [-> Hrest]%orb_false_elim; [done |].
  by rewrite IH.
Qed.

Lemma Replace1_head (s old new : string) :
  Replace1 (old +:+ s) old new = new +:+ s.
Proof.
  assert (Hhead : forall t, String.prefix old t = true -> Replace1 t old new
            = new +:+ substring (String.length old)
                        (String.length t - String.length old) t).
  { intros t Ht. destruct t; cbn [Replace1]; by rewrite Ht. }
  rewrite Hhead by apply prefix_app. rewrite length_app_string.
  replace (String.length old + String.length s - String.length old)%nat
    with (String.length s) by lia.
  by rewrite substring_skip_app.
Qed.

(** X17 — the address of the raw template: [RawURL] removes the first
    [blob/] of the path, wherever it stands, and nothing else; so a path
    [blob/branch/file] gives the raw-content address of that branch and
    file, as in the example of the source, and a path without [blob/] is
    kept whole. *)
Theorem RawURL_removes_first_blob (t : TemplateURL) (before file : string) :
  (strings.Contains before "blob/" = false ->
   templateurl.path t = before +:+ "blob/" +:+ file ->
   RawURL t = "https://raw.githubusercontent.com/" +:+ owner t +:+ "/" +:+ repo t
              +:+ "/" +:+ before +:+ file)
  /\ (strings.Contains (templateurl.path t) "blob/" = false ->
      RawURL t = "https://raw.githubusercontent.com/" +:+ owner t +:+ "/" +:+ repo t
                 +:+ "/" +:+ templateurl.path t).
Proof.
  unfold RawURL. split.
  - intros Hbefore ->. do 5 f_equal.
    induction before as [|c before IH].
    + apply (Replace1_head file "blob/" "").
    + cbn [strings.Contains] in Hbefore.
      apply orb_false_elim in Hbefore as [Hhead Hrest].
      change (String c before +:+ "blob/" +:+ file)
        with (String c (before +:+ "blob/" +:+ file)).
      cbn [Replace1].
      assert (Hfirst : String.prefix "blob/" (String c (before +:+ "blob/" +:+ file))
                       = false).
      { destruct (String.prefix "blob/" (String c (before +:+ "blob/" +:+ file)))
          eqn:Hprefix; [| done].
        apply String.prefix_correct in Hprefix.
        apply not_true_iff_false in Hhead. destruct Hhead.
        apply String.prefix_correct.
        destruct before as [|c1 [|c2 [|c3 [|c4 rest]]]];
          cbv beta iota zeta delta [String.append] in Hprefix;
          cbn [substring String.length] in Hprefix |- *;
          rewrite ?substring_0_0 in Hprefix |- *; congruence. }
      rewrite Hfirst, IH by done. reflexivity.
  - intros Hnone. by rewrite Replace1_absent.
Qed.

(** X18 — [ParseTemplateURL] fails exactly on the empty address and on an
    address that holds no slash once [https://], [http://] and [github.com/]
    have been taken off its front; every other string is accepted, whatever
    its host. *)
Theorem ParseTemplateURL_error (templateURL : string) :
  let url :=
    strings.TrimPrefix
      (strings.TrimPrefix (strings.TrimPrefix templateURL "https://") "http://")
      "github.com/" in
  (exists err, ParseTemplateURL templateURL = inl err)
  <-> templateURL = "" \/ strings.Contains url "/" = false.
Proof.
  intros url. unfold ParseTemplateURL. fold url.
  destruct (String.eqb_spec templateURL "") as [->|Hne].
  - split; [by left | by eexists].
  - destruct (strings.Contains url "/") eqn:Hslash.
    + pose proof (Split_two url "/" Hslash) as Hparts.
      destruct (Nat.ltb_spec (length (strings.Split url "/")) 2) as [?|_]; [lia |].
      split; [by intros [err ?] | by intros [?|?]].
    + rewrite (Split_whole url "/" Hslash). cbn [length Nat.ltb Nat.leb].
      split; [by right | by eexists].
Qed.

End template_urls.

(** ** Forms from issue templates *)

Section template_forms.

Import modalconfig.

Lemma foldl_append_filter {T} (keep : T -> bool) (l acc : list T) :
  foldl (fun fields x => if keep x then (fields ++ [x])%list else fields) acc l
  = (acc ++ List.filter keep l)%list.
Proof.
  revert acc; induction l as [|x l IH]; intros acc; cbn [foldl List.filter].
  - by rewrite app_nil_r.
  - rewrite IH. destruct (keep x); [| done]. by rewrite <- app_assoc.
Qed.

Lemma foldl_append_omap {T U} (f : T -> option U) (l : list T) (acc : list U) :
  foldl (fun fields x => match f x with
                         | Some y => (fields ++ [y])%list
                         | None => fields
                         end) acc l
  = (acc ++ omap f l)%list.
Proof.
  revert acc; induction l as [|x l IH]; intros acc; cbn [foldl omap list_omap].
  - by rewrite app_nil_r.
  - rewrite IH. destruct (f x); [| done]. by rewrite <- app_assoc.
Qed.

Lemma GetTemplateFields_filter (template : GitHubIssueTemplate) :
  GetTemplateFields template
  = List.filter (fun field => negb (String.eqb (Type_ field) "markdown") &&
                              negb (String.eqb (Type_ field) "checkboxes"))
      (Body template).
Proof. unfold GetTemplateFields. by rewrite foldl_append_filter. Qed.

Lemma Convert_interactive (field : GitHubTemplateField) :
  negb (String.eqb (Type_ field) "markdown") &&
    negb (String.eqb (Type_ field) "checkboxes") = true ->
  exists converted,
    ConvertGitHubFieldToFieldConfig field = Some converted
    /\ config.CustomID converted = ID field
    /\ config.Label converted = Label (Attributes field)
    /\ config.Placeholder converted = Placeholder (Attributes field)
    /\ config.Required converted = Required (Validations field)
    /\ config.Style converted
       = (if String.eqb (Type_ field) "textarea" then "paragraph" else "short")
    /\ (config.MinLength converted, config.MaxLength converted)
       = (if String.eqb (Type_ field) "input" then (1, 100)
          else if String.eqb (Type_ field) "textarea" then (1, 4000)
          else (0, 0))%Z.
Proof.
  intros [Hmarkdown Hcheckboxes]%andb_true_iff.
  apply negb_true_iff in Hmarkdown, Hcheckboxes.
  unfold ConvertGitHubFieldToFieldConfig. rewrite Hmarkdown, Hcheckboxes.
  cbn [orb].
  destruct (String.eqb (Type_ field) "input"),
    (String.eqb (Type_ field) "textarea"); eexists; (split; [reflexivity |]);
    cbn; by repeat split.
Qed.

Lemma omap_lookup_total {T U} (f : T -> option U) (l : list T) :
  Forall (fun x => is_Some (f x)) l ->
  length (omap f l) = length l
  /\ forall n x, l !! n = Some x -> omap f l !! n = f x.
Proof.
  induction 1 as [|x l [y Hy] _ [IHlen IH]]; [done |].
  cbn [omap list_omap]. rewrite Hy. cbn [length]. split; [by rewrite IHlen |].
  intros [|n] x'; cbn.
  - by intros [= <-].
  - apply IH.
Qed.

(** X19 — the fields of a form that comes from an issue template are the
    entries of the template body that are neither [markdown] nor
    [checkboxes], one field each and in the order of the template: the
    nil check of the conversion loop never drops one.  A [textarea] becomes
    a paragraph of 1 to 4000 characters, an [input] a short input of 1 to
    100, and any other type, a dropdown say, a short input without
    limits. *)
Theorem template_fields_converted (template : GitHubIssueTemplate) :
  let interactive :=
    List.filter (fun field => negb (String.eqb (Type_ field) "markdown") &&
                              negb (String.eqb (Type_ field) "checkboxes"))
      (Body template) in
  let fields := convertFields (GetTemplateFields template) in
  length fields = length interactive
  /\ forall n field,
       interactive !! n = Some field ->
       exists converted,
         fields !! n = Some converted
         /\ config.CustomID converted = ID field
         /\ config.Label converted = Label (Attributes field)
         /\ config.Placeholder converted = Placeholder (Attributes field)
         /\ config.Required converted = Required (Validations field)
         /\ config.Style converted
            = (if String.eqb (Type_ field) "textarea" then "paragraph" else "short")
         /\ (config.MinLength converted, config.MaxLength converted)
            = (if String.eqb (Type_ field) "input" then (1, 100)
               else if String.eqb (Type_ field) "textarea" then (1, 4000)
               else (0, 0))%Z.
Proof.
  intros interactive fields. subst fields.
  rewrite GetTemplateFields_filter. fold interactive.
  unfold convertFields. rewrite foldl_append_omap. cbn [app].
  assert (Hall : Forall (fun field =>
                           is_Some (ConvertGitHubFieldToFieldConfig field))
                   interactive).
  { apply Forall_forall. intros field Hin.
    apply list_elem_of_In, List.filter_In in Hin as [_ Hkeep].
    destruct (Convert_interactive field Hkeep) as (converted & -> & _). by eexists. }
  destruct (omap_lookup_total _ _ Hall) as [Hlen Hlookup].
  split; [exact Hlen |].
  intros n field Hfield.
  assert (Hkeep : negb (String.eqb (Type_ field) "markdown") &&
                  negb (String.eqb (Type_ field) "checkboxes") = true).
  { apply list_elem_of_lookup_2, list_elem_of_In, List.filter_In in Hfield.
    tauto. }
  destruct (Convert_interactive field Hkeep) as (converted & Hconverted & Hrest).
  exists converted. split; [| exact Hrest].
  by rewrite (Hlookup n field Hfield).
Qed.

Lemma appliesTo_elem (channelIDs : list string) (channelID : string) :
  appliesTo channelIDs channelID = true <-> channelID ∈ channelIDs.
Proof.
  induction channelIDs as [|cid rest IH]; cbn [appliesTo].
  - split; [done | by intros ?%elem_of_nil].
  - rewrite elem_of_cons.
    destruct (String.eqb_spec cid channelID) as [->|Hne].
    + split; [by left | done].
    + rewrite IH. split; [by right | intros [?|?]; [congruence | done]].
Qed.

Lemma findModal_none (modals : list ModalConfig) (command channelID : string) :
  (forall modal, modal ∈ modals -> Command modal = command ->
                 channelID ∉ ChannelIDs modal) ->
  findModal modals command channelID = None.
Proof.
  induction modals as [|modal rest IH]; intros Hnone; [done |].
  cbn [findModal].
  destruct (String.eqb_spec (Command modal) command) as [Hcommand|_]; cbn [andb].
  - destruct (appliesTo (ChannelIDs modal) channelID) eqn:Happlies.
    + apply appliesTo_elem in Happlies.
      destruct (Hnone modal); [apply list_elem_of_here | done | done].
    + apply IH. intros other Hother. apply Hnone. by apply list_elem_of_further.
  - apply IH. intros other Hother. apply Hnone. by apply list_elem_of_further.
Qed.

Lemma findModal_first (before after : list ModalConfig) (modal : ModalConfig)
    (command channelID : string) :
  Command modal = command ->
  channelID ∈ ChannelIDs modal ->
  (forall earlier, earlier ∈ before -> Command earlier = command ->
                   channelID ∉ ChannelIDs earlier) ->
  findModal (before ++ modal :: after) command channelID = Some modal.
Proof.
  intros Hcommand Hchannel.
  induction before as [|first before IH]; intros Hbefore; cbn [findModal app].
  - apply appliesTo_elem in Hchannel. rewrite Hchannel.
    apply String.eqb_eq in Hcommand. by rewrite Hcommand.
  - destruct (String.eqb_spec (Command first) command) as [Hfirst|_]; cbn [andb].
    + destruct (appliesTo (ChannelIDs first) channelID) eqn:Happlies.
      * apply appliesTo_elem in Happlies.
        destruct (Hbefore first); [apply list_elem_of_here | done | done].
      * apply IH. intros earlier Hearlier. apply Hbefore.
        by apply list_elem_of_further.
    + apply IH. intros earlier Hearlier. apply Hbefore.
      by apply list_elem_of_further.
Qed.

(** X20 — [GetAllFieldsForModal] answers from the first configured modal of
    the command that lists the channel, whatever comes after it: its
    configured fields when it has no template address, and otherwise the
    fields of the fetched template, the configured ones being ignored, or
    the fetch error.  Before the configuration is loaded, and when no modal
    of the command lists the channel, it is an error. *)
Theorem GetAllFieldsForModal_first_match (loaded : ModalsConfig)
    (FetchGitHubTemplate : templateurl.TemplateURL -> github.error + GitHubIssueTemplate)
    (command channelID : string) :
  GetAllFieldsForModal None FetchGitHubTemplate command channelID
  = inl "modals not loaded"
  /\ ((forall modal, modal ∈ Modals loaded -> Command modal = command ->
                     channelID ∉ ChannelIDs modal) ->
      GetAllFieldsForModal (Some loaded) FetchGitHubTemplate command channelID
      = inl ("no modal configured for command '" +:+ command +:+
             "' in channel '" +:+ channelID +:+ "'"))
  /\ (forall before modal after,
        Modals loaded = (before ++ modal :: after)%list ->
        Command modal = command ->
        channelID ∈ ChannelIDs modal ->
        (forall earlier, earlier ∈ before -> Command earlier = command ->
                         channelID ∉ ChannelIDs earlier) ->
        GetAllFieldsForModal (Some loaded) FetchGitHubTemplate command channelID
        = match TemplateURL modal with
          | None => inr (Fields modal, Title modal)
          | Some templateURL =>
              match FetchGitHubTemplate templateURL with
              | inl err => inl ("failed to fetch template: " +:+ err)
              | inr template =>
                  inr (convertFields (GetTemplateFields template), Title modal)
              end
          end).
Proof.
  split; [reflexivity |]. split.
  - intros Hnone. unfold GetAllFieldsForModal. by rewrite findModal_none.
  - intros before modal after Hmodals Hcommand Hchannel Hbefore.
    unfold GetAllFieldsForModal. rewrite Hmodals.
    rewrite (findModal_first before after modal) by done.
    by destruct (TemplateURL modal).
Qed.

End template_forms.

(** ** Submissions to a stored session *)

Section shared_label_handlers.

Context `{!Env, !github.Client}.

Lemma handleModalSubmit_stored (i : discordgo.InteractionCreate)
    (customID command : string) (comps : list discordgo.MessageComponent)
    (user : discordgo.User) (state : ModalState) (w : World) :
  discordgo.IData i = discordgo.ModalSubmitInteractionData customID comps ->
  discordgo.Member i = Some user ->
  strings.Split customID "_" !! 1%nat = Some command ->
  command <> "continue" ->
  let key := stateKeyOf command (discordgo.ChannelID i) (discordgo.ID user) in
  modalStates w !! key = Some state ->
  handleModalSubmit i w
  = afterMerge i key (mergeSubmission state comps) issueCreated
      (set_modalStates <[key := mergeSubmission state comps]> w).
Proof.
  intros Hdata Hmember Hcommand Hne key Hstate.
  assert (Hlen : (2 <= length (strings.Split customID "_"))%nat).
  { apply lookup_lt_Some in Hcommand. lia. }
  unfold handleModalSubmit, ModalSubmitData, MemberUser. rewrite Hdata, Hmember.
  unfold_M. cbn [fst snd]. rewrite Hcommand. cbn [default]. unfold id.
  destruct (Nat.ltb_spec (length (strings.Split customID "_")) 2) as [?|_]; [lia |].
  apply String.eqb_neq in Hne. rewrite Hne. cbn [andb].
  fold key. by rewrite Hstate.
Qed.

Lemma handleModalContinuation_stored (i : discordgo.InteractionCreate)
    (customID key : string) (comps : list discordgo.MessageComponent)
    (state : ModalState) (w : World) :
  discordgo.IData i = discordgo.ModalSubmitInteractionData customID comps ->
  modalStates w !! key = Some state ->
  exists confirmation,
    handleModalContinuation i key w
    = afterMerge i key (mergeSubmission state comps) confirmation
        (set_modalStates <[key := mergeSubmission state comps]> w).
Proof.
  intros Hdata Hstate. eexists.
  unfold handleModalContinuation, ModalSubmitData. unfold_M.
  rewrite Hstate, Hdata. reflexivity.
Qed.

(** X8 — in a form with two fields of the same label the count never reaches
    the number of fields.  Whatever known inputs are submitted to a stored
    session of such a form, by the first form or by a continuation form,
    the handler stores the merged values under the session's key, answers
    with the part-complete message and the continue button, and calls
    nothing upstream: no issue is created and the session is not removed.
    The merged session is again one of collected labels, so the same holds
    for every later submission. *)
Theorem shared_label_never_completes (i : discordgo.InteractionCreate)
    (customID key : string) (comps : list discordgo.MessageComponent)
    (state : ModalState) (w : World) :
  ~ NoDup (config.Label <$> AllFields state) ->
  collectedLabels state ->
  knownInputs (AllFields state) comps ->
  discordgo.IData i = discordgo.ModalSubmitInteractionData customID comps ->
  modalStates w !! key = Some state ->
  let merged := mergeSubmission state comps in
  let reply :=
    {| discordgo.Type_ := discordgo.InteractionResponseChannelMessageWithSource;
       discordgo.Data :=
         {| discordgo.Content :=
              "Part " +:+ pretty ((size (SubmittedValues merged) + 4) / 5) +:+
              " of " +:+ pretty ((length (AllFields state) + 4) / 5) +:+
              " complete. Click 'Continue' to proceed.";
            discordgo.Flags := discordgo.MessageFlagsEphemeral;
            discordgo.RespComponents :=
              [discordgo.ActionsRowVal
                 [discordgo.ButtonVal
                    {| discordgo.ButtonLabel := "Continue";
                       discordgo.ButtonStyle_ := discordgo.PrimaryButton;
                       discordgo.ButtonCustomID := "continue_" +:+ key |}]];
            discordgo.RespCustomID := "";
            discordgo.Title := "";
            discordgo.Choices := [] |} |} in
  let w' :=
    {| modalStates := <[key := merged]> (modalStates w);
       releaseCache := releaseCache w;
       lastCacheUpdate := lastCacheUpdate w;
       comparisonCache := comparisonCache w;
       clockReads := clockReads w;
       upstream := upstream w;
       sent := reply :: sent w |} in
  size (SubmittedValues merged) < length (AllFields merged)
  /\ AllFields merged = AllFields state
  /\ collectedLabels merged
  /\ handleModalContinuation i key w = Done tt w'
  /\ (forall user command,
        discordgo.Member i = Some user ->
        strings.Split customID "_" !! 1%nat = Some command ->
        command <> "continue" ->
        key = stateKeyOf command (discordgo.ChannelID i) (discordgo.ID user) ->
        handleModalSubmit i w = Done tt w').
Proof.
  intros Hdup Hinv Hknown Hdata Hstate merged reply w'.
  assert (Hall : AllFields merged = AllFields state)
    by apply mergeSubmission_AllFields.
  assert (Hmerged : collectedLabels merged)
    by (by apply mergeSubmission_collectedLabels).
  assert (Hlt : size (SubmittedValues merged) < length (AllFields merged)).
  { pose proof Hmerged as Hsub. unfold collectedLabels in Hsub.
    apply subseteq_size in Hsub. rewrite size_dom in Hsub.
    rewrite Hall in Hsub |- *.
    apply size_list_to_set_lt in Hdup. rewrite length_fmap in Hdup. lia. }
  assert (Hafter : forall confirmation,
            afterMerge i key merged confirmation
              (set_modalStates <[key := merged]> w) = Done tt w').
  { intros confirmation. rewrite afterMerge_progress by exact Hlt.
    unfold totalParts, currentPart. rewrite Hall. reflexivity. }
  split; [exact Hlt |]. split; [exact Hall |]. split; [exact Hmerged |]. split.
  - destruct (handleModalContinuation_stored i customID key comps state w Hdata Hstate)
      as (confirmation & ->).
    apply Hafter.
  - intros user command Hmember Hcommand Hother Hkey.
    pose proof (handleModalSubmit_stored i customID command comps user state w
                  Hdata Hmember Hcommand Hother) as Hrun.
    cbv zeta in Hrun. rewrite <- Hkey in Hrun. rewrite (Hrun Hstate).
    apply Hafter.
Qed.

End shared_label_handlers.

(** ** Opening a report *)

Section opening.

Context `{!Env, !github.Client}.

Variable config_GetAllFieldsForModal :
  string -> string -> github.error + (list config.FieldConfig * string * string * string).
Variable config_GetModel :
  string -> string -> github.error + discordgo.InteractionResponseData.

(** The session both handlers store for a form of more than five fields. *)
Lemma report_run (command label : string) (handler : discordgo.InteractionCreate -> M unit)
    (i : discordgo.InteractionCreate) (user : discordgo.User)
    (fields : list config.FieldConfig) (title owner repo : string) (w : World) :
  command = "bug" /\ label = "bug"
  /\ handler = handleBug config_GetAllFieldsForModal config_GetModel
  \/ command = "feature" /\ label = "enhancement"
     /\ handler = handleFeature config_GetAllFieldsForModal config_GetModel ->
  config_GetAllFieldsForModal command (discordgo.ChannelID i)
  = inr (fields, title, owner, repo) ->
  discordgo.Member i = Some user ->
  exists reply,
    handler i w
    = Done tt
        (set_sent (reply :: sent w)
           (if (5 <? length fields)%nat
            then set_modalStates
                   <[stateKeyOf command (discordgo.ChannelID i) (discordgo.ID user) :=
                       {| Title := title;
                          AllFields := fields;
                          SubmittedValues := ∅;
                          Labels := ["from-discord"; label];
                          Command := command;
                          ChannelID := discordgo.ChannelID i;
                          Owner := owner;
                          Repo := repo |}]> w
            else w))
    /\ (forall modalData,
          config_GetModel command (discordgo.ChannelID i) = inr modalData ->
          reply = modalForm modalData)
    /\ (forall err,
          config_GetModel command (discordgo.ChannelID i) = inl err ->
          discordgo.Type_ reply = discordgo.InteractionResponseChannelMessageWithSource
          /\ strings.HasPrefix (discordgo.Content (discordgo.Data reply)) "Sorry, the "
             = true).
Proof.
  intros [(-> & -> & ->)|(-> & -> & ->)] Hfields Hmember.
  - unfold handleBug, MemberUser, InteractionRespond.
    rewrite Hfields, Hmember. unfold_M.
    destruct (config_GetModel "bug" (discordgo.ChannelID i)) as [err|modalData];
      destruct (5 <? length fields)%nat; eexists;
      (split; [reflexivity |]); split; intros ? [= <-]; done.
  - unfold handleFeature, MemberUser, InteractionRespond.
    rewrite Hfields, Hmember. unfold_M.
    destruct (config_GetModel "feature" (discordgo.ChannelID i)) as [err|modalData];
      destruct (5 <? length fields)%nat; eexists;
      (split; [reflexivity |]); split; intros ? [= <-]; done.
Qed.

(** X21 — [handleBug] and [handleFeature] store a session exactly when the
    form has more than five fields: a fresh one, with no collected value and
    the labels [from-discord] and [bug] or [enhancement], under the key of
    command, channel and user, in place of any session stored there before.
    They send one reply and call nothing upstream.  The session is stored
    before the first form is built, so it stays stored when [GetModel] then
    fails and the reply is the not-configured message. *)
Theorem report_opens_session (command label : string)
    (handler : discordgo.InteractionCreate -> M unit)
    (i : discordgo.InteractionCreate) (user : discordgo.User)
    (fields : list config.FieldConfig) (title owner repo : string) (w : World) :
  command = "bug" /\ label = "bug"
  /\ handler = handleBug config_GetAllFieldsForModal config_GetModel
  \/ command = "feature" /\ label = "enhancement"
     /\ handler = handleFeature config_GetAllFieldsForModal config_GetModel ->
  config_GetAllFieldsForModal command (discordgo.ChannelID i)
  = inr (fields, title, owner, repo) ->
  discordgo.Member i = Some user ->
  let key := stateKeyOf command (discordgo.ChannelID i) (discordgo.ID user) in
  exists w' reply,
    handler i w = Done tt w'
    /\ sent w' = reply :: sent w
    /\ upstream w' = upstream w
    /\ (forall other, other <> key -> modalStates w' !! other = modalStates w !! other)
    /\ (length fields <= 5 -> modalStates w' = modalStates w)
    /\ (5 < length fields ->
        exists state,
          modalStates w' !! key = Some state
          /\ AllFields state = fields
          /\ SubmittedValues state = ∅
          /\ Title state = title
          /\ Labels state = ["from-discord"; label])
    /\ (forall err,
          config_GetModel command (discordgo.ChannelID i) = inl err ->
          discordgo.Type_ reply = discordgo.InteractionResponseChannelMessageWithSource
          /\ strings.HasPrefix (discordgo.Content (discordgo.Data reply)) "Sorry, the "
             = true).
Proof.
  intros Hhandler Hfields Hmember key.
  destruct (report_run command label handler i user fields title owner repo w
              Hhandler Hfields Hmember) as (reply & Hrun & _ & Hfailed).
  eexists _, reply. split; [exact Hrun |].
  destruct (Nat.ltb_spec 5 (length fields)) as [Hmany|Hfew]; cbn.
  - split; [done |]. split; [done |]. split.
    { intros other Hother. by rewrite lookup_insert_ne. }
    split; [lia |]. split; [| exact Hfailed].
    intros _. eexists. split; [apply lookup_insert_eq |]. done.
  - split; [done |]. split; [done |]. split; [done |]. split; [done |].
    split; [lia | exact Hfailed].
Qed.

(** X22 — a report opened by [handleBug] or [handleFeature] is the one the
    first submission continues: for a form of more than five fields with
    distinct identifiers and distinct labels, the answers to the first five
    fields, sent by the same user in the same channel under the identifier
    [modal_<command>_<channel>] of the first form, are stored in the session
    just opened; the reply is the part-1 message with the continue button of
    that session, nothing is called upstream, and the button then shows
    fields six to ten. *)
Theorem opened_report_continues (command label : string)
    (handler : discordgo.InteractionCreate -> M unit)
    (i i' : discordgo.InteractionCreate) (user : discordgo.User)
    (fields : list config.FieldConfig) (title owner repo : string)
    (typed : string -> string) (w : World) :
  command = "bug" /\ label = "bug"
  /\ handler = handleBug config_GetAllFieldsForModal config_GetModel
  \/ command = "feature" /\ label = "enhancement"
     /\ handler = handleFeature config_GetAllFieldsForModal config_GetModel ->
  config_GetAllFieldsForModal command (discordgo.ChannelID i)
  = inr (fields, title, owner, repo) ->
  5 < length fields ->
  NoDup (config.CustomID <$> fields) ->
  NoDup (config.Label <$> fields) ->
  discordgo.Member i = Some user ->
  discordgo.Member i' = Some user ->
  discordgo.ChannelID i' = discordgo.ChannelID i ->
  discordgo.IData i'
  = discordgo.ModalSubmitInteractionData
      ("modal_" +:+ command +:+ "_" +:+ discordgo.ChannelID i)
      (answerPage typed (take 5 fields)) ->
  let key := stateKeyOf command (discordgo.ChannelID i) (discordgo.ID user) in
  exists w1 w2 state,
    handler i w = Done tt w1
    /\ handleModalSubmit i' w1 = Done tt w2
    /\ modalStates w2 !! key = Some state
    /\ size (SubmittedValues state) = 5
    /\ (forall field, field ∈ take 5 fields ->
          SubmittedValues state !! config.Label field
          = Some (typed (config.CustomID field)))
    /\ nextChunk state = Some (take 5 (drop 5 fields))
    /\ upstream w2 = upstream w
    /\ sent w2
       = message (partComplete 1 ((length fields + 4) / 5)) [continueButton key]
         :: sent w1.
Proof.
  intros Hhandler Hfields Hmany Hids Hlabels Hmember Hmember' Hchannel Hdata key.
  destruct (report_run command label handler i user fields title owner repo w
              Hhandler Hfields Hmember) as (reply & Hrun & _).
  destruct (Nat.ltb_spec 5 (length fields)) as [_|?]; [| lia].
  set (opened := {| Title := title; AllFields := fields; SubmittedValues := ∅;
                    Labels := ["from-discord"; label]; Command := command;
                    ChannelID := discordgo.ChannelID i; Owner := owner;
                    Repo := repo |}) in Hrun.
  fold key in Hrun.
  set (w1 := set_sent (reply :: sent w) (set_modalStates <[key := opened]> w)) in Hrun.
  set (merged := mergeSubmission opened (answerPage typed (take 5 fields))).
  assert (Hfree : strings.Contains command "_" = false).
  { by destruct Hhandler as [(-> & _)|(-> & _)]. }
  assert (Hother : command <> "continue").
  { by destruct Hhandler as [(-> & _)|(-> & _)]. }
  assert (Hparts :
    strings.Split ("modal_" +:+ command +:+ "_" +:+ discordgo.ChannelID i) "_"
      !! 1%nat = Some command).
  { change ("modal_" +:+ command +:+ "_" +:+ discordgo.ChannelID i)
      with ("modal" +:+ String "_" (command +:+ String "_" (discordgo.ChannelID i))).
    by rewrite !Split_segment. }
  assert (Hstored : modalStates w1
                      !! stateKeyOf command (discordgo.ChannelID i')
                           (discordgo.ID user) = Some opened).
  { rewrite Hchannel. apply lookup_insert_eq. }
  pose proof (handleModalSubmit_stored i' _ command _ user opened w1 Hdata Hmember'
                Hparts Hother Hstored) as Hsubmit.
  rewrite Hchannel in Hsubmit. fold key merged in Hsubmit.
  assert (Hanswers : textInputsOf (answerPage typed (take 5 fields))
                     = answerInput typed <$> take 5 fields)
    by apply textInputsOf_answerPage.
  assert (Hsub : take 5 fields ⊆ AllFields opened).
  { intros field Hfield. apply elem_of_take in Hfield as (n & Hfield & _).
    by eapply list_elem_of_lookup_2. }
  assert (Hpage : NoDup (config.Label <$> take 5 fields)).
  { rewrite <- (take_drop 5 fields), fmap_app in Hlabels.
    by apply NoDup_app in Hlabels as [? _]. }
  destruct (answers_collected typed opened (take 5 fields) Hids Hpage Hsub eq_refl)
    as [Hsize Hvalues].
  rewrite <- Hanswers, <- mergeSubmission_inputs in Hsize, Hvalues.
  fold merged in Hsize, Hvalues.
  rewrite length_take in Hsize. replace (5 `min` length fields) with 5 in Hsize by lia.
  assert (Hall : AllFields merged = fields) by apply mergeSubmission_AllFields.
  rewrite afterMerge_progress in Hsubmit by (rewrite Hsize, Hall; lia).
  eexists w1, _, merged. split; [exact Hrun |]. split; [exact Hsubmit |].
  cbn. split; [apply lookup_insert_eq |]. split; [exact Hsize |].
  split; [exact Hvalues |]. split.
  { unfold nextChunk. rewrite Hsize, Hall. apply chunkAt_take_drop. lia. }
  split; [done |]. unfold totalParts. by rewrite Hsize, Hall.
Qed.

End opening.

(** ** The repository cache *)

Section repository_cache.

Import repoclient.

Context {Repository : Type}.
Variable Repositories_Get : nat -> string -> string -> github.error + Repository.

(** A step never removes an entry. *)
Lemma step_keeps_key (g : nat) (s s' : System Repository) (key : string) :
  step Repositories_Get g s = Some s' ->
  is_Some (repoCache (client s) !! key) ->
  is_Some (repoCache (client s') !! key).
Proof.
  unfold step. intros Hstep Hkey.
  destruct (callers s !! g) as [c|]; [| done].
  destruct (pc c) as [| |repository|result]; [| | | done].
  - destruct (repoCache (client s) !! cacheKey c); by injection Hstep as <-.
  - destruct (Repositories_Get _ _ _); by injection Hstep as <-.
  - injection Hstep as <-. cbn.
    destruct (decide (cacheKey c = key)) as [->|Hne].
    + rewrite lookup_insert_eq. by eexists.
    + by rewrite lookup_insert_ne.
Qed.

Lemma run_keeps_key (schedule : list nat) (s s' : System Repository) (key : string) :
  run Repositories_Get schedule s = Some s' ->
  is_Some (repoCache (client s) !! key) ->
  is_Some (repoCache (client s') !! key).
Proof.
  revert s; induction schedule as [|g rest IH]; intros s; cbn [run].
  - by intros [= <-].
  - destruct (step Repositories_Get g s) as [s1|] eqn:Hstep; [| done].
    intros Hrun Hkey. apply (IH s1 Hrun). by eapply step_keeps_key.
Qed.

Lemma moved_callers (g : nat) (c c' : Caller Repository) (pc' : PC Repository)
    (cl : LiveGitHubClient Repository) (s : System Repository) :
  callers s !! g = Some c ->
  c' ∈ callers (move g c pc' cl s) ->
  c' ∈ callers s
  \/ c' = {| owner := owner c; repo := repo c; pc := pc' |}.
Proof.
  intros Hc Hin. cbn in Hin.
  apply list_elem_of_lookup in Hin as (n & Hn).
  apply list_lookup_insert_Some in Hn as [(-> & <- & _)|(_ & Hn)]; [by right |].
  left. by eapply list_elem_of_lookup_2.
Qed.

(** While no caller for the key is past its lookup, a stored value stays. *)
Lemma step_keeps_value (g : nat) (s s' : System Repository) (key : string)
    (r : Repository) :
  step Repositories_Get g s = Some s' ->
  repoCache (client s) !! key = Some r ->
  settled key s ->
  repoCache (client s') !! key = Some r /\ settled key s'.
Proof.
  unfold step. intros Hstep Hkey Hsettled.
  destruct (callers s !! g) as [c|] eqn:Hc; [| done].
  assert (Hin : c ∈ callers s) by (by eapply list_elem_of_lookup_2).
  assert (Hothers : forall pc' cl,
            (cacheKey c = key -> pc' = Check \/ exists result, pc' = Returned result) ->
            settled key (move g c pc' cl s)).
  { intros pc' cl Hpc c' Hc' Hkey'.
    apply (moved_callers g c c' pc' cl s Hc) in Hc' as [Hold| ->].
    - by apply Hsettled.
    - apply Hpc. exact Hkey'. }
  destruct (pc c) as [| |repository|result] eqn:Hpc; [| | | done].
  - destruct (repoCache (client s) !! cacheKey c) as [cached|] eqn:Hcached;
      injection Hstep as <-; (split; [exact Hkey |]); apply Hothers.
    + intros _. right. by eexists.
    + intros Hsame. rewrite Hsame, Hkey in Hcached. done.
  - assert (Hne : cacheKey c <> key).
    { intros Hsame. destruct (Hsettled c Hin Hsame) as [?| [? ?]]; congruence. }
    destruct (Repositories_Get _ _ _); injection Hstep as <-;
      (split; [exact Hkey |]); apply Hothers; done.
  - assert (Hne : cacheKey c <> key).
    { intros Hsame. destruct (Hsettled c Hin Hsame) as [?| [? ?]]; congruence. }
    injection Hstep as <-. split.
    + cbn. by rewrite lookup_insert_ne.
    + apply Hothers. done.
Qed.

Lemma run_keeps_value (schedule : list nat) (s s' : System Repository)
    (key : string) (r : Repository) :
  run Repositories_Get schedule s = Some s' ->
  repoCache (client s) !! key = Some r ->
  settled key s ->
  repoCache (client s') !! key = Some r /\ settled key s'.
Proof.
  revert s; induction schedule as [|g rest IH]; intros s; cbn [run].
  - by intros [= <-].
  - destruct (step Repositories_Get g s) as [s1|] eqn:Hstep; [| done].
    intros Hrun Hkey Hsettled.
    destruct (step_keeps_value g s s1 key r Hstep Hkey Hsettled) as [Hkey1 Hsettled1].
    by apply (IH s1).
Qed.

(** X23 — an entry of the repository cache is never removed: once a
    repository is stored under a key, then under every interleaving of the
    callers the key stays stored, and a call that looks the key up is
    answered with the stored value without a request.  The value is the one
    first stored for as long as no caller for the key is past its lookup;
    a caller that had missed before the store still asks and overwrites the
    entry with its own answer. *)
Theorem repository_stays_cached (schedule : list nat) (s s' : System Repository)
    (key : string) (r : Repository) :
  run Repositories_Get schedule s = Some s' ->
  repoCache (client s) !! key = Some r ->
  (exists r',
     repoCache (client s') !! key = Some r'
     /\ forall g c,
          callers s' !! g = Some c -> pc c = Check -> cacheKey c = key ->
          step Repositories_Get g s'
          = Some {| client := client s';
                    callers := <[g := {| owner := owner c; repo := repo c;
                                         pc := Returned (inr r') |}]> (callers s') |})
  /\ (settled key s -> repoCache (client s') !! key = Some r /\ settled key s').
Proof.
  intros Hrun Hkey. split.
  - destruct (run_keeps_key schedule s s' key Hrun) as [r' Hr']; [by eexists |].
    exists r'. split; [exact Hr' |].
    intros g c Hc Hpc Hsame. unfold step. by rewrite Hc, Hpc, Hsame, Hr'.
  - intros Hsettled. by eapply run_keeps_value.
Qed.

End repository_cache.

(** ** Filling the caches *)

Section cache_fill.

Context `{!Env, !github.Client}.

Local Open Scope Z_scope.

Lemma clockReads_iter_tick (k : nat) (w : World) :
  clockReads (Nat.iter k tick w) = (clockReads w + k)%nat.
Proof.
  induction k as [|k IH]; [cbn; lia |].
  change (Nat.iter (S k) tick w) with (tick (Nat.iter k tick w)).
  unfold tick at 1. cbn [clockReads set_clockReads]. rewrite IH. lia.
Qed.

Lemma comparisonCache_iter_tick (k : nat) (w : World) :
  comparisonCache (Nat.iter k tick w) = comparisonCache w.
Proof.
  induction k as [|k IH]; [done |].
  change (Nat.iter (S k) tick w) with (tick (Nat.iter k tick w)). exact IH.
Qed.

(** X24 — a comparison that had to be fetched is served from the cache
    afterwards: on a miss with a successful [CompareCommits], the message is
    the formatted comparison, it is stored under [base...head] with the time
    of the store, no other entry changes, and a later call for the same pair
    whose clock reading is less than the TTL after the store returns the
    same message without an upstream call. *)
Theorem comparison_fetched_then_served (base head : string)
    (comparison : gogithub.CommitsComparison) (k : nat) (w : World) :
  comparisonCache w !! cacheKeyOf base head = None ->
  github.CompareCommits (length (upstream w)) GithubOwner GithubRepo base head
  = inr comparison ->
  time.Sub (clock (S (clockReads w) + k)) (clock (clockReads w)) < comparisonCacheTTL ->
  let message := formatChangelogMessage base head comparison in
  exists w1,
    getChangelogMessage base head w = Done (message, None) w1
    /\ upstream w1
       = github.CallCompareCommits GithubOwner GithubRepo base head :: upstream w
    /\ (forall other, other <> cacheKeyOf base head ->
          comparisonCache w1 !! other = comparisonCache w !! other)
    /\ getChangelogMessage base head (Nat.iter k tick w1)
       = Done (message, None) (tick (Nat.iter k tick w1)).
Proof.
  intros Hmiss Hfetch Hyoung message.
  assert (Hfirst : getChangelogMessage base head w = fetchComparison base head w).
  { unfold getChangelogMessage, fetchComparison. unfold_M.
    rewrite comparisonFresh_run, Hmiss. cbv beta iota.
    rewrite comparisonFresh_run, Hmiss. cbv beta iota.
    unfold GithubClient_CompareCommits, Now.
    by destruct (github.CompareCommits _ _ _ _ _). }
  rewrite Hfirst. unfold fetchComparison. rewrite Hfetch. fold message.
  eexists. split; [reflexivity |]. split; [reflexivity |]. split.
  { intros other Hother. cbn. by rewrite lookup_insert_ne. }
  apply (getChangelogMessage_fresh base head
           {| Message := message; Timestamp := clock (clockReads w) |}).
  - rewrite comparisonCache_iter_tick. cbn. apply lookup_insert_eq.
  - rewrite clockReads_iter_tick. exact Hyoung.
Qed.

Lemma releaseCache_iter_tick (k : nat) (w : World) :
  releaseCache (Nat.iter k tick w) = releaseCache w
  /\ lastCacheUpdate (Nat.iter k tick w) = lastCacheUpdate w
  /\ upstream (Nat.iter k tick w) = upstream w.
Proof.
  induction k as [|k IH]; [done |].
  change (Nat.iter (S k) tick w) with (tick (Nat.iter k tick w)). exact IH.
Qed.

(** X25 — what a successful fetch of the release list leaves behind: the
    fetched list with the time read after the fetch.  A list with at least
    one release is then served without an upstream call for as long as the
    clock reads less than the cache duration after that time; an empty list
    is never served, every later call fetches again however young the
    entry. *)
Theorem releases_fetched_then_served
    (releases : list gogithub.RepositoryRelease) (k : nat) (w : World) :
  (forall n, clock n <= clock (S n)) ->
  releaseCache w = []
  \/ cacheDuration <= time.Sub (clock (clockReads w)) (lastCacheUpdate w) ->
  github.GetReleases (length (upstream w)) GithubOwner GithubRepo 100 = inr releases ->
  exists w1,
    updateReleaseCache w = Done None w1
    /\ releaseCache w1 = releases
    /\ lastCacheUpdate w1 = clock (S (S (clockReads w)))
    /\ upstream w1 = github.CallGetReleases GithubOwner GithubRepo 100 :: upstream w
    /\ (releases <> [] ->
        time.Sub (clock (clockReads w1 + k)) (lastCacheUpdate w1) < cacheDuration ->
        updateReleaseCache (Nat.iter k tick w1) = Done None (tick (Nat.iter k tick w1)))
    /\ (releases = [] ->
        exists r w2,
          updateReleaseCache (Nat.iter k tick w1) = Done r w2
          /\ upstream w2
             = github.CallGetReleases GithubOwner GithubRepo 100 :: upstream w1).
Proof.
  intros Hmono Hstale Hfetch.
  rewrite (updateReleaseCache_stale w Hmono Hstale), Hfetch.
  eexists. split; [reflexivity |]. split; [reflexivity |]. split; [reflexivity |].
  split; [reflexivity |].
  match goal with |- context [Nat.iter k tick ?w'] => set (w1 := w') end.
  destruct (releaseCache_iter_tick k w1) as (Hlist & Hlast & Hcalls).
  split.
  - intros Hsome Hyoung. apply updateReleaseCache_fresh.
    + by rewrite Hlist.
    + by rewrite clockReads_iter_tick, Hlast.
  - intros Hnone.
    rewrite (updateReleaseCache_stale (Nat.iter k tick w1) Hmono)
      by (left; by rewrite Hlist).
    rewrite Hcalls.
    destruct (github.GetReleases (length (upstream w1)) _ _ _); eexists _, _;
      (split; [reflexivity |]); done.
Qed.

End cache_fill.

Section first_line.

Context `{!Env, !github.Client}.

(** X26 — the line of a commit shows the first line of the commit message
    only: [firstLine] holds no newline, the message is [firstLine] followed
    by nothing or by a newline and the rest, and a message without a newline
    is shown whole. *)
Theorem firstLine_spec (message : string) :
  strings.Contains (firstLine message) github.nl = false
  /\ (exists rest, message = firstLine message +:+ rest
                   /\ (rest = "" \/ strings.HasPrefix rest github.nl = true))
  /\ (strings.Contains message github.nl = false -> firstLine message = message).
Proof.
  induction message as [|c message (IHfree & (rest & IHsplit & IHrest) & IHwhole)].
  - split; [done |]. split; [| done]. exists "". by split; [| left].
  - cbn [firstLine].
    destruct (Ascii.eqb_spec c (Ascii.ascii_of_nat 10)) as [->|Hc].
    + split; [done |]. split.
      * exists (String (Ascii.ascii_of_nat 10) message). split; [done |]. right.
        unfold strings.HasPrefix, github.nl. cbn.
        destruct (Ascii.ascii_dec _ _); [by destruct message | done].
      * intros Hnone. by apply Contains_head_false in Hnone.
    + assert (Hhead : forall s, String.prefix github.nl (String c s) = false).
      { intros s. unfold github.nl. cbn [String.prefix].
        destruct (Ascii.ascii_dec (Ascii.ascii_of_nat 10) c); [congruence | done]. }
      split; [| split].
      * cbn [strings.Contains]. by rewrite Hhead, IHfree.
      * exists rest. split; [| done].
        change (String c (firstLine message) +:+ rest)
          with (String c (firstLine message +:+ rest)). by rewrite <- IHsplit.
      * cbn [strings.Contains]. rewrite Hhead. cbn [orb]. intros Hnone.
        by rewrite IHwhole.
Qed.

End first_line.

(** ** Validation of the configuration *)

Section validation.

Import envconfig.

Context `{!Env}.

Variable os_Stat : string -> FileInfo.

Lemma find_empty_None (entries : list (string * string)) :
  List.find (fun '(envVar, value) => String.eqb value "") entries = None
  <-> forall envVar value, (envVar, value) ∈ entries -> value <> "".
Proof.
  induction entries as [|[envVar value] entries IH]; cbn [List.find].
  - split; [by intros _ ? ? ?%elem_of_nil | done].
  - destruct (String.eqb_spec value "") as [->|Hvalue].
    + split; [done |]. intros Hall. destruct (Hall envVar ""); [left | done].
    + rewrite IH. split.
      * intros Hall k v [[= -> ->]|Hin]%elem_of_cons; [done | by eapply Hall].
      * intros Hall k v Hin. apply (Hall k v). by right.
Qed.

Lemma find_empty_Some (entries : list (string * string)) (envVar value : string) :
  List.find (fun '(envVar, value) => String.eqb value "") entries
  = Some (envVar, value) ->
  (envVar, value) ∈ entries /\ value = "".
Proof.
  induction entries as [|[k v] entries IH]; cbn [List.find]; [done |].
  destruct (String.eqb_spec v "") as [->|Hvalue].
  - intros [= <- <-]. split; [left | done].
  - intros [Hin ?]%IH. split; [by right | done].
Qed.

(** X27 — [Validate] accepts a configuration exactly when the Discord token,
    the server identifier, the GitHub token and the configuration path are
    all non-empty and the path names an existing file that is not a
    directory.  When a required value is empty the error names one of the
    empty ones, which one depending on the order of the [range], and the
    file is not looked at. *)
Theorem Validate_accepts_iff (c : Config) :
  (forall m : gmap string string, rangeOrder m ≡ₚ map_to_list m) ->
  (Validate os_Stat c = None
   <-> DiscordToken c <> "" /\ ServerID c <> "" /\ GithubToken c <> ""
       /\ ConfigPath c <> "" /\ os_Stat (ConfigPath c) = IsFile)
  /\ (DiscordToken c = "" \/ ServerID c = "" \/ GithubToken c = ""
      \/ ConfigPath c = "" ->
      exists envVar value,
        Validate os_Stat c = Some (envVar +:+ " is required")
        /\ value = ""
        /\ (envVar, value) ∈ [(EnvDiscordToken, DiscordToken c);
                               (EnvDiscordServerID, ServerID c);
                               (EnvGitHubToken, GithubToken c);
                               (EnvConfigPath, ConfigPath c)]).
Proof.
  intros Horder. unfold Validate.
  set (requiredFields :=
         <[EnvConfigPath := ConfigPath c]>
           (<[EnvGitHubToken := GithubToken c]>
              (<[EnvDiscordServerID := ServerID c]>
                 (<[EnvDiscordToken := DiscordToken c]> (∅ : gmap string string))))).
  assert (Hentries : forall envVar value,
            (envVar, value) ∈ rangeOrder requiredFields
            <-> (envVar, value) ∈ [(EnvDiscordToken, DiscordToken c);
                                   (EnvDiscordServerID, ServerID c);
                                   (EnvGitHubToken, GithubToken c);
                                   (EnvConfigPath, ConfigPath c)]).
  { intros envVar value. rewrite (Horder requiredFields), elem_of_map_to_list.
    unfold requiredFields. rewrite !lookup_insert_Some, lookup_empty.
    rewrite !elem_of_cons, elem_of_nil.
    unfold EnvConfigPath, EnvGitHubToken, EnvDiscordServerID, EnvDiscordToken.
    naive_solver. }
  destruct (List.find _ (rangeOrder requiredFields)) as [[envVar value]|] eqn:Hfind.
  - apply find_empty_Some in Hfind as [Hin ->]. apply Hentries in Hin.
    split.
    + split; [done |]. intros (Htoken & Hserver & Hgithub & Hpath & _).
      rewrite !elem_of_cons, elem_of_nil in Hin.
      destruct Hin as [[= _ ?]| [[= _ ?]| [[= _ ?]| [[= _ ?]| []]]]]; congruence.
    + intros _. by exists envVar, "".
  - pose proof (proj1 (find_empty_None _) Hfind) as Hall.
    assert (Hnonempty : DiscordToken c <> "" /\ ServerID c <> ""
                        /\ GithubToken c <> "" /\ ConfigPath c <> "").
    { repeat split; eapply Hall; apply Hentries; rewrite !elem_of_cons; eauto 6. }
    split.
    + destruct (os_Stat (ConfigPath c)); (split; [try done | by intros (_&_&_&_&?)]).
      intros _. tauto.
    + intros Hempty. tauto.
Qed.

End validation.

(** ** The first form *)

Section first_form.

Import modalconfig modalform.

Variable loadedModals : option ModalsConfig.
Variable FetchGitHubTemplate :
  nat -> templateurl.TemplateURL -> github.error + GitHubIssueTemplate.

Lemma foldl_append_map {T U} (f : T -> U) (l : list T) (acc : list U) :
  foldl (fun components x => (components ++ [f x])%list) acc l
  = (acc ++ (f <$> l))%list.
Proof.
  revert acc; induction l as [|x l IH]; intros acc; cbn [foldl fmap list_fmap].
  - by rewrite app_nil_r.
  - rewrite IH. by rewrite <- app_assoc.
Qed.

Lemma fieldRow_input (field : config.FieldConfig) :
  exists textInput,
    fieldRow field = {| RowComponents := [textInput] |}
    /\ CustomID textInput = config.CustomID field
    /\ Label textInput = config.Label field
    /\ Style textInput
       = (if String.eqb (config.Style field) "paragraph"
          then discordgo.TextInputParagraph else discordgo.TextInputShort)
    /\ Placeholder textInput = config.Placeholder field
    /\ Required textInput = config.Required field
    /\ MinLength textInput = Z.max 0 (config.MinLength field)
    /\ MaxLength textInput = Z.max 0 (config.MaxLength field).
Proof.
  unfold fieldRow.
  destruct (Z.ltb_spec 0 (config.MinLength field)),
    (Z.ltb_spec 0 (config.MaxLength field));
    eexists; (split; [reflexivity |]); cbn; repeat split; lia.
Qed.

(** X28 — [GetModel] and [GetAllFieldsForModal] each fetch the template
    with a request of their own.  When the request of [GetModel] is
    answered as the one of [GetAllFieldsForModal] was, and always when the
    modal found has no template address, the first form shows the first
    five of the fields that [GetAllFieldsForModal] returns for the same
    command and channel, under the same title and the identifier
    [modal_<command>_<channel>], and [GetModel] fails exactly when
    [GetAllFieldsForModal] fails, with the same error.  Each row holds one
    text input with the identifier, label and required flag of its field;
    the placeholder is passed on whole, at any length, and a length bound
    is sent only when it is positive.  When the two answers differ the two
    results need not agree. *)
Theorem GetModel_first_five (n m : nat) (command channelID : string) :
  (forall loaded modalConfig templateURL,
     loadedModals = Some loaded ->
     findModal (Modals loaded) command channelID = Some modalConfig ->
     TemplateURL modalConfig = Some templateURL ->
     FetchGitHubTemplate m templateURL = FetchGitHubTemplate n templateURL) ->
  (forall err,
     GetAllFieldsForModal loadedModals (FetchGitHubTemplate n) command channelID
     = inl err
     <-> GetModel loadedModals FetchGitHubTemplate m command channelID = inl err)
  /\ (forall fields title,
        GetAllFieldsForModal loadedModals (FetchGitHubTemplate n) command channelID
        = inr (fields, title) ->
        exists modalData,
          GetModel loadedModals FetchGitHubTemplate m command channelID
          = inr modalData
          /\ DataCustomID modalData = "modal_" +:+ command +:+ "_" +:+ channelID
          /\ DataTitle modalData = title
          /\ length (DataComponents modalData) = Nat.min 5 (length fields)
          /\ forall k field,
               k < 5 -> fields !! k = Some field ->
               exists textInput,
                 DataComponents modalData !! k
                 = Some {| RowComponents := [textInput] |}
                 /\ CustomID textInput = config.CustomID field
                 /\ Label textInput = config.Label field
                 /\ Style textInput
                    = (if String.eqb (config.Style field) "paragraph"
                       then discordgo.TextInputParagraph
                       else discordgo.TextInputShort)
                 /\ Placeholder textInput = config.Placeholder field
                 /\ Required textInput = config.Required field
                 /\ MinLength textInput = Z.max 0 (config.MinLength field)
                 /\ MaxLength textInput = Z.max 0 (config.MaxLength field)).
Proof.
  intros Hsame.
  assert (Hpage : forall fields : list config.FieldConfig,
            (if (5 <? length fields)%nat then take 5 fields else fields)
            = take 5 fields).
  { intros fields. destruct (Nat.ltb_spec 5 (length fields)); [done |].
    by rewrite take_ge. }
  unfold GetAllFieldsForModal, GetModel.
  destruct loadedModals as [loaded|];
    [| split; [intros err; split; intros [= <-]; reflexivity | by intros]].
  destruct (findModal (Modals loaded) command channelID) as [modalConfig|] eqn:Hfound;
    [| split; [intros err; split; intros [= <-]; reflexivity | by intros]].
  assert (Hform : forall all : list config.FieldConfig,
            exists modalData,
              inr {| DataCustomID := "modal_" +:+ command +:+ "_" +:+ channelID;
                     DataTitle := Title modalConfig;
                     DataComponents :=
                       foldl (fun components field =>
                                (components ++ [fieldRow field])%list) []
                         (if (5 <? length all)%nat then take 5 all else all) |}
              = @inr github.error _ modalData
              /\ DataCustomID modalData = "modal_" +:+ command +:+ "_" +:+ channelID
              /\ DataTitle modalData = Title modalConfig
              /\ length (DataComponents modalData) = Nat.min 5 (length all)
              /\ forall k field,
                   k < 5 -> all !! k = Some field ->
                   exists textInput,
                     DataComponents modalData !! k
                     = Some {| RowComponents := [textInput] |}
                     /\ CustomID textInput = config.CustomID field
                     /\ Label textInput = config.Label field
                     /\ Style textInput
                        = (if String.eqb (config.Style field) "paragraph"
                           then discordgo.TextInputParagraph
                           else discordgo.TextInputShort)
                     /\ Placeholder textInput = config.Placeholder field
                     /\ Required textInput = config.Required field
                     /\ MinLength textInput = Z.max 0 (config.MinLength field)
                     /\ MaxLength textInput = Z.max 0 (config.MaxLength field)).
  { intros all. rewrite Hpage, foldl_append_map. cbn [app].
    eexists. split; [reflexivity |]. cbn.
    split; [done |]. split; [done |].
    split; [by rewrite length_fmap, length_take |].
    intros k field Hk Hfield.
    destruct (fieldRow_input field) as (textInput & Hrow & Hrest).
    exists textInput. split; [| exact Hrest].
    rewrite list_lookup_fmap, lookup_take_lt by done. rewrite Hfield. cbn.
    by rewrite Hrow. }
  destruct (TemplateURL modalConfig) as [templateURL|] eqn:Htemplate.
  - rewrite (Hsame loaded modalConfig templateURL eq_refl Hfound Htemplate).
    destruct (FetchGitHubTemplate n templateURL) as [failure|template]; cbv zeta.
    + split; [intros err; split; intros [= <-]; reflexivity | by intros].
    + split; [intros; split; intros; discriminate |].
      intros fields title [= <- <-]. apply Hform.
  - cbv zeta. split; [intros; split; intros; discriminate |].
    intros fields title [= <- <-]. apply Hform.
Qed.

End first_form.

(** ** The further properties on concrete data *)

Section sample_instances.

Import examples scenarios samples.

#[local] Existing Instance env.
#[local] Existing Instance workingClient.

Lemma FindFAQItem_first_exact_witness :
  faqconfig.FindFAQItem faqData "lora" = None
  /\ faqconfig.Name <$> faqconfig.FindFAQItem faqData "LoRa" = Some "LoRa".
Proof.
  split.
  - apply (proj2 (FindFAQItem_first_exact faqData "lora")).
    apply (bool_decide_unpack _). by vm_compute.
  - reflexivity.
Defined.

Lemma faq_autocomplete_choices_witness :
  exists choices,
    handleFaqAutocomplete (Some faqData) (faqRequest "MODULE") coldWorld
    = Done tt (set_sent (autocompleteResult choices :: sent coldWorld) coldWorld)
    /\ (length choices <= 25)%nat
    /\ discordgo.ChoiceValue <$> choices = ["Telemetry Module"].
Proof.
  destruct (faq_autocomplete_choices faqData (faqRequest "MODULE") "faq" "MODULE"
              [{| discordgo.OptName := "topic";
                  discordgo.OptValue := discordgo.OptString "MODULE";
                  discordgo.Focused := true |}] coldWorld eq_refl eq_refl)
    as (_ & choices & Hrun & Hlen & Hchoices & _).
  exists choices. split; [exact Hrun |]. split; [exact Hlen |].
  rewrite Hchoices. reflexivity.
Defined.

Lemma faq_choice_answered_witness :
  exists item,
    handleFaq (Some faqData) (faqRequest "Telemetry Module") coldWorld
    = Done tt (set_sent (faqAnswer item :: sent coldWorld) coldWorld)
    /\ item ∈ faqconfig.GetAllFAQItems faqData
    /\ faqconfig.Name item = "Telemetry Module".
Proof.
  apply (faq_choice_answered faqData (faqRequest "MODULE")
           (faqRequest "Telemetry Module") "faq" "faq" "MODULE"
           [{| discordgo.OptName := "topic";
               discordgo.OptValue := discordgo.OptString "MODULE";
               discordgo.Focused := true |}] []
           {| discordgo.OptName := "topic";
              discordgo.OptValue := discordgo.OptString "Telemetry Module";
              discordgo.Focused := true |}
           [{| discordgo.ChoiceName := "Telemetry Module";
               discordgo.ChoiceValue := "Telemetry Module" |}]
           {| discordgo.ChoiceName := "Telemetry Module";
              discordgo.ChoiceValue := "Telemetry Module" |}
           coldWorld
           (set_sent [autocompleteResult
                        [{| discordgo.ChoiceName := "Telemetry Module";
                            discordgo.ChoiceValue := "Telemetry Module" |}]]
              coldWorld)
           coldWorld);
    [reflexivity | reflexivity | reflexivity | reflexivity | apply list_elem_of_here
    | reflexivity | reflexivity].
Defined.

Lemma ParseTemplateURL_github_witness :
  exists t,
    templateurl.ParseTemplateURL
      "https://github.com/meshtastic/web/blob/main/.github/ISSUE_TEMPLATE/bug.yml"
    = inr t
    /\ templateurl.Owner t = "meshtastic"
    /\ templateurl.Repo t = "web"
    /\ templateurl.path t = "blob/main/.github/ISSUE_TEMPLATE/bug.yml"
    /\ templateurl.IssueAPIURL t = "https://api.github.com/repos/meshtastic/web/issues".
Proof.
  destruct (ParseTemplateURL_github "https://" "meshtastic" "web"
              "blob/main/.github/ISSUE_TEMPLATE/bug.yml")
    as (t & Hparse & _ & Howner & Hrepo & Hpath & Hissues);
    [apply list_elem_of_here | reflexivity | reflexivity |].
  exists t. split; [exact Hparse |]. split; [exact Howner |]. split; [exact Hrepo |].
  split; [exact Hpath | exact Hissues].
Defined.

Lemma RawURL_removes_first_blob_witness :
  templateurl.RawURL
    {| templateurl.original := "";
       templateurl.owner := "meshtastic";
       templateurl.repo := "web";
       templateurl.path := "blob/main/.github/ISSUE_TEMPLATE/bug.yml" |}
  = "https://raw.githubusercontent.com/meshtastic/web/main/.github/ISSUE_TEMPLATE/bug.yml"
  /\ templateurl.RawURL
       {| templateurl.original := "";
          templateurl.owner := "meshtastic";
          templateurl.repo := "web";
          templateurl.path := "tree/main/myblob/bug.yml" |}
     = "https://raw.githubusercontent.com/meshtastic/web/tree/main/mybug.yml".
Proof.
  split.
  - apply (proj1 (RawURL_removes_first_blob
                    {| templateurl.original := "";
                       templateurl.owner := "meshtastic";
                       templateurl.repo := "web";
                       templateurl.path := "blob/main/.github/ISSUE_TEMPLATE/bug.yml" |}
                    "" "main/.github/ISSUE_TEMPLATE/bug.yml")); reflexivity.
  - reflexivity.
Defined.

Lemma ParseTemplateURL_error_witness :
  (exists err, templateurl.ParseTemplateURL "https://github.com/meshtastic" = inl err)
  /\ exists t, templateurl.ParseTemplateURL "https://example.org/page" = inr t
               /\ templateurl.Owner t = "example.org".
Proof.
  split.
  - apply (proj2 (ParseTemplateURL_error "https://github.com/meshtastic")).
    right. reflexivity.
  - eexists. split; reflexivity.
Defined.

Lemma report_opens_session_witness :
  exists w' reply state,
    handleBug sevenFieldForm noForm bugCommand pendingWorld = Done tt w'
    /\ sent w' = reply :: sent pendingWorld
    /\ discordgo.Type_ reply = discordgo.InteractionResponseChannelMessageWithSource
    /\ modalStates w' !! sessionKey = Some state
    /\ SubmittedValues state = ∅.
Proof.
  destruct (report_opens_session sevenFieldForm noForm "bug" "bug"
              (handleBug sevenFieldForm noForm) bugCommand user sevenFields
              "Bug Report" "meshtastic" "firmware" pendingWorld)
    as (w' & reply & Hrun & Hsent & _ & _ & _ & Hmany & Hfailed);
    [left; done | reflexivity | reflexivity |].
  destruct Hmany as (state & Hstate & _ & Hempty & _); [vm_compute; lia |].
  destruct (Hfailed "modals not loaded" eq_refl) as [Htype _].
  by exists w', reply, state.
Defined.

Lemma opened_report_continues_witness :
  exists w1 w2 state,
    handleBug sevenFieldForm noForm bugCommand coldWorld = Done tt w1
    /\ handleModalSubmit
         (submission "modal_bug_100" (answerPage typed (take 5 sevenFields))) w1
       = Done tt w2
    /\ modalStates w2 !! sessionKey = Some state
    /\ size (SubmittedValues state) = 5
    /\ nextChunk state = Some [field "6"; field "7"].
Proof.
  destruct (opened_report_continues sevenFieldForm noForm "bug" "bug"
              (handleBug sevenFieldForm noForm) bugCommand
              (submission "modal_bug_100" (answerPage typed (take 5 sevenFields)))
              user sevenFields "Bug Report" "meshtastic" "firmware" typed coldWorld)
    as (w1 & w2 & state & Hopen & Hsubmit & Hstate & Hsize & _ & Hnext & _);
    [left; done | reflexivity | vm_compute; lia
    | apply (bool_decide_unpack _); by vm_compute
    | apply (bool_decide_unpack _); by vm_compute
    | reflexivity | reflexivity | reflexivity | reflexivity |].
  by exists w1, w2, state.
Defined.

Lemma comparison_fetched_then_served_witness :
  exists w1,
    getChangelogMessage "v1.0.0" "v2.0.0" coldWorld
    = Done (formatChangelogMessage "v1.0.0" "v2.0.0" noCommits, None) w1
    /\ getChangelogMessage "v1.0.0" "v2.0.0" (Nat.iter 3 tick w1)
       = Done (formatChangelogMessage "v1.0.0" "v2.0.0" noCommits, None)
           (tick (Nat.iter 3 tick w1)).
Proof.
  destruct (comparison_fetched_then_served "v1.0.0" "v2.0.0" noCommits 3 coldWorld)
    as (w1 & Hfirst & _ & _ & Hsecond); [reflexivity | reflexivity | by vm_compute |].
  by exists w1.
Defined.

Lemma releases_fetched_then_served_witness :
  exists w1,
    updateReleaseCache coldWorld = Done None w1
    /\ releaseCache w1 = [release "v2.0.0"; release "v1.0.0"]
    /\ updateReleaseCache (Nat.iter 3 tick w1) = Done None (tick (Nat.iter 3 tick w1)).
Proof.
  destruct (releases_fetched_then_served [release "v2.0.0"; release "v1.0.0"] 3
              coldWorld env_clock_monotone)
    as (w1 & Hfirst & Hlist & Hlast & Hcalls & Hserved & _);
    [left; reflexivity | reflexivity |].
  exists w1. split; [exact Hfirst |]. split; [exact Hlist |].
  apply Hserved; [discriminate |].
  assert (Hreads : clockReads w1 = 3) by (revert Hfirst; vm_compute; by intros [= <-]).
  rewrite Hlast, Hreads. by vm_compute.
Defined.

Lemma Validate_accepts_iff_witness :
  envconfig.Validate onlyFiles config = None.
Proof.
  apply (proj1 (Validate_accepts_iff onlyFiles config (fun m => reflexivity _))).
  by repeat split.
Defined.

Lemma GetAllFieldsForModal_first_match_witness :
  modalconfig.GetAllFieldsForModal (Some modals) noTemplate "bug" "100"
  = inr (sevenFields, "Bug Report").
Proof.
  destruct (GetAllFieldsForModal_first_match modals noTemplate "bug" "100")
    as (_ & _ & Hfirst).
  apply (Hfirst [featureModal] bugModal []); [reflexivity | reflexivity | |].
  - apply (bool_decide_unpack _). by vm_compute.
  - intros earlier ->%list_elem_of_singleton. discriminate.
Defined.

Lemma shared_label_never_completes_witness :
  exists w' state,
    handleModalSubmit (submission "modal_bug_100" (answerPage typed twinFields))
      (set_modalStates <[sessionKey := twinSession]> coldWorld) = Done tt w'
    /\ modalStates w' !! sessionKey = Some state
    /\ size (SubmittedValues state) = 5
    /\ length (AllFields state) = 6
    /\ upstream w' = []
    /\ (discordgo.Content ∘ discordgo.Data) <$> sent w'
       = ["Part 1 of 2 complete. Click 'Continue' to proceed."].
Proof.
  assert (Hdup : ~ NoDup (config.Label <$> AllFields twinSession)).
  { intros Hdistinct. revert Hdistinct. apply (bool_decide_unpack _). by vm_compute. }
  assert (Hknown : knownInputs (AllFields twinSession) (answerPage typed twinFields)).
  { repeat constructor; apply (bool_decide_unpack _); by vm_compute. }
  assert (Hstored : modalStates (set_modalStates <[sessionKey := twinSession]> coldWorld)
                      !! sessionKey = Some twinSession).
  { apply lookup_insert_eq. }
  destruct (shared_label_never_completes
              (submission "modal_bug_100" (answerPage typed twinFields))
              "modal_bug_100" sessionKey (answerPage typed twinFields)
              twinSession (set_modalStates <[sessionKey := twinSession]> coldWorld)
              Hdup (collectedLabels_empty twinSession eq_refl) Hknown eq_refl Hstored)
    as (_ & _ & _ & _ & Hfirst).
  assert (Hne : "bug" <> "continue") by discriminate.
  specialize (Hfirst user "bug" eq_refl eq_refl Hne eq_refl).
  eexists _, _. split; [exact Hfirst |].
  split; [apply lookup_insert_eq |].
  split; [by vm_compute |].
  split; [by vm_compute |].
  split; [reflexivity |].
  by vm_compute.
Defined.

Lemma repository_stays_cached_witness :
  exists s s',
    repoclient.run numbered [0; 0; 0] fourCallers = Some s
    /\ repoclient.run numbered [2; 2; 2; 1] s = Some s'
    /\ repoclient.repoCache (repoclient.client s') !! "meshtastic/firmware"
       = Some "meshtastic/firmware#0"
    /\ repoclient.pc <$> repoclient.callers s' !! 1%nat
       = Some (repoclient.Returned (inr "meshtastic/firmware#0"))
    /\ repoclient.requests (repoclient.client s')
       = [("meshtastic", "web"); ("meshtastic", "firmware")].
Proof.
  eexists _, _. split; [vm_compute; reflexivity |].
  match goal with
  | |- repoclient.run _ _ ?s = _ /\ _ => set (s0 := s)
  end.
  split; [vm_compute; reflexivity |].
  match goal with
  | |- repoclient.repoCache (repoclient.client ?s') !! _ = _ /\ _ =>
      set (s1 := s')
  end.
  assert (Hs1 : repoclient.run numbered [2; 2; 2; 1] s0 = Some s1)
    by (vm_compute; reflexivity).
  assert (Hstored : repoclient.repoCache (repoclient.client s0)
                      !! "meshtastic/firmware"
                    = Some "meshtastic/firmware#0") by (vm_compute; reflexivity).
  assert (Hsettled : repoclient.settled "meshtastic/firmware" s0).
  { intros c Hc Hkey. apply list_elem_of_In in Hc. unfold s0 in Hc. cbn in Hc.
    destruct Hc as [<-| [<-| [<-| [<-| []]]]]; cbn; eauto. }
  destruct (repository_stays_cached numbered [2; 2; 2; 1] s0 s1 "meshtastic/firmware"
              "meshtastic/firmware#0" Hs1 Hstored)
    as [_ Hsame].
  destruct (Hsame Hsettled) as [Hvalue _].
  split; [exact Hvalue |]. by vm_compute.
Defined.


(** Two repoclient.callers that both miss before either stores: two repoclient.requests, and the
    second store replaces what the first one stored. *)
Example overlapping_callers_fetch_twice :
  exists s,
    repoclient.run numbered [0; 1; 0; 1; 0; 1] fourCallers = Some s
    /\ repoclient.requests (repoclient.client s)
       = [("meshtastic", "firmware"); ("meshtastic", "firmware")]
    /\ repoclient.pc <$> repoclient.callers s !! 0%nat
       = Some (repoclient.Returned (inr "meshtastic/firmware#0"))
    /\ repoclient.repoCache (repoclient.client s) !! "meshtastic/firmware"
       = Some "meshtastic/firmware#1".
Proof. eexists. split; [vm_compute; reflexivity |]. by vm_compute. Qed.

Lemma GetModel_first_five_witness :
  exists modalData,
    modalform.GetModel (Some modals) (fun _ => noTemplate) 1 "bug" "100"
    = inr modalData
    /\ modalform.DataCustomID modalData = "modal_bug_100"
    /\ length (modalform.DataComponents modalData) = 5.
Proof.
  destruct (GetModel_first_five (Some modals) (fun _ => noTemplate) 0 1 "bug" "100")
    as [_ Hform]; [reflexivity |].
  destruct (Hform sevenFields "Bug Report" eq_refl)
    as (modalData & Hrun & Hid & _ & Hrows & _).
  by exists modalData.
Defined.

(** When the request of [GetModel] fails after the one of
    [GetAllFieldsForModal] was answered, the fields are there and the first
    form is not. *)
Example GetModel_fails_alone :
  modalconfig.GetAllFieldsForModal (Some templateModals) (firstRequestOnly 0)
    "bug" "100"
  = inr ([{| config.CustomID := "title";
             config.Label := "Title";
             config.Style := "short";
             config.Placeholder := "";
             config.Required := true;
             config.MinLength := 1;
             config.MaxLength := 100 |}], "Bug Report")
  /\ modalform.GetModel (Some templateModals) firstRequestOnly 1 "bug" "100"
     = inl "failed to fetch template: timeout".
Proof. split; reflexivity. Qed.

End sample_instances.
